(** * VoiceRagAgent: ingestion, retrieval and the conversational tool

    A shallow embedding of the retrieval-augmented pipeline of the backend:
    [app/services/embeddings.py], [app/services/rag.py],
    [app/routers/equipment.py] and the [search_knowledge_base] tool of
    [app/bot.py].

    Conventions.
    - A Python [str] is a [string] holding the UTF-8 encoding of the text, so
      [text.encode()] is the underlying byte sequence.
    - A Python [int] is a [Z]; nothing wraps around.
    - Code that can raise returns a [result]; code that also touches the
      process state (the numpy generator, the database, the log) runs in the
      monad [M] of [Runtime].
    - Third-party libraries (numpy, langchain, the Atlas search operator) are
      interfaces, given as type classes. *)

From Stdlib Require Import ZArith List String Ascii Lia Bool Sorted.
From stdpp Require Import base option list strings gmap pretty.

#[local] Open Scope string_scope.
#[local] Open Scope list_scope.
#[local] Open Scope Z_scope.

(* ===================================================================== *)
(** ** Python values, exceptions and strings *)
(* ===================================================================== *)

Module Py.

(** The exception classes the sources raise or catch.  Every one of them
    derives from [Exception]; [BaseException]-only classes (task
    cancellation, interpreter exit) are not part of the model. *)
Inductive exn : Type :=
| ValueError (msg : string)
| InvalidId (msg : string)
| FileNotFoundError (msg : string)
| OperationFailure (msg : string)
| HTTPException (status_code : Z) (detail : string)
| Exception (msg : string).

Inductive result (A : Type) : Type :=
| Ok (a : A)
| Raise (e : exn).
Arguments Ok {A} a.
Arguments Raise {A} e.

Definition is_ok {A} (r : result A) : bool :=
  match r with Ok _ => true | Raise _ => false end.

(** [str(e)] *)
Definition exn_str (e : exn) : string :=
  match e with
  | ValueError m | InvalidId m | FileNotFoundError m
  | OperationFailure m | Exception m => m
  | HTTPException c d => pretty c +:+ ": " +:+ d
  end.

(** [type(e).__name__] *)
Definition exn_type_name (e : exn) : string :=
  match e with
  | ValueError _ => "ValueError"
  | InvalidId _ => "InvalidId"
  | FileNotFoundError _ => "FileNotFoundError"
  | OperationFailure _ => "OperationFailure"
  | HTTPException _ _ => "HTTPException"
  | Exception _ => "Exception"
  end.

(** The bytes of a string, as integers in [0, 256). *)
Definition byte_of (c : ascii) : Z := Z.of_N (N_of_ascii c).

Fixpoint bytes (s : string) : list Z :=
  match s with
  | EmptyString => []
  | String c r => byte_of c :: bytes r
  end.

(** [text.encode()]: the representation already is UTF-8. *)
Definition encode (text : string) : list Z := bytes text.

Definition continuation (b : Z) : bool := (0x80 <=? b) && (b <? 0xC0).

(** The code points of a text.  A byte that does not start a well-formed
    sequence decodes to U+FFFD. *)
Fixpoint code_points_of (bs : list Z) : list Z :=
  match bs with
  | [] => []
  | b0 :: r0 =>
    if b0 <? 0x80 then b0 :: code_points_of r0
    else
      match r0 with
      | b1 :: r1 =>
        if (0xC2 <=? b0) && (b0 <? 0xE0) && continuation b1
        then ((b0 - 0xC0) * 64 + (b1 - 0x80)) :: code_points_of r1
        else
          match r1 with
          | b2 :: r2 =>
            if (0xE0 <=? b0) && (b0 <? 0xF0) && continuation b1 && continuation b2
            then ((b0 - 0xE0) * 4096 + (b1 - 0x80) * 64 + (b2 - 0x80))
                   :: code_points_of r2
            else
              match r2 with
              | b3 :: r3 =>
                if (0xF0 <=? b0) && (b0 <? 0xF5) && continuation b1
                   && continuation b2 && continuation b3
                then ((b0 - 0xF0) * 262144 + (b1 - 0x80) * 4096
                      + (b2 - 0x80) * 64 + (b3 - 0x80)) :: code_points_of r3
                else 0xFFFD :: code_points_of r0
              | [] => 0xFFFD :: code_points_of r0
              end
          | [] => 0xFFFD :: code_points_of r0
          end
      | [] => [0xFFFD]
      end
  end.

Definition code_points (text : string) : list Z := code_points_of (bytes text).

(** [str.isspace] on one code point: the characters [str.strip()] removes. *)
Definition isspace (c : Z) : bool :=
  ((0x09 <=? c) && (c <=? 0x0D)) || ((0x1C <=? c) && (c <=? 0x20))
  || (c =? 0x85) || (c =? 0xA0) || (c =? 0x1680)
  || ((0x2000 <=? c) && (c <=? 0x200A))
  || (c =? 0x2028) || (c =? 0x2029) || (c =? 0x202F) || (c =? 0x205F)
  || (c =? 0x3000).

Fixpoint lstrip (cs : list Z) : list Z :=
  match cs with
  | c :: r => if isspace c then lstrip r else cs
  | [] => []
  end.

(** [text.strip()], on code points *)
Definition strip (cs : list Z) : list Z := rev (lstrip (rev (lstrip cs))).

(** Truth value of a [str] and of a sequence. *)
Definition truthy (s : string) : bool :=
  match s with EmptyString => false | String _ _ => true end.

Definition nonempty {A} (l : list A) : bool :=
  match l with [] => false | _ :: _ => true end.

(** [not text or not text.strip()] *)
Definition blank (text : string) : bool :=
  negb (truthy text) || negb (nonempty (strip (code_points text))).

(** [x or default] on an optional string *)
Definition or_default (x : option string) (default : string) : string :=
  match x with
  | Some s => if truthy s then s else default
  | None => default
  end.

(** Hexadecimal digits. *)
Definition hex_digit (d : Z) : ascii :=
  if d <? 10 then ascii_of_N (Z.to_N (48 + d)) else ascii_of_N (Z.to_N (87 + d)).

(** [n] written with exactly [width] lowercase hexadecimal digits. *)
Fixpoint hex (width : nat) (n : Z) : string :=
  match width with
  | O => ""
  | S w => hex w (n / 16) +:+ String (hex_digit (n mod 16)) ""
  end.

Definition hex_value (c : ascii) : option Z :=
  let b := byte_of c in
  if (48 <=? b) && (b <=? 57) then Some (b - 48)
  else if (97 <=? b) && (b <=? 102) then Some (b - 87)
  else if (65 <=? b) && (b <=? 70) then Some (b - 55)
  else None.

Fixpoint int16_from (acc : Z) (s : string) : option Z :=
  match s with
  | EmptyString => Some acc
  | String c r =>
    match hex_value c with
    | Some d => int16_from (acc * 16 + d) r
    | None => None
    end
  end.

(** ASCII whitespace, as [bytes.fromhex] skips it. *)
Definition ascii_space (c : ascii) : bool :=
  let b := byte_of c in ((9 <=? b) && (b <=? 13)) || (b =? 32).

(** [bytes.fromhex(s)]: two hexadecimal digits per byte; whitespace is
    skipped before a byte and at the end, never between the two digits of
    a byte. [top] is the first digit of a byte that is being read. *)
Fixpoint fromhex_from (top : option Z) (s : string) : option (list Z) :=
  match s with
  | EmptyString =>
    match top with
    | None => Some []
    | Some _ => None
    end
  | String c r =>
    match top with
    | Some t =>
      match hex_value c with
      | Some bot => cons (t * 16 + bot) <$> fromhex_from None r
      | None => None
      end
    | None =>
      if ascii_space c then fromhex_from None r
      else
        match hex_value c with
        | Some t => fromhex_from (Some t) r
        | None => None
        end
    end
  end.

Definition fromhex (s : string) : option (list Z) := fromhex_from None s.

(** [int(s, 16)] on a string of hexadecimal digits (no sign, prefix,
    underscore or surrounding space: the sources pass digest prefixes only). *)
Definition int16 (s : string) : result Z :=
  match s with
  | EmptyString => Raise (ValueError "invalid literal for int() with base 16")
  | _ =>
    match int16_from 0 s with
    | Some n => Ok n
    | None => Raise (ValueError "invalid literal for int() with base 16")
    end
  end.

(** [s[:n]], counted in bytes: the sources slice a hexadecimal digest, and a
    query for a log line. *)
Definition prefix (n : nat) (s : string) : string := substring 0 n s.

End Py.

(* ===================================================================== *)
(** ** hashlib.sha256 (FIPS 180-4) *)
(* ===================================================================== *)

Module Hashlib.

Definition word (x : Z) : Z := x mod 2 ^ 32.

Definition add32 (x y : Z) : Z := word (x + y).

Definition rotr (n x : Z) : Z :=
  Z.lor (Z.shiftr x n) (word (Z.shiftl x (32 - n))).

Definition ch (x y z : Z) : Z :=
  Z.lxor (Z.land x y) (Z.land (Z.lxor x (2 ^ 32 - 1)) z).

Definition maj (x y z : Z) : Z :=
  Z.lxor (Z.lxor (Z.land x y) (Z.land x z)) (Z.land y z).

Definition bsig0 (x : Z) : Z := Z.lxor (Z.lxor (rotr 2 x) (rotr 13 x)) (rotr 22 x).
Definition bsig1 (x : Z) : Z := Z.lxor (Z.lxor (rotr 6 x) (rotr 11 x)) (rotr 25 x).
Definition ssig0 (x : Z) : Z := Z.lxor (Z.lxor (rotr 7 x) (rotr 18 x)) (Z.shiftr x 3).
Definition ssig1 (x : Z) : Z := Z.lxor (Z.lxor (rotr 17 x) (rotr 19 x)) (Z.shiftr x 10).

(** The constants of FIPS 180-4, from their definition: the first 32 bits of
    the fractional parts of the cube roots (round constants) and of the
    square roots (initial hash) of the first primes. *)
Definition is_prime (n : Z) : bool :=
  (1 <? n)
  && forallb (fun d => negb (n mod d =? 0))
             (map Z.of_nat (seq 2 (Z.to_nat (Z.sqrt n) - 1))).

Definition first_primes (count : nat) : list Z :=
  firstn count (List.filter is_prime (map Z.of_nat (seq 2 400))).

(** The integer cube root, one bit at a time from bit [bits - 1] down. *)
Fixpoint cube_root_from (bits : nat) (n r : Z) : Z :=
  match bits with
  | O => r
  | S b =>
    let r' := r + 2 ^ Z.of_nat b in
    cube_root_from b n (if r' * r' * r' <=? n then r' else r)
  end.

Definition cube_root (n : Z) : Z := cube_root_from 40 n 0.

Definition round_constants : list Z :=
  Eval vm_compute in
    map (fun p => word (cube_root (p * 2 ^ 96))) (first_primes 64).

Definition initial_hash : list Z :=
  Eval vm_compute in
    map (fun p => word (Z.sqrt (p * 2 ^ 64))) (first_primes 8).

(** [n] as [count] big-endian bytes *)
Fixpoint be_bytes (count : nat) (n : Z) : list Z :=
  match count with
  | O => []
  | S c => be_bytes c (n / 256) ++ [n mod 256]
  end.

Definition be_word (bs : list Z) : Z :=
  fold_left (fun acc b => acc * 256 + b) bs 0.

(** Padding: a one bit, zeros up to 56 modulo 64, the bit length on 8 bytes. *)
Definition pad (msg : list Z) : list Z :=
  let l := Z.of_nat (length msg) in
  msg ++ [0x80] ++ repeat 0 (Z.to_nat ((55 - l) mod 64)) ++ be_bytes 8 (8 * l).

Fixpoint split_every (size count : nat) (l : list Z) : list (list Z) :=
  match count with
  | O => []
  | S c => firstn size l :: split_every size c (skipn size l)
  end.

Definition blocks (padded : list Z) : list (list Z) :=
  split_every 64 (length padded / 64)%nat padded.

Definition block_words (block : list Z) : list Z :=
  map be_word (split_every 4 16 block).

Definition at_ (l : list Z) (i : nat) : Z := nth i l 0.

(** The message schedule, grown one word at a time from the 16 block words. *)
Fixpoint extend_schedule (steps : nat) (ws : list Z) : list Z :=
  match steps with
  | O => ws
  | S s =>
    let t := length ws in
    let wt := add32 (add32 (ssig1 (at_ ws (t - 2))) (at_ ws (t - 7)))
                    (add32 (ssig0 (at_ ws (t - 15))) (at_ ws (t - 16))) in
    extend_schedule s (ws ++ [wt])
  end.

Definition schedule (block : list Z) : list Z :=
  extend_schedule 48 (block_words block).

Record regs := Regs { ra : Z; rb : Z; rc : Z; rd : Z; re : Z; rf : Z; rg : Z; rh : Z }.

Definition round (r : regs) (kw : Z * Z) : regs :=
  let t1 := add32 (add32 (add32 (rh r) (bsig1 (re r)))
                         (add32 (ch (re r) (rf r) (rg r)) (fst kw))) (snd kw) in
  let t2 := add32 (bsig0 (ra r)) (maj (ra r) (rb r) (rc r)) in
  Regs (add32 t1 t2) (ra r) (rb r) (rc r) (add32 (rd r) t1) (re r) (rf r) (rg r).

Definition regs_of (h : list Z) : regs :=
  Regs (at_ h 0) (at_ h 1) (at_ h 2) (at_ h 3) (at_ h 4) (at_ h 5) (at_ h 6) (at_ h 7).

Definition compress (h : list Z) (block : list Z) : list Z :=
  let r := fold_left round (combine round_constants (schedule block)) (regs_of h) in
  [ add32 (at_ h 0) (ra r); add32 (at_ h 1) (rb r);
    add32 (at_ h 2) (rc r); add32 (at_ h 3) (rd r);
    add32 (at_ h 4) (re r); add32 (at_ h 5) (rf r);
    add32 (at_ h 6) (rg r); add32 (at_ h 7) (rh r) ].

(** The eight 32-bit words of the digest. *)
Definition sha256 (msg : list Z) : list Z :=
  fold_left compress (blocks (pad msg)) initial_hash.

Fixpoint concat_hex (ws : list Z) : string :=
  match ws with
  | [] => ""
  | w :: r => Py.hex 8 w +:+ concat_hex r
  end.

(** [hashlib.sha256(data).hexdigest()] *)
Definition hexdigest (msg : list Z) : string := concat_hex (sha256 msg).

End Hashlib.

(* ===================================================================== *)
(** ** numpy: the process-wide generator and the vector operations *)
(* ===================================================================== *)

Module Np.

(** What [embeddings.py] uses of numpy, over the type of floats and the type
    of generator states.  [seeded s] is the generator state
    [np.random.seed(s)] installs for [0 <= s < 2^32]; [normal n st] is
    [np.random.normal(0, 1, n)] run from state [st], with the state it leaves
    behind; [true_divide] is one element of [embedding / norm]; [float_repr]
    and [float_bool] are [repr] and the truth value of a float. *)
Class Numpy (float64 RandomState : Type) : Type := {
  seeded : Z -> RandomState;
  normal : nat -> RandomState -> list float64 * RandomState;
  linalg_norm : list float64 -> float64;
  true_divide : float64 -> float64 -> float64;
  float_repr : float64 -> string;
  float_bool : float64 -> bool
}.

(** A small integer generator with the same interface, used to run the model
    on concrete inputs: samples are thousandths, the state is one integer,
    and a sample prints as its sign. *)
Fixpoint lcg_draw (n : nat) (st : Z) : list Z * Z :=
  match n with
  | O => ([], st)
  | S m =>
    let st' := (1103515245 * st + 12345) mod 2 ^ 31 in
    let (rest, st'') := lcg_draw m st' in
    ((st' / 65536) mod 6001 - 3000 :: rest, st'')
  end.

Definition lcg : Numpy Z Z := {|
  seeded := fun s => s;
  normal := lcg_draw;
  linalg_norm := fun v => Z.sqrt (fold_left (fun acc x => acc + x * x) v 0);
  true_divide := fun x n => if n =? 0 then 0 else x * 1000 / n;
  float_repr := fun x => match x with Z0 => "0" | Zpos _ => "+" | Zneg _ => "-" end;
  float_bool := fun x => negb (x =? 0)
|}.

End Np.

(* ===================================================================== *)
(** ** BSON values and MongoDB documents *)
(* ===================================================================== *)

Module Bson.

(** [datetime.datetime], naive UTC *)
Record datetime : Type := Datetime {
  year : Z; month : Z; day : Z;
  hour : Z; minute : Z; second : Z; microsecond : Z
}.

#[export] Instance datetime_eq_dec : EqDecision datetime.
Proof. solve_decision. Defined.

(** [n] written with exactly [width] decimal digits. *)
Fixpoint dec (width : nat) (n : Z) : string :=
  match width with
  | O => ""
  | S w => dec w (n / 10) +:+ String (ascii_of_N (Z.to_N (48 + n mod 10))) ""
  end.

Definition format_datetime (sep : string) (d : datetime) : string :=
  dec 4 (year d) +:+ "-" +:+ dec 2 (month d) +:+ "-" +:+ dec 2 (day d) +:+ sep
  +:+ dec 2 (hour d) +:+ ":" +:+ dec 2 (minute d) +:+ ":" +:+ dec 2 (second d)
  +:+ (if microsecond d =? 0 then "" else "." +:+ dec 6 (microsecond d)).

(** [d.isoformat()] *)
Definition isoformat (d : datetime) : string := format_datetime "T" d.

(** Chronological position, for comparisons and sorting. *)
Definition instant (d : datetime) : Z :=
  (((((year d * 13 + month d) * 32 + day d) * 24 + hour d) * 60 + minute d) * 60
   + second d) * 1000000 + microsecond d.

(** Scalars: what a filter can compare a field with. An [ObjectId] is its
    12-byte value. *)
Inductive scalar : Type :=
| Null
| Bool (b : bool)
| Int (n : Z)
| Str (s : string)
| Oid (id : Z)
| Date (d : datetime).

#[export] Instance scalar_eq_dec : EqDecision scalar.
Proof. solve_decision. Defined.

Section Values.
Context {float64 : Type}.

Inductive value : Type :=
| Scalar (s : scalar)
| Double (x : float64)
| Vector (v : list float64)
| Sub (fields : list (string * scalar)).

(** A stored document, a Python [dict] with string keys. *)
#[local] Abbreviation document := (gmap string value).

(** An ObjectId is its [binary]. One of twelve bytes, as the driver and the
    server make them, is held as the number the bytes spell, below [2^96].
    One of [n < 12] bytes, which only [ObjectId] of a string with whitespace
    makes, is held as [(12 - n) * 2^96] plus the number its bytes spell, so
    that two identifiers are equal exactly when their bytes are. *)
Definition of_binary (binary : list Z) : Z :=
  (12 - Z.of_nat (length binary)) * 2 ^ 96
  + fold_left (fun acc b => acc * 256 + b) binary 0.

(** [ObjectId(oid)] on a [str]: [len(oid) == 24] and [bytes.fromhex(oid)]
    must succeed, else [InvalidId]; the bytes are not counted. A string
    with a character outside ASCII is refused by [fromhex] whatever its
    length, so the length is taken in bytes. *)
Definition ObjectId (oid : string) : Py.result Z :=
  let invalid := Py.InvalidId
    ("'" +:+ oid +:+ "' is not a valid ObjectId, it must be a 12-byte input "
     +:+ "or a 24-character hex string") in
  if (String.length oid =? 24)%nat then
    match Py.fromhex oid with
    | Some binary => Py.Ok (of_binary binary)
    | None => Py.Raise invalid
    end
  else Py.Raise invalid.

(** [str(ObjectId)]: [binascii.hexlify] of the bytes. *)
Definition oid_str (id : Z) : string :=
  if (2 ^ 96 <=? id) && (id <? 13 * 2 ^ 96)
  then Py.hex (2 * Z.to_nat (12 - id / 2 ^ 96)) (id mod 2 ^ 96)
  else Py.hex 24 id.

Definition scalar_str (s : scalar) : string :=
  match s with
  | Null => "None"
  | Bool true => "True"
  | Bool false => "False"
  | Int n => pretty n
  | Str s => s
  | Oid id => oid_str id
  | Date d => format_datetime " " d
  end.

(** [repr] of a scalar; a string is quoted as Python quotes one that holds
    neither a quote nor a backslash. *)
Definition scalar_repr (s : scalar) : string :=
  match s with
  | Str s => "'" +:+ s +:+ "'"
  | Oid id => "ObjectId('" +:+ oid_str id +:+ "')"
  | _ => scalar_str s
  end.

Fixpoint join (sep : string) (parts : list string) : string :=
  match parts with
  | [] => ""
  | [p] => p
  | p :: rest => p +:+ sep +:+ join sep rest
  end.

(** One entry of a query filter: [{field: s}] or [{field: {"$ne": s}}]. *)
Inductive cond : Type :=
| Eq (s : scalar)
| Ne (s : scalar).

(** Whether a field (absent: [None]) satisfies an equality with [s]: a missing
    field equals [null] only; a non-scalar field equals no scalar. *)
Definition equals (s : scalar) (field : option value) : bool :=
  match field with
  | Some (Scalar s') => bool_decide (s' = s)
  | Some _ => false
  | None => bool_decide (s = Null)
  end.

Definition holds (c : cond) (field : option value) : bool :=
  match c with
  | Eq s => equals s field
  | Ne s => negb (equals s field)
  end.

(** A document matches a filter when every entry of the filter holds. *)
Definition matches (filters : gmap string cond) (d : document) : bool :=
  forallb (fun kc => holds (snd kc) (d !! fst kc)) (map_to_list filters).

(** [collection.find(filters)] in natural order *)
Definition find (filters : gmap string cond) (coll : list document) : list document :=
  List.filter (matches filters) coll.

(** [collection.find_one(filters)] *)
Definition find_one (filters : gmap string cond) (coll : list document) : option document :=
  head (find filters coll).

(** [collection.delete_many(filters)]: what is left, and [deleted_count] *)
Definition delete_many (filters : gmap string cond) (coll : list document)
  : list document * Z :=
  (List.filter (fun d => negb (matches filters d)) coll,
   Z.of_nat (length (find filters coll))).

(** [collection.delete_one(filters)]: the first matching document goes. *)
Fixpoint delete_one (filters : gmap string cond) (coll : list document)
  : list document * Z :=
  match coll with
  | [] => ([], 0)
  | d :: rest =>
    if matches filters d then (rest, 1)
    else let (rest', n) := delete_one filters rest in (d :: rest', n)
  end.

(** [collection.update_one(filters, {"$set": changes})]: the first matching
    document takes the changes. *)
Fixpoint update_one (filters : gmap string cond) (changes : list (string * value))
  (coll : list document) : list document :=
  match coll with
  | [] => []
  | d :: rest =>
    if matches filters d
    then fold_left (fun acc kv => <[fst kv := snd kv]> acc) changes d :: rest
    else d :: update_one filters changes rest
  end.

(** The key [.sort("created_at", -1)] orders by: dates by instant, anything
    else (and a missing field) below every date. *)
Definition sort_key (field : string) (d : document) : Z :=
  match d !! field with
  | Some (Scalar (Date t)) => instant t
  | _ => -1
  end.

Fixpoint insert_desc (field : string) (d : document) (sorted : list document)
  : list document :=
  match sorted with
  | [] => [d]
  | x :: rest =>
    if sort_key field x <=? sort_key field d then d :: x :: rest
    else x :: insert_desc field d rest
  end.

(** [cursor.sort(field, -1)]; documents with equal keys keep their order. *)
Definition sort_desc (field : string) (docs : list document) : list document :=
  fold_right (insert_desc field) [] docs.

(** The identifier the driver gives a document inserted without [_id]: one
    no document of the collection carries. *)
Definition id_of (d : document) : Z :=
  match d !! "_id" with
  | Some (Scalar (Oid id)) => id
  | _ => 0
  end.

Definition fresh_id (coll : list document) : Z :=
  1 + fold_right Z.max 0 (map id_of coll).

(** [collection.insert_one(d)] for a [d] without ["_id"], as the sources
    build them: the driver adds the identifier to [d] itself and stores it.
    Returns [inserted_id], [d] as the caller now sees it, and the collection. *)
Definition insert_one (d : document) (coll : list document)
  : Z * document * list document :=
  let id := fresh_id coll in
  let d' := <["_id" := Scalar (Oid id)]> d in
  (id, d', coll ++ [d']).

(** [collection.insert_many(docs)] *)
Definition insert_many (docs : list document) (coll : list document) : list document :=
  fold_left (fun acc d => snd (insert_one d acc)) docs coll.

End Values.

Arguments value : clear implicits.

(** A stored document, over the type of floats. *)
Abbreviation document float64 := (gmap string (value float64)).

Section Printing.
Context {float64 RandomState : Type} `{!Np.Numpy float64 RandomState}.

(** [str(v)] *)
Definition value_str (v : value float64) : string :=
  match v with
  | Scalar s => scalar_str s
  | Double x => Np.float_repr x
  | Vector xs => "[" +:+ join ", " (map Np.float_repr xs) +:+ "]"
  | Sub fields =>
    "{" +:+ join ", " (map (fun kv => "'" +:+ fst kv +:+ "': " +:+ scalar_repr (snd kv)) fields)
    +:+ "}"
  end.

(** Truth value of a stored value, as [x or default] tests it. *)
Definition truthy (v : value float64) : bool :=
  match v with
  | Scalar Null => false
  | Scalar (Bool b) => b
  | Scalar (Int n) => negb (n =? 0)
  | Scalar (Str s) => Py.truthy s
  | Scalar (Oid _) | Scalar (Date _) => true
  | Double x => Np.float_bool x
  | Vector xs => Py.nonempty xs
  | Sub fields => Py.nonempty fields
  end.

End Printing.

End Bson.

(* ===================================================================== *)
(** ** Atlas Search: the aggregation pipeline *)
(* ===================================================================== *)

Module Atlas.

Section Pipeline.
Context {float64 : Type}.

(** The stages [rag.py] builds. [Project] keeps the listed fields and stores
    the search score under [score_field] ([{"$meta": "searchScore"}]). *)
Inductive stage : Type :=
| Search (index : string) (vector : list float64) (path : string) (k : Z)
| Match (filters : gmap string Bson.cond)
| Project (fields : list string) (score_field : string)
| Limit (n : Z).

(** The [knnBeta] operator of the search index: the [k] nearest neighbours
    of [vector] among the documents of the collection, each with its score,
    best first; it can fail (missing index, wrong dimension). *)
Class Search_index : Type := {
  knn_beta : string -> list float64 -> string -> Z -> list (Bson.document float64)
             -> Py.result (list (Bson.document float64 * float64))
}.

Context `{!Search_index}.

Definition project (fields : list string) (score_field : string)
  (row : Bson.document float64 * option float64) : Bson.document float64 * option float64 :=
  let kept := filter (fun kv => bool_decide (fst kv ∈ fields)) (fst row) in
  (match snd row with
   | Some s => <[score_field := Bson.Double s]> kept
   | None => kept
   end, snd row).

(** One stage after the first, on rows that carry their search score. *)
Definition run_stage (rows : list (Bson.document float64 * option float64)) (st : stage)
  : Py.result (list (Bson.document float64 * option float64)) :=
  match st with
  | Search _ _ _ _ =>
    Py.Raise (Py.OperationFailure "$search is only valid as the first stage in a pipeline")
  | Match filters => Py.Ok (List.filter (fun row => Bson.matches filters (fst row)) rows)
  | Project fields score_field => Py.Ok (map (project fields score_field) rows)
  | Limit n =>
    if 0 <? n then Py.Ok (firstn (Z.to_nat n) rows)
    else Py.Raise (Py.OperationFailure "the limit must be positive")
  end.

Fixpoint run_stages (stages : list stage) (rows : list (Bson.document float64 * option float64))
  : Py.result (list (Bson.document float64 * option float64)) :=
  match stages with
  | [] => Py.Ok rows
  | st :: rest =>
    match run_stage rows st with
    | Py.Ok rows' => run_stages rest rows'
    | Py.Raise e => Py.Raise e
    end
  end.

(** [collection.aggregate(pipeline)], read to the end *)
Definition aggregate (coll : list (Bson.document float64)) (pipeline : list stage)
  : Py.result (list (Bson.document float64)) :=
  let start :=
    match pipeline with
    | Search index vector path k :: rest =>
      match knn_beta index vector path k coll with
      | Py.Ok found => Py.Ok (rest, map (fun ds => (fst ds, Some (snd ds))) found)
      | Py.Raise e => Py.Raise e
      end
    | _ => Py.Ok (pipeline, map (fun d => (d, None)) coll)
    end in
  match start with
  | Py.Ok (rest, rows) =>
    match run_stages rest rows with
    | Py.Ok out => Py.Ok (map fst out)
    | Py.Raise e => Py.Raise e
    end
  | Py.Raise e => Py.Raise e
  end.

End Pipeline.

Arguments stage : clear implicits.
Arguments Search_index : clear implicits.

End Atlas.

(* ===================================================================== *)
(** ** app/models/rag.py *)
(* ===================================================================== *)

(** [app/models/rag.py] is not among the sources: the four result records
    below carry the fields section 4.4 of the specification lists and
    [rag.py] fills. A field holds the stored value as it comes out of the
    document; the validation a model class may add is not represented. *)

Module ChunkContent.
Section Fields.
Context {float64 : Type}.
(** Modelled from the spec: [ChunkContent] of [app/models/rag.py], the compact
    view of a retrieved chunk (text, file name, score). *)
Record t : Type := Make {
  text : Bson.value float64;
  file_name : option (Bson.value float64);
  score : option (Bson.value float64)
}.
End Fields.
Arguments t : clear implicits.
End ChunkContent.

Module ChunkMetadata.
Section Fields.
Context {float64 : Type}.
(** Modelled from the spec: [ChunkMetadata] of [app/models/rag.py], the fuller
    view of a retrieved chunk (chunk id, document id, equipment id, tenant id,
    chunk index, score, file name). *)
Record t : Type := Make {
  chunk_id : Bson.value float64;
  document_id : string;
  equipment_id : string;
  tenant_id : option (Bson.value float64);
  chunk_index : Bson.value float64;
  score : Bson.value float64;
  file_name : Bson.value float64
}.
End Fields.
Arguments t : clear implicits.
End ChunkMetadata.

Module RetrievalMetadata.
Section Fields.
Context {float64 : Type}.
(** Modelled from the spec: [RetrievalMetadata] of [app/models/rag.py], the
    query-level metadata (query, requested k, count returned, scope ids, chunk
    metadata). *)
Record t : Type := Make {
  query : string;
  k : Z;
  chunks_retrieved : Z;
  equipment_id : option string;
  tenant_id : option string;
  chunks : list (ChunkMetadata.t float64)
}.
End Fields.
Arguments t : clear implicits.
End RetrievalMetadata.

Module RetrievalResult.
Section Fields.
Context {float64 : Type}.
(** Modelled from the spec: [RetrievalResult] of [app/models/rag.py], the
    ordered chunk contents with the query-level metadata. *)
Record t : Type := Make {
  data : list (ChunkContent.t float64);
  metadata : RetrievalMetadata.t float64
}.
End Fields.
Arguments t : clear implicits.
End RetrievalResult.

(* ===================================================================== *)
(** ** The process state and the monad of effectful code *)
(* ===================================================================== *)

Module Runtime.

Inductive level : Type := DEBUG | INFO | SUCCESS | WARNING | ERROR.

Section World.
Context {float64 RandomState : Type}.

(** What the tool hands to [params.result_callback]:
    [{"results": [{"id": ..., "content": ...}, ...]}]. *)
Inductive tool_result : Type :=
| Results (results : list (Bson.value float64 * Bson.value float64)).

(** The [RTVIServerMessageFrame] the tool pushes: its ["type"] and, per
    chunk, ["id"], ["text"] and ["metadata"]. *)
Inductive frame : Type :=
| Server_message (type : string)
    (chunks : list (Bson.value float64 * Bson.value float64 * ChunkMetadata.t float64)).

(** What the handlers and the tool read and write: numpy's global generator,
    the three collections, the clock and the uuid source (the [n]-th reading
    of each), the loguru sink, the pipelines handed to [aggregate], the
    results given to the conversation, the frames pushed to the client, the
    exception the transport raises on a push, if it does, and the exception
    the result callback of the conversation raises, if it does. *)
Record world : Type := World {
  np_random : RandomState;
  equipment : list (Bson.document float64);
  documents_metadata : list (Bson.document float64);
  document_chunks : list (Bson.document float64);
  clock : nat -> Bson.datetime;
  clock_reads : nat;
  uuid_source : nat -> Z;
  uuids_drawn : nat;
  log : list (level * string);
  aggregations : list (list (Atlas.stage float64));
  delivered : list tool_result;
  frames : list frame;
  push_failure : option Py.exn;
  callback_failure : option Py.exn
}.

Definition set_np_random (st : RandomState) (w : world) : world :=
  World st (equipment w) (documents_metadata w) (document_chunks w) (clock w)
        (clock_reads w) (uuid_source w) (uuids_drawn w) (log w) (aggregations w)
        (delivered w) (frames w) (push_failure w)
        (callback_failure w).

Definition set_equipment (c : list (Bson.document float64)) (w : world) : world :=
  World (np_random w) c (documents_metadata w) (document_chunks w) (clock w)
        (clock_reads w) (uuid_source w) (uuids_drawn w) (log w) (aggregations w)
        (delivered w) (frames w) (push_failure w)
        (callback_failure w).

Definition set_documents_metadata (c : list (Bson.document float64)) (w : world) : world :=
  World (np_random w) (equipment w) c (document_chunks w) (clock w) (clock_reads w)
        (uuid_source w) (uuids_drawn w) (log w) (aggregations w) (delivered w)
        (frames w) (push_failure w)
        (callback_failure w).

Definition set_document_chunks (c : list (Bson.document float64)) (w : world) : world :=
  World (np_random w) (equipment w) (documents_metadata w) c (clock w) (clock_reads w)
        (uuid_source w) (uuids_drawn w) (log w) (aggregations w) (delivered w)
        (frames w) (push_failure w)
        (callback_failure w).

Definition set_clock_reads (n : nat) (w : world) : world :=
  World (np_random w) (equipment w) (documents_metadata w) (document_chunks w) (clock w)
        n (uuid_source w) (uuids_drawn w) (log w) (aggregations w) (delivered w)
        (frames w) (push_failure w)
        (callback_failure w).

Definition set_uuids_drawn (n : nat) (w : world) : world :=
  World (np_random w) (equipment w) (documents_metadata w) (document_chunks w) (clock w)
        (clock_reads w) (uuid_source w) n (log w) (aggregations w) (delivered w)
        (frames w) (push_failure w)
        (callback_failure w).

Definition set_log (l : list (level * string)) (w : world) : world :=
  World (np_random w) (equipment w) (documents_metadata w) (document_chunks w) (clock w)
        (clock_reads w) (uuid_source w) (uuids_drawn w) l (aggregations w) (delivered w)
        (frames w) (push_failure w)
        (callback_failure w).

Definition set_aggregations (a : list (list (Atlas.stage float64))) (w : world) : world :=
  World (np_random w) (equipment w) (documents_metadata w) (document_chunks w) (clock w)
        (clock_reads w) (uuid_source w) (uuids_drawn w) (log w) a (delivered w)
        (frames w) (push_failure w)
        (callback_failure w).

Definition set_delivered (r : list tool_result) (w : world) : world :=
  World (np_random w) (equipment w) (documents_metadata w) (document_chunks w) (clock w)
        (clock_reads w) (uuid_source w) (uuids_drawn w) (log w) (aggregations w) r
        (frames w) (push_failure w)
        (callback_failure w).

Definition set_frames (f : list frame) (w : world) : world :=
  World (np_random w) (equipment w) (documents_metadata w) (document_chunks w) (clock w)
        (clock_reads w) (uuid_source w) (uuids_drawn w) (log w) (aggregations w)
        (delivered w) f (push_failure w)
        (callback_failure w).

(** A computation: runs from a state, ends with a value or a raised
    exception, and leaves a state either way. *)
Definition M (A : Type) : Type := world -> Py.result A * world.

Definition ret {A} (a : A) : M A := fun w => (Py.Ok a, w).

Definition raise {A} (e : Py.exn) : M A := fun w => (Py.Raise e, w).

Definition bind {A B} (c : M A) (k : A -> M B) : M B :=
  fun w =>
    match c w with
    | (Py.Ok a, w') => k a w'
    | (Py.Raise e, w') => (Py.Raise e, w')
    end.

(** [try: c  except Exception as e: handler e] *)
Definition try_except {A} (c : M A) (handler : Py.exn -> M A) : M A :=
  fun w =>
    match c w with
    | (Py.Ok a, w') => (Py.Ok a, w')
    | (Py.Raise e, w') => handler e w'
    end.

Definition lift {A} (r : Py.result A) : M A := fun w => (r, w).

Definition gets {A} (f : world -> A) : M A := fun w => (Py.Ok (f w), w).

Definition modify (f : world -> world) : M unit := fun w => (Py.Ok tt, f w).

(** [logger.<level>(message)] *)
Definition logger (l : level) (message : string) : M unit :=
  modify (fun w => set_log (log w ++ [(l, message)]) w).

(** [datetime.utcnow()] *)
Definition utcnow : M Bson.datetime :=
  fun w => (Py.Ok (clock w (clock_reads w)), set_clock_reads (S (clock_reads w)) w).

(** [uuid.uuid4()], as its 128-bit value *)
Definition uuid4 : M Z :=
  fun w => (Py.Ok (uuid_source w (uuids_drawn w) mod 2 ^ 128),
            set_uuids_drawn (S (uuids_drawn w)) w).

(** [uuid.hex] and [str(uuid)] *)
Definition uuid_hex (u : Z) : string := Py.hex 32 u.

Definition uuid_str (u : Z) : string :=
  let h := uuid_hex u in
  substring 0 8 h +:+ "-" +:+ substring 8 4 h +:+ "-" +:+ substring 12 4 h +:+ "-"
  +:+ substring 16 4 h +:+ "-" +:+ substring 20 12 h.

End World.

Arguments tool_result : clear implicits.
Arguments frame : clear implicits.
Arguments world : clear implicits.
Arguments M : clear implicits.

Declare Scope monad_scope.
Delimit Scope monad_scope with monad.
Notation "x <- c ;; k" := (bind c (fun x => k))
  (at level 20, c at level 99, k at level 200, only parsing) : monad_scope.
Notation "c ;; k" := (bind c (fun _ => k))
  (at level 100, k at level 200, only parsing, right associativity) : monad_scope.

End Runtime.

(* ===================================================================== *)
(** ** app/services/embeddings.py *)
(* ===================================================================== *)

Module Embeddings.
Import Runtime.
#[local] Open Scope monad_scope.

(** langchain's [RecursiveCharacterTextSplitter], as [EmbeddingService]
    configures it ([CHUNK_SIZE], [CHUNK_OVERLAP], [len], plain separators). *)
Class Text_splitter : Type := {
  splitter_split_text : string -> list string
}.

Section Service.
Context {float64 RandomState : Type} `{!Np.Numpy float64 RandomState}
        `{Text_splitter}.
#[local] Abbreviation M := (Runtime.M float64 RandomState).
#[local] Abbreviation world := (Runtime.world float64 RandomState).

(** [self.embedding_dim] *)
Definition embedding_dim : nat := 1536.

Definition split_text (text : string) : list string :=
  if Py.blank text then [] else splitter_split_text text.

(** [np.random.seed(seed)]: replaces the global generator state. *)
Definition np_random_seed (seed : Z) : M unit :=
  if (0 <=? seed) && (seed <? 2 ^ 32)
  then modify (set_np_random (Np.seeded seed))
  else raise (Py.ValueError "Seed must be between 0 and 2**32 - 1").

(** [np.random.normal(0, 1, size)]: draws from the global generator. *)
Definition np_random_normal (size : nat) : M (list float64) :=
  fun w =>
    let (xs, st) := Np.normal size (np_random w) in
    (Py.Ok xs, set_np_random st w).

Definition embed_text (text : string) : M (list float64) :=
  if Py.blank text then raise (Py.ValueError "Cannot embed empty text")
  else
    let hex_dig := Hashlib.hexdigest (Py.encode text) in
    seed <- lift (Py.int16 (Py.prefix 8 hex_dig)) ;;
    np_random_seed seed ;;
    embedding <- np_random_normal embedding_dim ;;
    let norm := Np.linalg_norm embedding in
    ret (map (fun x => Np.true_divide x norm) embedding).

(** [[self.embed_text(text) for text in valid_texts]] *)
Fixpoint embed_each (texts : list string) : M (list (list float64)) :=
  match texts with
  | [] => ret []
  | text :: rest =>
    v <- embed_text text ;;
    vs <- embed_each rest ;;
    ret (v :: vs)
  end.

Definition embed_texts (texts : list string) : M (list (list float64)) :=
  if negb (Py.nonempty texts) then ret []
  else
    let valid_texts := List.filter (fun t => negb (Py.blank t)) texts in
    if negb (Py.nonempty valid_texts) then ret []
    else embed_each valid_texts.

(** What [embed_text] computes from a seed in range: the normalised draw,
    and the generator state the draw leaves. *)
Definition vector_of_seed (seed : Z) : list float64 :=
  let embedding := fst (Np.normal embedding_dim (Np.seeded seed)) in
  map (fun x => Np.true_divide x (Np.linalg_norm embedding)) embedding.

Definition state_after (seed : Z) : RandomState :=
  snd (Np.normal embedding_dim (Np.seeded seed)).

End Service.

End Embeddings.

(* ===================================================================== *)
(** ** app/services/rag.py *)
(* ===================================================================== *)

Module Rag.
Import Runtime.
#[local] Open Scope monad_scope.

Section Service.
Context {float64 RandomState : Type} `{!Np.Numpy float64 RandomState}
        `{Embeddings.Text_splitter} `{!Atlas.Search_index float64}.
#[local] Abbreviation M := (Runtime.M float64 RandomState).
#[local] Abbreviation world := (Runtime.world float64 RandomState).

(** [res.get(key, default)] *)
Definition get (res : Bson.document float64) (key : string)
  (default : Bson.value float64) : Bson.value float64 :=
  match res !! key with
  | Some v => v
  | None => default
  end.

Definition empty_str : Bson.value float64 := Bson.Scalar (Bson.Str "").

(** The built-in entry of the [$match] filter. *)
Definition not_disabled : gmap string Bson.cond :=
  {[ "is_disabled" := Bson.Ne (Bson.Bool true) ]}.

(** [if equipment_id: try: match_filters["equipment_id"] = ObjectId(...)
    except Exception: logger.warning(...)] *)
Definition add_equipment_filter (equipment_id : option string)
  (match_filters : gmap string Bson.cond) : M (gmap string Bson.cond) :=
  match equipment_id with
  | Some id =>
    if Py.truthy id then
      try_except
        (oid <- lift (Bson.ObjectId id) ;;
         logger DEBUG ("Added equipment_id filter: " +:+ id) ;;
         ret (<["equipment_id" := Bson.Eq (Bson.Oid oid)]> match_filters))
        (fun e =>
           logger WARNING ("Invalid equipment_id '" +:+ id +:+ "'; skipping filter. Error: "
                           +:+ Py.exn_str e) ;;
           ret match_filters)
    else ret match_filters
  | None => ret match_filters
  end.

(** [if tenant_id: match_filters["tenant_id"] = tenant_id] *)
Definition add_tenant_filter (tenant_id : option string)
  (match_filters : gmap string Bson.cond) : M (gmap string Bson.cond) :=
  match tenant_id with
  | Some t =>
    if Py.truthy t then
      logger DEBUG ("Added tenant_id filter: " +:+ t) ;;
      ret (<["tenant_id" := Bson.Eq (Bson.Str t)]> match_filters)
    else ret match_filters
  | None => ret match_filters
  end.

(** [if extra_filters: match_filters.update(extra_filters)]: on a key both
    hold, the caller's entry replaces the one already there. *)
Definition add_extra_filters (extra_filters : option (gmap string Bson.cond))
  (match_filters : gmap string Bson.cond) : M (gmap string Bson.cond) :=
  match extra_filters with
  | Some extra =>
    if bool_decide (extra = ∅) then ret match_filters
    else
      logger DEBUG "Added extra filters" ;;
      ret (extra ∪ match_filters)
  | None => ret match_filters
  end.

(** The filter of the [$match] stage, as [retrieve] assembles it. *)
Definition build_match_filters (equipment_id tenant_id : option string)
  (extra_filters : option (gmap string Bson.cond)) : M (gmap string Bson.cond) :=
  f1 <- add_equipment_filter equipment_id not_disabled ;;
  f2 <- add_tenant_filter tenant_id f1 ;;
  add_extra_filters extra_filters f2.

Definition projected_fields : list string :=
  ["_id"; "chunk_id"; "document_id"; "file_name"; "text"; "chunk_index";
   "equipment_id"; "tenant_id"].

(** [cursor = collection.aggregate(pipeline); await cursor.to_list(length=k)]:
    the driver checks [length], sends the pipeline, and keeps at most
    [length] documents. *)
Definition aggregate_to_list (pipeline : list (Atlas.stage float64)) (length : Z)
  : M (list (Bson.document float64)) :=
  if length <? 0 then raise (Py.ValueError "length must be non-negative")
  else
    modify (fun w => set_aggregations (aggregations w ++ [pipeline]) w) ;;
    coll <- gets document_chunks ;;
    found <- lift (Atlas.aggregate coll pipeline) ;;
    ret (firstn (Z.to_nat length) found).

Definition chunk_content (res : Bson.document float64) : ChunkContent.t float64 :=
  ChunkContent.Make (get res "text" empty_str) (res !! "file_name") (res !! "score").

Definition chunk_metadata (res : Bson.document float64) : ChunkMetadata.t float64 :=
  ChunkMetadata.Make
    (get res "chunk_id" empty_str)
    (Bson.value_str (get res "document_id" empty_str))
    (Bson.value_str (get res "equipment_id" empty_str))
    (res !! "tenant_id")
    (get res "chunk_index" (Bson.Scalar (Bson.Int 0)))
    (get res "score" (Bson.Scalar (Bson.Int 0)))
    (get res "file_name" empty_str).

(** The loop over [results]: both lists grow together, one log line each. *)
Fixpoint shape (results : list (Bson.document float64))
  (chunk_data : list (ChunkContent.t float64)) (chunk_meta : list (ChunkMetadata.t float64))
  : M (list (ChunkContent.t float64) * list (ChunkMetadata.t float64)) :=
  match results with
  | [] => ret (chunk_data, chunk_meta)
  | res :: rest =>
    let chunk_data' := chunk_data ++ [chunk_content res] in
    let chunk_meta' := chunk_meta ++ [chunk_metadata res] in
    logger SUCCESS ("Successfully processed " +:+ pretty (length chunk_data') +:+ " chunks") ;;
    shape rest chunk_data' chunk_meta'
  end.

(** [RAGService.retrieve]; [index_name] is [self.index_name]. The collection
    comes from indexing the database and is never [None], so the
    [ConnectionError] branch is not represented. A log line that prints a
    dictionary carries its fixed text only. *)
Definition retrieve (index_name : string) (query : string) (k : Z)
  (equipment_id tenant_id : option string)
  (extra_filters : option (gmap string Bson.cond)) : M (RetrievalResult.t float64) :=
  try_except
    (logger INFO ("Starting retrieval for query: '" +:+ Py.prefix 50 query
                  +:+ "...' (k=" +:+ pretty k +:+ ")") ;;
     query_embedding <-
       try_except
         (logger DEBUG "Generating query embedding..." ;;
          v <- Embeddings.embed_text query ;;
          logger DEBUG "Query embedding generated successfully" ;;
          ret v)
         (fun e =>
            logger ERROR ("Failed to generate query embedding: " +:+ Py.exn_str e) ;;
            raise e) ;;
     let search_k := Z.max (k * 20) 100 in
     let vector_query := Atlas.Search index_name query_embedding "embedding" search_k in
     match_filters <- build_match_filters equipment_id tenant_id extra_filters ;;
     let pipeline :=
       [ vector_query;
         Atlas.Match match_filters;
         Atlas.Project projected_fields "score";
         Atlas.Limit k ] in
     results <-
       try_except
         (logger DEBUG ("Executing vector search with index: " +:+ index_name
                        +:+ ", search_k=" +:+ pretty search_k
                        +:+ ", final_k=" +:+ pretty k) ;;
          results <- aggregate_to_list pipeline k ;;
          logger INFO ("Retrieved " +:+ pretty (length results)
                       +:+ " results from vector search") ;;
          ret results)
         (fun e =>
            logger ERROR ("Failed to execute vector search aggregation: " +:+ Py.exn_str e) ;;
            raise e) ;;
     shaped <-
       try_except (shape results [] [])
         (fun e =>
            logger ERROR ("Failed to process search results: " +:+ Py.exn_str e) ;;
            raise e) ;;
     ret (RetrievalResult.Make (fst shaped)
            (RetrievalMetadata.Make query k (Z.of_nat (length (fst shaped)))
               equipment_id tenant_id (snd shaped))))
    (fun e =>
       logger ERROR ("Error during retrieval operation: " +:+ Py.exn_str e) ;;
       raise e).

End Service.

End Rag.

(* ===================================================================== *)
(** ** app/config.py *)
(* ===================================================================== *)

Module Settings.

Definition VECTOR_INDEX_NAME : string := "vector_index".
Definition TENANT_ID : string := "mvp_tenant".
Definition USER_ID : string := "mvp_user".

End Settings.

(* ===================================================================== *)
(** ** app/routers/equipment.py *)
(* ===================================================================== *)

Module Equipment.
Import Runtime.
#[local] Open Scope monad_scope.

(** Modelled from the spec: [app/services/text_extraction.py] is not among
    the sources. Section 1 of the specification gives the collaborator as
    [is_supported(content_type, filename) -> bool] and
    [extract_text(path, content_type) -> str]; the file at [path] is the
    temporary copy of the upload, given here by its bytes and its name. *)
Class Text_extraction : Type := {
  is_supported : string -> string -> bool;
  extract_text : string -> string -> string -> Py.result string
}.

(** [fastapi.UploadFile]: what the handler reads of it. *)
Record UploadFile : Type := Upload {
  filename : option string;
  content_type : option string;
  content : string
}.

Section Handlers.
Context {float64 RandomState : Type} `{!Np.Numpy float64 RandomState}
        `{Embeddings.Text_splitter} `{Text_extraction}.
#[local] Abbreviation M := (Runtime.M float64 RandomState).
#[local] Abbreviation world := (Runtime.world float64 RandomState).

(** What a handler returns, or the body of an error response. *)
Inductive body : Type :=
| Documents (documents : list (Bson.document float64)) (count : Z)
| Deleted (message equipment_id : string)
          (equipment_deleted documents_deleted chunks_deleted : Z)
| One_equipment (e : Bson.document float64)
| Detail (detail : string)
| Internal_error.

Definition str (s : string) : Bson.value float64 := Bson.Scalar (Bson.Str s).

Definition by_id (oid : Z) : gmap string Bson.cond :=
  {[ "_id" := Bson.Eq (Bson.Oid oid) ]}.

Definition of_equipment (oid : Z) : gmap string Bson.cond :=
  {[ "equipment_id" := Bson.Eq (Bson.Oid oid) ]}.

(** [if isinstance(doc.get(field), ObjectId): doc[field] = str(doc[field])] *)
Definition oid_to_str (field : string) (doc : Bson.document float64) : Bson.document float64 :=
  match doc !! field with
  | Some (Bson.Scalar (Bson.Oid id)) => <[field := str (Bson.oid_str id)]> doc
  | _ => doc
  end.

(** [if isinstance(doc.get(field), datetime): doc[field] = doc[field].isoformat()] *)
Definition date_to_iso (field : string) (doc : Bson.document float64) : Bson.document float64 :=
  match doc !! field with
  | Some (Bson.Scalar (Bson.Date d)) => <[field := str (Bson.isoformat d)]> doc
  | _ => doc
  end.

(** The four conversions both listing handlers apply to a document. *)
Definition normalize (doc : Bson.document float64) : Bson.document float64 :=
  date_to_iso "updated_at"
    (date_to_iso "created_at" (oid_to_str "equipment_id" (oid_to_str "_id" doc))).

Definition not_found {A} : M A :=
  raise (Py.HTTPException 404 "Equipment not found").

Definition bad_request {A} : M A :=
  raise (Py.HTTPException 400 "Invalid equipment_id format").

(** [get_one_equipment] (line 66) *)
Definition get_one_equipment (equipment_id : string) : M body :=
  oid <- lift (Bson.ObjectId equipment_id) ;;
  coll <- gets equipment ;;
  match Bson.find_one (by_id oid) coll with
  | None => not_found
  | Some e => ret (One_equipment (oid_to_str "_id" e))
  end.

(** [delete_equipment] (line 82) *)
Definition delete_equipment (equipment_id : string) : M body :=
  equipment_obj_id <- try_except (lift (Bson.ObjectId equipment_id)) (fun _ => bad_request) ;;
  coll <- gets equipment ;;
  match Bson.find_one (by_id equipment_obj_id) coll with
  | None => not_found
  | Some _ =>
    chunks <- gets document_chunks ;;
    let chunks_result := Bson.delete_many (of_equipment equipment_obj_id) chunks in
    modify (set_document_chunks (fst chunks_result)) ;;
    docs <- gets documents_metadata ;;
    let docs_result := Bson.delete_many (of_equipment equipment_obj_id) docs in
    modify (set_documents_metadata (fst docs_result)) ;;
    coll <- gets equipment ;;
    let equipment_result := Bson.delete_one (by_id equipment_obj_id) coll in
    modify (set_equipment (fst equipment_result)) ;;
    ret (Deleted "Equipment deleted successfully" equipment_id
           (snd equipment_result) (snd docs_result) (snd chunks_result))
  end.

(** The first [list_equipment_documents] (line 122): "newest first". *)
Definition list_equipment_documents (equipment_id : string) : M body :=
  equipment_obj_id <- try_except (lift (Bson.ObjectId equipment_id)) (fun _ => bad_request) ;;
  coll <- gets equipment ;;
  match Bson.find_one (by_id equipment_obj_id) coll with
  | None => not_found
  | Some _ =>
    stored <- gets documents_metadata ;;
    let docs := Bson.sort_desc "created_at" (Bson.find (of_equipment equipment_obj_id) stored) in
    let docs := map normalize docs in
    ret (Documents docs (Z.of_nat (length docs)))
  end.

(** The second [list_equipment_documents] (line 377), bound to the same
    method and path: "all documents", without the disabled ones. *)
Definition list_equipment_documents' (equipment_id : string) : M body :=
  oid <- lift (Bson.ObjectId equipment_id) ;;
  coll <- gets equipment ;;
  match Bson.find_one (by_id oid) coll with
  | None => not_found
  | Some _ =>
    stored <- gets documents_metadata ;;
    let documents :=
      firstn 1000
        (Bson.find (<["is_disabled" := Bson.Ne (Bson.Bool true)]> (of_equipment oid)) stored) in
    let serialized_documents := map normalize documents in
    ret (Documents serialized_documents (Z.of_nat (length serialized_documents)))
  end.

(** The [chunk_doc] literal (lines 265-275). *)
Definition new_chunk_doc (document_id equipment_oid : Z) (tenant_id : Bson.value float64)
  (original_name chunk_id : string) (index : Z) (chunk_text : string)
  (embedding_vector : list float64) : Bson.document float64 :=
  list_to_map
    [ ("document_id", Bson.Scalar (Bson.Oid document_id));
      ("equipment_id", Bson.Scalar (Bson.Oid equipment_oid));
      ("tenant_id", tenant_id);
      ("file_name", str original_name);
      ("chunk_id", str chunk_id);
      ("chunk_index", Bson.Scalar (Bson.Int index));
      ("text", str chunk_text);
      ("embedding", Bson.Vector embedding_vector);
      ("is_disabled", Bson.Scalar (Bson.Bool false)) ].

(** The [doc_dict] literal (lines 239-252). *)
Definition new_doc_dict (equipment_oid : Z) (tenant_id : Bson.value float64)
  (original_name content_type : string) (size : Z) (storage_key : string)
  (description : option string) (now : Bson.datetime) : Bson.document float64 :=
  list_to_map
    [ ("equipment_id", Bson.Scalar (Bson.Oid equipment_oid));
      ("tenant_id", tenant_id);
      ("file_name", str original_name);
      ("content_type", str content_type);
      ("size", Bson.Scalar (Bson.Int size));
      ("storage_key", str storage_key);
      ("uploaded_by", str Settings.USER_ID);
      ("description",
       match description with
       | Some d => str d
       | None => Bson.Scalar Bson.Null
       end);
      ("document_type", str "knowledge");
      ("embedding_status", str "processing");
      ("created_at", Bson.Scalar (Bson.Date now));
      ("updated_at", Bson.Scalar (Bson.Date now)) ].

(** The chunks whose embedding does not raise, each with the position it has
    among all the chunks: what the loop below keeps, and under which index. *)
Fixpoint surviving (index : Z) (chunks : list string) : list (Z * string) :=
  match chunks with
  | [] => []
  | chunk_text :: rest =>
    (if Py.blank chunk_text then [] else [(index, chunk_text)])
    ++ surviving (index + 1) rest
  end.

(** What identifies a chunk record within its document: its index and text. *)
Definition index_and_text (d : Bson.document float64)
  : option (Bson.value float64) * option (Bson.value float64) :=
  (d !! "chunk_index", d !! "text").

(** The loop over [enumerate(chunks)] (lines 260-296): a chunk whose
    embedding raises is logged and left out; the others are appended with
    the position [index] they have in [chunks]. *)
Fixpoint embed_chunks (document_id equipment_oid : Z) (tenant_id : Bson.value float64)
  (original_name : string) (total index : Z) (chunks : list string)
  (chunk_documents : list (Bson.document float64)) : M (list (Bson.document float64)) :=
  match chunks with
  | [] => ret chunk_documents
  | chunk_text :: rest =>
    chunk_documents' <-
      try_except
        (embedding_vector <- Embeddings.embed_text chunk_text ;;
         u <- uuid4 ;;
         let chunk_doc :=
           new_chunk_doc document_id equipment_oid tenant_id original_name
                         (uuid_str u) index chunk_text embedding_vector in
         (if ((index + 1) mod 10 =? 0) || (index =? total - 1)
          then logger DEBUG "Chunk embedding progress"
          else ret tt) ;;
         ret (chunk_documents ++ [chunk_doc]))
        (fun e =>
           logger WARNING ("Failed to embed chunk " +:+ pretty index +:+ ": "
                           +:+ Py.exn_str e) ;;
           ret chunk_documents) ;;
    embed_chunks document_id equipment_oid tenant_id original_name total (index + 1)
                 rest chunk_documents'
  end.

Definition status_update (status : string) (error : option string) (now : Bson.datetime)
  : list (string * (Bson.value float64)) :=
  [("embedding_status", str status)]
  ++ match error with
     | Some message => [("embedding_error", Bson.Sub [("message", Bson.Str message)])]
     | None => []
     end
  ++ [("updated_at", Bson.Scalar (Bson.Date now))].

(** The body of the loop over [files], inside its [try] (lines 183-347).
    [Some doc] is the descriptor appended to [created_docs]; [None] is a
    [continue]. The temporary file and its removal are not represented. *)
Definition process_file (equipment_id : string) (equipment_oid : Z)
  (tenant_id : Bson.value float64) (description : option string) (file : UploadFile)
  : M (option (Bson.document float64)) :=
  let data := content file in
  let size := Z.of_nat (String.length data) in
  let original_name := Py.or_default (filename file) "upload.bin" in
  let content_type := Py.or_default (content_type file) "application/octet-stream" in
  logger INFO ("Processing file: " +:+ original_name +:+ " (" +:+ pretty size +:+ " bytes)") ;;
  if negb (is_supported content_type original_name) then
    logger WARNING ("Unsupported file format: " +:+ content_type) ;;
    ret None
  else
    match extract_text data original_name content_type with
    | Py.Raise (Py.ValueError m) =>
      logger WARNING ("Unsupported file format: " +:+ original_name +:+ " - " +:+ m) ;;
      ret None
    | Py.Raise (Py.FileNotFoundError m) =>
      logger ERROR ("File not found: " +:+ original_name +:+ " - " +:+ m) ;;
      ret None
    | Py.Raise e =>
      logger ERROR ("Text extraction failed: " +:+ original_name +:+ " - " +:+ Py.exn_str e) ;;
      ret None
    | Py.Ok extracted_text =>
      logger INFO "Text extracted from document" ;;
      if Py.blank extracted_text then
        logger WARNING ("EMPTY_DOCUMENT: No text content extracted from " +:+ original_name) ;;
        ret None
      else
        let chunks := Embeddings.split_text extracted_text in
        logger INFO "Document text split into chunks" ;;
        if negb (Py.nonempty chunks) then
          raise (Py.ValueError "NO_CHUNKS: Text splitting resulted in no chunks")
        else
          u <- uuid4 ;;
          let storage_key :=
            Bson.value_str tenant_id +:+ "/equipment/" +:+ equipment_id +:+ "/"
            +:+ uuid_hex u +:+ "-" +:+ original_name in
          now <- utcnow ;;
          let doc_dict :=
            new_doc_dict equipment_oid tenant_id original_name content_type size
                         storage_key description now in
          stored <- gets documents_metadata ;;
          let '(document_id, doc_dict, stored') := Bson.insert_one doc_dict stored in
          modify (set_documents_metadata stored') ;;
          logger INFO "Document inserted with processing status" ;;
          chunk_documents <-
            embed_chunks document_id equipment_oid tenant_id original_name
                         (Z.of_nat (length chunks)) 0 chunks [] ;;
          if negb (Py.nonempty chunk_documents) then
            failed_at <- utcnow ;;
            modify (fun w =>
              set_documents_metadata
                (Bson.update_one (by_id document_id)
                   (status_update "failed"
                      (Some "Failed to generate embeddings for all chunks") failed_at)
                   (documents_metadata w)) w) ;;
            raise (Py.Exception "EMBEDDING_FAILED: Failed to generate embeddings for all chunks")
          else
            modify (fun w =>
              set_document_chunks (Bson.insert_many chunk_documents (document_chunks w)) w) ;;
            logger INFO "Chunks inserted into database" ;;
            completed_at <- utcnow ;;
            modify (fun w =>
              set_documents_metadata
                (Bson.update_one (by_id document_id)
                   (status_update "completed" None completed_at)
                   (documents_metadata w)) w) ;;
            logger INFO "Document embedding completed" ;;
            let doc_dict := <["_id" := str (Bson.oid_str document_id)]> doc_dict in
            let doc_dict :=
              match doc_dict !! "equipment_id" with
              | Some v => <["equipment_id" := str (Bson.value_str v)]> doc_dict
              | None => doc_dict
              end in
            let doc_dict := date_to_iso "updated_at" (date_to_iso "created_at" doc_dict) in
            logger SUCCESS ("Successfully processed " +:+ original_name) ;;
            ret (Some doc_dict)
    end.

(** The loop over [files] with its [except Exception: ... continue]. *)
Fixpoint process_files (equipment_id : string) (equipment_oid : Z)
  (tenant_id : Bson.value float64) (description : option string) (files : list UploadFile)
  (created_docs : list (Bson.document float64)) : M (list (Bson.document float64)) :=
  match files with
  | [] => ret created_docs
  | file :: rest =>
    created_docs' <-
      try_except
        (outcome <- process_file equipment_id equipment_oid tenant_id description file ;;
         ret (match outcome with
              | Some doc => created_docs ++ [doc]
              | None => created_docs
              end))
        (fun e =>
           logger ERROR ("Error processing file "
                         +:+ Py.or_default (filename file) "None" +:+ ": " +:+ Py.exn_str e) ;;
           ret created_docs) ;;
    process_files equipment_id equipment_oid tenant_id description rest created_docs'
  end.

(** [upload_equipment_documents] (line 160), below its rate limit. *)
Definition upload_equipment_documents (equipment_id : string)
  (files : list UploadFile) (description : option string) : M body :=
  oid <- lift (Bson.ObjectId equipment_id) ;;
  coll <- gets equipment ;;
  match Bson.find_one (by_id oid) coll with
  | None => not_found
  | Some equipment =>
    let tenant_id :=
      match equipment !! "tenant_id" with
      | Some v => if Bson.truthy v then v else str Settings.TENANT_ID
      | None => str Settings.TENANT_ID
      end in
    created_docs <- process_files equipment_id oid tenant_id description files [] ;;
    ret (Documents created_docs (Z.of_nat (length created_docs)))
  end.

End Handlers.

Arguments body : clear implicits.

End Equipment.

(* ===================================================================== *)
(** ** main.py: routing and the conversion of exceptions to responses *)
(* ===================================================================== *)

Module Http.
Import Runtime.
#[local] Open Scope monad_scope.

Inductive method : Type := GET | POST | DELETE.

#[export] Instance method_eq_dec : EqDecision method.
Proof. solve_decision. Defined.

(** The handlers of the equipment router that take an [equipment_id], named
    by the line of their [def]. *)
Inductive endpoint : Type :=
| Get_one_equipment
| Delete_equipment
| List_equipment_documents
| Upload_equipment_documents
| List_equipment_documents'.

Inductive segment : Type :=
| Lit (s : string)
| Param (name : string).

(** The routes with a path parameter, in the order the decorators register
    them. (The two routes at ["/"] come first and match no path with a
    segment.) *)
Definition routes : list (method * list segment * endpoint) :=
  [ (GET, [Param "equipment_id"], Get_one_equipment);
    (DELETE, [Param "equipment_id"], Delete_equipment);
    (GET, [Param "equipment_id"; Lit "documents"], List_equipment_documents);
    (POST, [Param "equipment_id"; Lit "documents"], Upload_equipment_documents);
    (GET, [Param "equipment_id"; Lit "documents"], List_equipment_documents') ].

(** A path, as the segments after the router prefix, against a pattern: the
    value of the path parameter when it matches. *)
Fixpoint match_path (pattern : list segment) (path : list string) (found : option string)
  : option (option string) :=
  match pattern, path with
  | [], [] => Some found
  | Lit s :: pattern', p :: path' =>
    if bool_decide (s = p) then match_path pattern' path' found else None
  | Param _ :: pattern', p :: path' =>
    if Py.truthy p then match_path pattern' path' (Some p) else None
  | _, _ => None
  end.

(** The first route that matches serves the request. *)
Fixpoint resolve (table : list (method * list segment * endpoint))
  (m : method) (path : list string) : option (endpoint * string) :=
  match table with
  | [] => None
  | (m', pattern, e) :: rest =>
    if bool_decide (m' = m) then
      match match_path pattern path None with
      | Some (Some id) => Some (e, id)
      | _ => resolve rest m path
      end
    else resolve rest m path
  end.

Record request : Type := Request {
  req_method : method;
  req_path : list string;
  req_files : list Equipment.UploadFile;
  req_description : option string
}.

Section Serving.
Context {float64 RandomState : Type} `{!Np.Numpy float64 RandomState}
        `{Embeddings.Text_splitter} `{Equipment.Text_extraction}.
#[local] Abbreviation M := (Runtime.M float64 RandomState).
#[local] Abbreviation world := (Runtime.world float64 RandomState).

Record response : Type := Response {
  status_code : Z;
  content : Equipment.body float64
}.

(** A handler's outcome as a response: its value under the route's status,
    an [HTTPException] under its own, anything else through
    [generic_exception_handler] as 500. *)
Definition respond (success : Z) (handler : M (Equipment.body float64))
  : world -> response * world :=
  fun w =>
    match handler w with
    | (Py.Ok b, w') => (Response success b, w')
    | (Py.Raise (Py.HTTPException code detail), w') =>
      (Response code (Equipment.Detail detail), w')
    | (Py.Raise _, w') => (Response 500 Equipment.Internal_error, w')
    end.

Definition serve (req : request) : world -> response * world :=
  match resolve routes (req_method req) (req_path req) with
  | Some (Get_one_equipment, id) => respond 200 (Equipment.get_one_equipment id)
  | Some (Delete_equipment, id) => respond 200 (Equipment.delete_equipment id)
  | Some (List_equipment_documents, id) => respond 200 (Equipment.list_equipment_documents id)
  | Some (Upload_equipment_documents, id) =>
    respond 201 (Equipment.upload_equipment_documents id (req_files req) (req_description req))
  | Some (List_equipment_documents', id) =>
    respond 200 (Equipment.list_equipment_documents' id)
  | None => fun w => (Response 404 (Equipment.Detail "Not Found"), w)
  end.

End Serving.

Arguments response : clear implicits.

End Http.

(* ===================================================================== *)
(** ** app/bot.py: the search_knowledge_base tool *)
(* ===================================================================== *)

Module Bot.
Import Runtime.
#[local] Open Scope monad_scope.

Section Tool.
Context {float64 RandomState : Type} `{!Np.Numpy float64 RandomState}
        `{Embeddings.Text_splitter} `{!Atlas.Search_index float64}.
#[local] Abbreviation M := (Runtime.M float64 RandomState).
#[local] Abbreviation world := (Runtime.world float64 RandomState).

(** [run_bot]'s [equipment_id] and [tenant_id], which the tool closes over. *)
Variables (equipment_id tenant_id : string).

(** [params.result_callback(result)]: the conversation loop takes the
    result. The callback is the loop's own code: when it raises, the result
    is not taken. *)
Definition result_callback (r : tool_result float64) : M unit :=
  fun w =>
    match callback_failure w with
    | Some e => (Py.Raise e, w)
    | None => (Py.Ok tt, set_delivered (delivered w ++ [r]) w)
    end.

(** [rtvi.push_frame(frame)] *)
Definition push_frame (f : frame float64) : M unit :=
  fun w =>
    match push_failure w with
    | Some e => (Py.Raise e, w)
    | None => (Py.Ok tt, set_frames (frames w ++ [f]) w)
    end.

Definition search_knowledge_base (arguments : gmap string string) : M unit :=
  try_except
    (let query := default "" (arguments !! "query") in
     retrieval_result <-
       Rag.retrieve Settings.VECTOR_INDEX_NAME query 5
                    (Some equipment_id) (Some tenant_id) None ;;
     let pairs :=
       combine (RetrievalResult.data retrieval_result)
               (RetrievalMetadata.chunks (RetrievalResult.metadata retrieval_result)) in
     let clean_data :=
       map (fun cm => (ChunkMetadata.chunk_id (snd cm), ChunkContent.text (fst cm))) pairs in
     result_callback (Results clean_data) ;;
     push_frame
       (Server_message "search_knowledge_base"
          (map (fun cm => (ChunkMetadata.chunk_id (snd cm), ChunkContent.text (fst cm), snd cm))
               pairs)))
    (fun e =>
       logger ERROR ("Error in search_knowledge_base: " +:+ Py.exn_str e) ;;
       result_callback (Results [])).

End Tool.

End Bot.

(* ===================================================================== *)
(** ** app/routers/equipment.py: the handlers of the collection path *)
(* ===================================================================== *)

Module EquipmentModel.

(** Modelled from the spec: [app/models/equipment.py] is not among the
    sources. Section 3 of the specification gives the attributes of an
    Equipment as name, description, tenant id, active flag and timestamps;
    the identifier is the field the handlers exclude from the dump. *)
Record t : Type := Make {
  name : string;
  description : option string;
  tenant_id : string;
  is_active : bool;
  created_at : option Bson.datetime;
  updated_at : option Bson.datetime
}.

End EquipmentModel.

Module EquipmentRoot.
Import Runtime.
#[local] Open Scope monad_scope.

Section Handlers.
Context {float64 RandomState : Type}.
#[local] Abbreviation M := (Runtime.M float64 RandomState).

Definition optional_field (key : string) (v : option (Bson.value float64))
  : list (string * Bson.value float64) :=
  match v with
  | Some x => [(key, x)]
  | None => []
  end.

(** [equipment.model_dump(exclude={"id"}, exclude_none=True)] *)
Definition model_dump (e : EquipmentModel.t) : Bson.document float64 :=
  list_to_map
    ([("name", Equipment.str (EquipmentModel.name e))]
     ++ optional_field "description" (Equipment.str <$> EquipmentModel.description e)
     ++ [("tenant_id", Equipment.str (EquipmentModel.tenant_id e));
         ("is_active", Bson.Scalar (Bson.Bool (EquipmentModel.is_active e)))]
     ++ optional_field "created_at"
          ((fun d => Bson.Scalar (Bson.Date d)) <$> EquipmentModel.created_at e)
     ++ optional_field "updated_at"
          ((fun d => Bson.Scalar (Bson.Date d)) <$> EquipmentModel.updated_at e)).

(** The filter of the duplicate check (line 28). *)
Definition same_name (e : EquipmentModel.t) : gmap string Bson.cond :=
  {[ "name" := Bson.Eq (Bson.Str (EquipmentModel.name e));
     "tenant_id" := Bson.Eq (Bson.Str (EquipmentModel.tenant_id e)) ]}.

Definition conflict {A} : M A :=
  raise (Py.HTTPException 409 "Equipment with this name already exists").

(** [create_equipment] (line 22); the result is the response model, as the
    dictionary it is built from. *)
Definition create_equipment (e : EquipmentModel.t) : M (Bson.document float64) :=
  coll <- gets equipment ;;
  match Bson.find_one (same_name e) coll with
  | Some _ => conflict
  | None =>
    now <- utcnow ;;
    let equipment_dict := model_dump e in
    let equipment_dict := <["created_at" := Bson.Scalar (Bson.Date now)]> equipment_dict in
    let equipment_dict := <["updated_at" := Bson.Scalar (Bson.Date now)]> equipment_dict in
    coll <- gets equipment ;;
    let '(inserted_id, _, coll') := Bson.insert_one equipment_dict coll in
    modify (set_equipment coll') ;;
    let response_dict := model_dump e in
    ret (<["_id" := Equipment.str (Bson.oid_str inserted_id)]> response_dict)
  end.

End Handlers.

End EquipmentRoot.

(* ===================================================================== *)
(** ** app/bot.py: the scope of a session *)
(* ===================================================================== *)

Module Session.
Import Runtime.
#[local] Open Scope monad_scope.

Section Scope.
Context {float64 RandomState : Type} `{!Np.Numpy float64 RandomState}.
#[local] Abbreviation M := (Runtime.M float64 RandomState).

(** The tenant [run_bot] settles on (lines 79-94), from the body of the
    connection request: the one the body names, else the one of the
    equipment, else the configured one. A stored equipment is a non-empty
    dictionary, so [if equipment] is the test that one was found. *)
Definition infer_tenant (body : gmap string string) : M (Bson.value float64) :=
  let equipment_id := default "" (body !! "equipment_id") in
  let tenant_id := Equipment.str (default Settings.TENANT_ID (body !! "tenant_id")) in
  if Py.truthy equipment_id && negb (bool_decide (is_Some (body !! "tenant_id"))) then
    try_except
      (oid <- lift (Bson.ObjectId equipment_id) ;;
       coll <- gets equipment ;;
       match Bson.find_one (Equipment.by_id oid) coll with
       | Some equipment =>
         match equipment !! "tenant_id" with
         | Some v => ret (if Bson.truthy v then v else tenant_id)
         | None => ret tenant_id
         end
       | None => ret tenant_id
       end)
      (fun e =>
         logger WARNING ("Failed to infer tenant_id from equipment_id=" +:+ equipment_id
                         +:+ ": " +:+ Py.exn_str e) ;;
         ret tenant_id)
  else ret tenant_id.

End Scope.

End Session.

(* ===================================================================== *)
(** ** app/middleware/rate_limit.py *)
(* ===================================================================== *)

Module RateLimit.

(** [s.split(",")[0]] *)
Fixpoint first_field (s : string) : string :=
  match s with
  | EmptyString => EmptyString
  | String c rest => if Ascii.eqb c "," then EmptyString else String c (first_field rest)
  end.

(** [get_client_identifier] (line 8): [forwarded] is the value of the
    [X-Forwarded-For] header, if the request has one; [remote_address] is
    what [get_remote_address(request)] gives. *)
Definition get_client_identifier (forwarded : option string) (remote_address : string)
  : string :=
  match forwarded with
  | Some header => if Py.truthy header then first_field header else remote_address
  | None => remote_address
  end.

End RateLimit.

(* ===================================================================== *)
(** ** Executable instances of the interfaces *)
(* ===================================================================== *)

Module Reference.

#[export] Existing Instance Np.lcg.


(** Pieces of a text between occurrences of a separator character. *)
Fixpoint pieces (sep : ascii) (current : string) (s : string) : list string :=
  match s with
  | EmptyString => [current]
  | String c r =>
    if bool_decide (c = sep) then current :: pieces sep "" r
    else pieces sep (current +:+ String c "") r
  end.

(** A splitter that cuts at every ["|"] and keeps the pieces as they are.
    It is not the library's splitter: a blank piece stays a chunk here,
    while the library strips its chunks and drops the empty ones. It is the
    splitter that reaches the branch of the handler where the embedding of
    a chunk raises. *)
#[export] Instance bar_splitter : Embeddings.Text_splitter := {|
  Embeddings.splitter_split_text := pieces "|" ""
|}.

(** A splitter that returns no blank chunk, as the library's does: it cuts at
    every ["|"] and drops the pieces that are blank. *)
Definition dropping_splitter : Embeddings.Text_splitter := {|
  Embeddings.splitter_split_text := fun text =>
    List.filter (fun piece => negb (Py.blank piece)) (pieces "|" "" text)
|}.

(** Plain text only; the text of a file is its content. *)
#[export] Instance plain_text : Equipment.Text_extraction := {|
  Equipment.is_supported := fun content_type _ => bool_decide (content_type = "text/plain");
  Equipment.extract_text := fun data _ content_type =>
    if bool_decide (content_type = "text/plain") then Py.Ok data
    else Py.Raise (Py.ValueError "unsupported")
|}.

Definition dot (u v : list Z) : Z :=
  fold_left (fun acc xy => acc + fst xy * snd xy) (combine u v) 0.

Definition scored (vector : list Z) (path : string) (d : (Bson.document Z))
  : option ((Bson.document Z) * Z) :=
  match d !! path with
  | Some (Bson.Vector v) => Some (d, dot vector v)
  | _ => None
  end.

Fixpoint insert_by_score (x : (Bson.document Z) * Z) (sorted : list ((Bson.document Z) * Z))
  : list ((Bson.document Z) * Z) :=
  match sorted with
  | [] => [x]
  | y :: rest =>
    if snd y <=? snd x then x :: y :: rest else y :: insert_by_score x rest
  end.

(** Exact nearest neighbours by dot product. *)
#[export] Instance exact_index : Atlas.Search_index Z := {|
  Atlas.knn_beta := fun _ vector path k coll =>
    Py.Ok (firstn (Z.to_nat k)
             (fold_right insert_by_score [] (omap (scored vector path) coll)))
|}.

Definition epoch : Bson.datetime := Bson.Datetime 2024 1 1 0 0 0 0.

(** A state with empty collections: the clock advances a second per reading. *)
Definition empty_world : Runtime.world Z Z := {|
  Runtime.np_random := 0;
  Runtime.equipment := [];
  Runtime.documents_metadata := [];
  Runtime.document_chunks := [];
  Runtime.clock := fun n => Bson.Datetime 2024 1 1 0 0 (Z.of_nat n) 0;
  Runtime.clock_reads := O;
  Runtime.uuid_source := fun n => Z.of_nat n;
  Runtime.uuids_drawn := O;
  Runtime.log := [];
  Runtime.aggregations := [];
  Runtime.delivered := [];
  Runtime.frames := [];
  Runtime.push_failure := None;
  Runtime.callback_failure := None
|}.

(** A chunk that was soft-deleted, and a state that stores it. *)
Definition disabled_chunk : (Bson.document Z) :=
  list_to_map
    [ ("_id", Bson.Scalar (Bson.Oid 1));
      ("document_id", Bson.Scalar (Bson.Oid 7));
      ("equipment_id", Bson.Scalar (Bson.Oid 3));
      ("tenant_id", Bson.Scalar (Bson.Str "mvp_tenant"));
      ("file_name", Bson.Scalar (Bson.Str "manual.txt"));
      ("chunk_id", Bson.Scalar (Bson.Str "c-1"));
      ("chunk_index", Bson.Scalar (Bson.Int 0));
      ("text", Bson.Scalar (Bson.Str "withdrawn procedure"));
      ("embedding", Bson.Vector [1000; 0; 0]);
      ("is_disabled", Bson.Scalar (Bson.Bool true)) ].

Definition world_with_disabled_chunk : Runtime.world Z Z :=
  Runtime.set_document_chunks [disabled_chunk] empty_world.

(** An equipment with two documents, the newer one soft-deleted. *)
Definition pump_id : string := "65a1b2c3d4e5f60718293a4b".

Definition pump_oid : Z := 0x65a1b2c3d4e5f60718293a4b.

Definition pump : Bson.document Z :=
  list_to_map
    [ ("_id", Bson.Scalar (Bson.Oid pump_oid));
      ("name", Bson.Scalar (Bson.Str "feed pump"));
      ("tenant_id", Bson.Scalar (Bson.Str "acme")) ].

Definition manual : Bson.document Z :=
  list_to_map
    [ ("_id", Bson.Scalar (Bson.Oid 1));
      ("equipment_id", Bson.Scalar (Bson.Oid pump_oid));
      ("file_name", Bson.Scalar (Bson.Str "manual.txt"));
      ("embedding_status", Bson.Scalar (Bson.Str "completed"));
      ("created_at", Bson.Scalar (Bson.Date (Bson.Datetime 2024 1 15 9 30 0 0))) ].

Definition withdrawn : Bson.document Z :=
  list_to_map
    [ ("_id", Bson.Scalar (Bson.Oid 2));
      ("equipment_id", Bson.Scalar (Bson.Oid pump_oid));
      ("file_name", Bson.Scalar (Bson.Str "withdrawn.txt"));
      ("embedding_status", Bson.Scalar (Bson.Str "completed"));
      ("is_disabled", Bson.Scalar (Bson.Bool true));
      ("created_at", Bson.Scalar (Bson.Date (Bson.Datetime 2024 2 1 8 0 0 0))) ].

Definition plant : Runtime.world Z Z :=
  Runtime.set_documents_metadata [manual; withdrawn]
    (Runtime.set_equipment [pump] empty_world).

(** Uploads: a file of three pieces whose middle one is blank, a file of two
    empty pieces, and a file of one piece. *)
Definition notes : Equipment.UploadFile :=
  Equipment.Upload (Some "notes.txt") (Some "text/plain") "alpha| |beta".

Definition bars : Equipment.UploadFile :=
  Equipment.Upload (Some "bars.txt") (Some "text/plain") "|".

Definition leaflet : Equipment.UploadFile :=
  Equipment.Upload (Some "leaflet.txt") (Some "text/plain") "pump manual".

End Reference.

(** The record the pipeline of [retrieve] returns for a candidate of the
    search and its score: the projection of the candidate. *)
Module Pool.

Definition row {float64 : Type} (ds : Bson.document float64 * float64)
  : Bson.document float64 :=
  fst (Atlas.project Rag.projected_fields "score" (fst ds, Some (snd ds))).

End Pool.

(** Two equipments of two tenants under one name, with documents and chunks
    of both. *)
Module Fixtures.
Import Reference.

Definition press_id : string := "65a1b2c3d4e5f60718293a4c".

Definition press_oid : Z := 0x65a1b2c3d4e5f60718293a4c.

Definition press : Bson.document Z :=
  list_to_map
    [ ("_id", Bson.Scalar (Bson.Oid press_oid));
      ("name", Bson.Scalar (Bson.Str "feed pump"));
      ("tenant_id", Bson.Scalar (Bson.Str "globex")) ].

Definition guide : Bson.document Z :=
  list_to_map
    [ ("_id", Bson.Scalar (Bson.Oid 3));
      ("equipment_id", Bson.Scalar (Bson.Oid press_oid));
      ("file_name", Bson.Scalar (Bson.Str "guide.txt"));
      ("embedding_status", Bson.Scalar (Bson.Str "completed"));
      ("created_at", Bson.Scalar (Bson.Date (Bson.Datetime 2024 1 20 12 0 0 0))) ].

Definition chunk (id document_id equipment_oid : Z) (tenant_id file_name chunk_id : string)
  (index : Z) (text : string) (embedding : list Z) : Bson.document Z :=
  list_to_map
    [ ("_id", Bson.Scalar (Bson.Oid id));
      ("document_id", Bson.Scalar (Bson.Oid document_id));
      ("equipment_id", Bson.Scalar (Bson.Oid equipment_oid));
      ("tenant_id", Bson.Scalar (Bson.Str tenant_id));
      ("file_name", Bson.Scalar (Bson.Str file_name));
      ("chunk_id", Bson.Scalar (Bson.Str chunk_id));
      ("chunk_index", Bson.Scalar (Bson.Int index));
      ("text", Bson.Scalar (Bson.Str text));
      ("embedding", Bson.Vector embedding);
      ("is_disabled", Bson.Scalar (Bson.Bool false)) ].

Definition priming : Bson.document Z :=
  chunk 11 1 pump_oid "acme" "manual.txt" "c-11" 0 "prime the pump" [3; 0; 0].

Definition seals : Bson.document Z :=
  chunk 12 1 pump_oid "acme" "manual.txt" "c-12" 1 "replace the seals" [0; 2; 0].

Definition platen : Bson.document Z :=
  chunk 13 3 press_oid "globex" "guide.txt" "c-13" 0 "level the platen" [5; 5; 5].

(** Requests for a new equipment: one under a name the yard does not have,
    one under the name of the pump for the tenant of the pump, and one under
    that name for a third tenant. *)
Definition valve : EquipmentModel.t :=
  EquipmentModel.Make "relief valve" (Some "spare") "acme" true None None.

Definition second_pump : EquipmentModel.t :=
  EquipmentModel.Make "feed pump" None "acme" true None None.

Definition initech_pump : EquipmentModel.t :=
  EquipmentModel.Make "feed pump" None "initech" true None None.

(** An identifier no equipment of the yard has. *)
Definition lathe_id : string := "65a1b2c3d4e5f60718293a4d".

Definition lathe_oid : Z := 0x65a1b2c3d4e5f60718293a4d.

(** Uploads the extraction does not take, or finds no text in. *)
Definition scan : Equipment.UploadFile :=
  Equipment.Upload (Some "scan.png") (Some "image/png") "pump manual".

Definition blank_page : Equipment.UploadFile :=
  Equipment.Upload (Some "blank.txt") (Some "text/plain") "   ".

Definition yard : Runtime.world Z Z :=
  Runtime.set_document_chunks [priming; platen; seals]
    (Runtime.set_documents_metadata [manual; guide; withdrawn]
       (Runtime.set_equipment [pump; press] empty_world)).



End Fixtures.

(* ===================================================================== *)
(** * Properties *)
(* ===================================================================== *)

(** Reads the fields of a state built by the setters. *)
Ltac fields :=
  cbn [fst snd
       Runtime.np_random Runtime.equipment Runtime.documents_metadata
       Runtime.document_chunks Runtime.clock Runtime.clock_reads Runtime.uuid_source
       Runtime.uuids_drawn Runtime.log Runtime.aggregations Runtime.delivered
       Runtime.frames Runtime.push_failure Runtime.callback_failure
       Runtime.set_np_random Runtime.set_equipment Runtime.set_documents_metadata
       Runtime.set_document_chunks Runtime.set_clock_reads Runtime.set_uuids_drawn
       Runtime.set_log Runtime.set_aggregations Runtime.set_delivered
       Runtime.set_frames].

(** Runs one primitive operation of the monad that the goal applies to a
    state; [run] sequences the computation and runs it as far as the
    primitive operations go, leaving the calls of other functions. *)
Ltac step :=
  match goal with
  | |- context [Runtime.logger ?l ?m ?w] =>
    change (Runtime.logger l m w)
      with (@Py.Ok unit tt, Runtime.set_log (Runtime.log w ++ [(l, m)]) w)
  | |- context [Runtime.modify ?f ?w] =>
    change (Runtime.modify f w) with (@Py.Ok unit tt, f w)
  | |- context [Runtime.gets ?f ?w] =>
    change (Runtime.gets f w) with (Py.Ok (f w), w)
  | |- context [Runtime.ret ?a ?w] =>
    change (Runtime.ret a w) with (Py.Ok a, w)
  | |- context [@Runtime.raise ?F ?S ?A ?e ?w] =>
    change (@Runtime.raise F S A e w) with (@Py.Raise A e, w)
  | |- context [Runtime.lift ?r ?w] =>
    change (Runtime.lift r w) with (r, w)
  | |- context [Runtime.utcnow ?w] =>
    change (Runtime.utcnow w)
      with (Py.Ok (Runtime.clock w (Runtime.clock_reads w)),
            Runtime.set_clock_reads (S (Runtime.clock_reads w)) w)
  | |- context [Runtime.uuid4 ?w] =>
    change (Runtime.uuid4 w)
      with (Py.Ok (Runtime.uuid_source w (Runtime.uuids_drawn w) mod 2 ^ 128),
            Runtime.set_uuids_drawn (S (Runtime.uuids_drawn w)) w)
  end;
  cbv beta iota; fields.

Ltac run :=
  cbv beta iota zeta delta [Runtime.bind Runtime.try_except];
  repeat step.

(** ** Strings and digests *)

Module PyFacts.

(** The digest function on the test vectors of FIPS 180-4. *)
Example sha256_abc :
  Hashlib.hexdigest (Py.encode "abc")
  = "ba7816bf8f01cfea414140de5dae2223b00361a396177a9cb410ff61f20015ad".
Proof. vm_compute. reflexivity. Qed.

Example sha256_empty :
  Hashlib.hexdigest (Py.encode "")
  = "e3b0c44298fc1c149afbf4c8996fb92427ae41e4649b934ca495991b7852b855".
Proof. vm_compute. reflexivity. Qed.

Example sha256_two_blocks :
  Hashlib.hexdigest (Py.encode "abcdbcdecdefdefgefghfghighijhijkijkljklmklmnlmnomnopnopq")
  = "248d6a61d20638b8e5c026930c3e6039a33ce45964ff2167f6ecedd419db06c1".
Proof. vm_compute. reflexivity. Qed.

Lemma length_append (a b : string) :
  String.length (a +:+ b) = (String.length a + String.length b)%nat.
Proof. induction a as [|c a IH]; simpl; [reflexivity | now rewrite IH]. Qed.

Lemma length_hex (width : nat) (n : Z) : String.length (Py.hex width n) = width.
Proof.
  revert n. induction width as [|w IH]; intros n; simpl; [reflexivity|].
  rewrite length_append, IH. simpl. lia.
Qed.

Lemma prefix_append (a b : string) :
  Py.prefix (String.length a) (a +:+ b) = a.
Proof.
  unfold Py.prefix. induction a as [|c a IH]; simpl.
  - destruct b; reflexivity.
  - now rewrite IH.
Qed.

Lemma hex_value_digit (d : Z) :
  0 <= d < 16 -> Py.hex_value (Py.hex_digit d) = Some d.
Proof.
  intros Hd.
  assert (Hcases : d = 0 \/ d = 1 \/ d = 2 \/ d = 3 \/ d = 4 \/ d = 5 \/ d = 6 \/ d = 7
                   \/ d = 8 \/ d = 9 \/ d = 10 \/ d = 11 \/ d = 12 \/ d = 13 \/ d = 14
                   \/ d = 15) by lia.
  repeat (destruct Hcases as [-> | Hcases]; [reflexivity|]).
  subst d. reflexivity.
Qed.

Lemma int16_from_append (a b : string) (acc : Z) :
  Py.int16_from acc (a +:+ b)
  = match Py.int16_from acc a with
    | Some n => Py.int16_from n b
    | None => None
    end.
Proof.
  revert acc. induction a as [|c a IH]; intros acc; simpl; [reflexivity|].
  destruct (Py.hex_value c); [apply IH | reflexivity].
Qed.

Lemma int16_from_hex (width : nat) (n acc : Z) :
  Py.int16_from acc (Py.hex width n)
  = Some (acc * 16 ^ Z.of_nat width + n mod 16 ^ Z.of_nat width).
Proof.
  revert n acc. induction width as [|w IH]; intros n acc.
  - simpl. rewrite Z.mod_1_r. f_equal. lia.
  - cbn [Py.hex]. rewrite int16_from_append, IH.
    cbn [Py.int16_from]. rewrite hex_value_digit by (apply Z.mod_pos_bound; lia).
    f_equal. rewrite Nat2Z.inj_succ, Z.pow_succ_r by lia.
    rewrite (Z.rem_mul_r n 16 (16 ^ Z.of_nat w)) by lia. lia.
Qed.

Lemma int16_hex8 (n : Z) : Py.int16 (Py.hex 8 n) = Py.Ok (n mod 2 ^ 32).
Proof.
  unfold Py.int16. rewrite int16_from_hex.
  pose proof (length_hex 8 n) as Hl.
  destruct (Py.hex 8 n); [discriminate Hl|].
  f_equal.
Qed.

(** A digest always has its eight words, each on 32 bits. *)
Lemma sha256_words (msg : list Z) :
  exists a rest, Hashlib.sha256 msg = a :: rest /\ 0 <= a < 2 ^ 32.
Proof.
  unfold Hashlib.sha256.
  assert (Hinit : exists a rest, Hashlib.initial_hash = a :: rest /\ 0 <= a < 2 ^ 32).
  { eexists _, _. split; [reflexivity | lia]. }
  revert Hinit. generalize Hashlib.initial_hash.
  induction (Hashlib.blocks (Hashlib.pad msg)) as [|b bs IH]; intros h Hh; [exact Hh|].
  apply IH. unfold Hashlib.compress. eexists _, _. split; [reflexivity|].
  unfold Hashlib.add32, Hashlib.word. apply Z.mod_pos_bound. lia.
Qed.

(** [int(hex_dig[:8], 16)] is the first word of the digest. *)
Lemma digest_prefix_value (msg : list Z) :
  exists seed, Py.int16 (Py.prefix 8 (Hashlib.hexdigest msg)) = Py.Ok seed
               /\ 0 <= seed < 2 ^ 32.
Proof.
  destruct (sha256_words msg) as (a & rest & Hsha & Ha).
  exists a. split; [|exact Ha].
  unfold Hashlib.hexdigest. rewrite Hsha. cbn [Hashlib.concat_hex].
  replace 8%nat with (String.length (Py.hex 8 a)) at 1 by apply length_hex.
  rewrite prefix_append, int16_hex8. f_equal. apply Z.mod_small. exact Ha.
Qed.

End PyFacts.

(** ** The embedding service *)

Module EmbeddingFacts.
Import Runtime.

Section Facts.
Context {float64 RandomState : Type} `{!Np.Numpy float64 RandomState} `{Embeddings.Text_splitter}.
#[local] Abbreviation M := (Runtime.M float64 RandomState).
#[local] Abbreviation world := (Runtime.world float64 RandomState).

(** On a text that is not blank, [embed_text] returns the vector of the
    digest prefix and leaves only the generator changed. *)
Lemma embed_text_ok (text : string) (w : world) :
  Py.blank text = false ->
  exists seed,
    Py.int16 (Py.prefix 8 (Hashlib.hexdigest (Py.encode text))) = Py.Ok seed
    /\ Embeddings.embed_text text w
       = (Py.Ok (Embeddings.vector_of_seed seed), set_np_random (Embeddings.state_after seed) w).
Proof.
  intros Hblank.
  destruct (PyFacts.digest_prefix_value (Py.encode text)) as (seed & Hseed & Hrange).
  exists seed. split; [exact Hseed|].
  unfold Embeddings.embed_text. rewrite Hblank.
  unfold bind, lift. rewrite Hseed.
  unfold Embeddings.np_random_seed.
  replace ((0 <=? seed) && (seed <? 2 ^ 32)) with true
    by (symmetry; apply andb_true_intro; split; [apply Z.leb_le | apply Z.ltb_lt]; lia).
  unfold modify, Embeddings.np_random_normal, ret, Embeddings.vector_of_seed,
    Embeddings.state_after.
  cbn [np_random set_np_random].
  destruct (Np.normal Embeddings.embedding_dim (Np.seeded seed)) as [xs st].
  reflexivity.
Qed.

Lemma embed_text_blank (text : string) (w : world) :
  Py.blank text = true ->
  Embeddings.embed_text text w = (Py.Raise (Py.ValueError "Cannot embed empty text"), w).
Proof. intros Hblank. unfold Embeddings.embed_text. now rewrite Hblank. Qed.

(** C9. For every text that is neither empty nor whitespace only, two calls
    of [embed_text] return the same vector, element for element: whatever
    the generator state each call starts from (in particular the state the
    first call leaves to the second), both return normally, with one and
    the same vector. *)
Theorem embed_text_deterministic (text : string) (w1 w2 : world) :
  Py.blank text = false ->
  exists v,
    fst (Embeddings.embed_text text w1) = Py.Ok v
    /\ fst (Embeddings.embed_text text (snd (Embeddings.embed_text text w1))) = Py.Ok v
    /\ fst (Embeddings.embed_text text w2) = Py.Ok v.
Proof.
  intros Hblank.
  destruct (embed_text_ok text w1 Hblank) as (seed & Hseed & Hrun1).
  exists (Embeddings.vector_of_seed seed). rewrite Hrun1. cbn [fst snd].
  split; [reflexivity|]. split.
  - destruct (embed_text_ok text (set_np_random (Embeddings.state_after seed) w1) Hblank)
      as (seed' & Hseed' & ->).
    rewrite Hseed in Hseed'. injection Hseed' as <-. reflexivity.
  - destruct (embed_text_ok text w2 Hblank) as (seed' & Hseed' & ->).
    rewrite Hseed in Hseed'. injection Hseed' as <-. reflexivity.
Qed.

(** C10. The vector [embed_text] returns depends on the text only through
    the first 8 hexadecimal digits of its SHA-256 digest: two texts (blank
    ones apart) whose digests agree on these digits get the same vector,
    from whatever states the two calls start. *)
Theorem embed_text_digest_prefix (t1 t2 : string) (w1 w2 : world) :
  Py.blank t1 = false ->
  Py.blank t2 = false ->
  Py.prefix 8 (Hashlib.hexdigest (Py.encode t1))
  = Py.prefix 8 (Hashlib.hexdigest (Py.encode t2)) ->
  exists v,
    fst (Embeddings.embed_text t1 w1) = Py.Ok v
    /\ fst (Embeddings.embed_text t2 w2) = Py.Ok v.
Proof.
  intros Hb1 Hb2 Hprefix.
  destruct (embed_text_ok t1 w1 Hb1) as (s1 & Hs1 & ->).
  destruct (embed_text_ok t2 w2 Hb2) as (s2 & Hs2 & ->).
  rewrite Hprefix, Hs2 in Hs1. injection Hs1 as <-.
  exists (Embeddings.vector_of_seed s2). split; reflexivity.
Qed.

End Facts.

End EmbeddingFacts.

Import Reference.

Lemma embed_text_deterministic_witness :
  Py.blank "abc" = false
  /\ exists v,
       fst (Embeddings.embed_text "abc" empty_world) = Py.Ok v
       /\ fst (Embeddings.embed_text "abc" (snd (Embeddings.embed_text "abc" empty_world)))
          = Py.Ok v
       /\ fst (Embeddings.embed_text "abc" empty_world) = Py.Ok v.
Proof.
  split; [reflexivity|].
  apply (EmbeddingFacts.embed_text_deterministic "abc" empty_world empty_world).
  reflexivity.
Defined.

Lemma embed_text_digest_prefix_witness :
  "chunk 21555" <> "chunk 26539"
  /\ Py.prefix 8 (Hashlib.hexdigest (Py.encode "chunk 21555")) = "9edcbe25"
  /\ Py.prefix 8 (Hashlib.hexdigest (Py.encode "chunk 26539")) = "9edcbe25"
  /\ exists v,
       fst (Embeddings.embed_text "chunk 21555" empty_world) = Py.Ok v
       /\ fst (Embeddings.embed_text "chunk 26539" empty_world) = Py.Ok v.
Proof.
  split; [discriminate|].
  split; [vm_compute; reflexivity|].
  split; [vm_compute; reflexivity|].
  apply (EmbeddingFacts.embed_text_digest_prefix
           "chunk 21555" "chunk 26539" empty_world empty_world);
    vm_compute; reflexivity.
Defined.

(** ** Retrieval *)

Module RagFacts.
Import Runtime.

Section Facts.
Context {float64 RandomState : Type} `{!Np.Numpy float64 RandomState}
        `{Embeddings.Text_splitter} `{!Atlas.Search_index float64}.
#[local] Abbreviation M := (Runtime.M float64 RandomState).
#[local] Abbreviation world := (Runtime.world float64 RandomState).

(** Assembling the filter never raises and writes to the log only. *)
Lemma build_match_filters_run (equipment_id tenant_id : option string)
  (extra_filters : option (gmap string Bson.cond)) (w : world) :
  exists f l, Rag.build_match_filters equipment_id tenant_id extra_filters w
              = (Py.Ok f, set_log l w).
Proof.
  destruct w.
  unfold Rag.build_match_filters, Rag.add_equipment_filter, Rag.add_tenant_filter,
    Rag.add_extra_filters.
  destruct equipment_id as [id|]; [destruct (Py.truthy id); [destruct (Bson.ObjectId id)|]|];
    (destruct tenant_id as [t|]; [destruct (Py.truthy t)|]);
    (destruct extra_filters as [x|]; [destruct (bool_decide (x = ∅))|]);
    run; eexists _, _; reflexivity.
Qed.


(** The shaping loop appends one entry per result to both lists. *)
Lemma shape_run (results : list (Bson.document float64))
  (chunk_data : list (ChunkContent.t float64))
  (chunk_meta : list (ChunkMetadata.t float64)) (w : world) :
  exists l, Rag.shape results chunk_data chunk_meta w
            = (Py.Ok (chunk_data ++ map Rag.chunk_content results,
                      chunk_meta ++ map Rag.chunk_metadata results), set_log l w).
Proof.
  revert chunk_data chunk_meta w.
  induction results as [|res rest IH]; intros chunk_data chunk_meta w.
  - destruct w. cbn [Rag.shape map]. rewrite !app_nil_r. eexists. reflexivity.
  - cbn [Rag.shape map]. run.
    match goal with
    | |- context [Rag.shape rest ?cd ?cm ?w0] => destruct (IH cd cm w0) as (l & ->)
    end.
    rewrite <- !app_assoc. eexists. reflexivity.
Qed.

(** What a call of [retrieve] does, by cases on its input. *)
Lemma retrieve_cases (index query : string) (k : Z)
  (equipment_id tenant_id : option string)
  (extra_filters : option (gmap string Bson.cond)) (w : world) :
  let run := Rag.retrieve index query k equipment_id tenant_id extra_filters w in
  (Py.blank query = true
   /\ fst run = Py.Raise (Py.ValueError "Cannot embed empty text")
   /\ aggregations (snd run) = aggregations w)
  \/ (Py.blank query = false /\ k < 0
      /\ fst run = Py.Raise (Py.ValueError "length must be non-negative")
      /\ aggregations (snd run) = aggregations w)
  \/ (Py.blank query = false /\ 0 <= k
      /\ exists seed f (w0 : world) l0,
           Py.int16 (Py.prefix 8 (Hashlib.hexdigest (Py.encode query))) = Py.Ok seed
           /\ Rag.build_match_filters equipment_id tenant_id extra_filters w0
              = (Py.Ok f, set_log l0 w0)
           /\ let pipeline :=
                [ Atlas.Search index (Embeddings.vector_of_seed seed) "embedding"
                               (Z.max (k * 20) 100);
                  Atlas.Match f;
                  Atlas.Project Rag.projected_fields "score";
                  Atlas.Limit k ] in
              aggregations (snd run) = aggregations w ++ [pipeline]
              /\ match Atlas.aggregate (document_chunks w) pipeline with
                 | Py.Ok found =>
                   let results := firstn (Z.to_nat k) found in
                   fst run
                   = Py.Ok (RetrievalResult.Make
                              (map Rag.chunk_content results)
                              (RetrievalMetadata.Make query k (Z.of_nat (length results))
                                 equipment_id tenant_id
                                 (map Rag.chunk_metadata results)))
                 | Py.Raise e => fst run = Py.Raise e
                 end).
Proof.
  intros run. subst run.
  destruct (Py.blank query) eqn:Hblank.
  - left. split; [reflexivity|].
    unfold Rag.retrieve. run.
    rewrite EmbeddingFacts.embed_text_blank by exact Hblank. run.
    split; reflexivity.
  - right.
    unfold Rag.retrieve. run.
    match goal with
    | |- context [Embeddings.embed_text query ?w0] =>
      destruct (EmbeddingFacts.embed_text_ok query w0 Hblank) as (seed & Hseed & Hembed)
    end.
    rewrite Hembed. run.
    match goal with
    | |- context [Rag.build_match_filters ?e ?t ?x ?w0] =>
      destruct (build_match_filters_run e t x w0) as (f & l0 & Hbuild)
    end.
    rewrite Hbuild. run.
    unfold Rag.aggregate_to_list.
    destruct (k <? 0) eqn:Hk.
    + left. apply Z.ltb_lt in Hk. run.
      split; [reflexivity|]. split; [exact Hk|]. split; reflexivity.
    + right. apply Z.ltb_ge in Hk. split; [reflexivity|]. split; [exact Hk|].
      eexists seed, f, _, l0. split; [exact Hseed|]. split; [exact Hbuild|].
      run.
      match goal with
      | |- context [Atlas.aggregate ?c ?p] => destruct (Atlas.aggregate c p) as [found|e]
      end; run.
      * match goal with
        | |- context [Rag.shape ?r ?cd ?cm ?w0] =>
          destruct (shape_run r cd cm w0) as (l & ->)
        end.
        run. cbn [app length]. rewrite length_map.
        split; reflexivity.
      * split; reflexivity.
Qed.

(** With a positive [k] the stages after the search cannot fail. *)
Lemma aggregate_positive_limit (coll : list (Bson.document float64)) (index path : string)
  (vector : list float64) (pool k : Z) (f : gmap string Bson.cond)
  (fields : list string) (score_field : string) :
  0 < k ->
  match Atlas.knn_beta index vector path pool coll with
  | Py.Ok _ =>
    exists found,
      Atlas.aggregate coll [Atlas.Search index vector path pool; Atlas.Match f;
                            Atlas.Project fields score_field; Atlas.Limit k]
      = Py.Ok found
  | Py.Raise e =>
    Atlas.aggregate coll [Atlas.Search index vector path pool; Atlas.Match f;
                          Atlas.Project fields score_field; Atlas.Limit k]
    = Py.Raise e
  end.
Proof.
  intros Hk. unfold Atlas.aggregate.
  destruct (Atlas.knn_beta index vector path pool coll) as [found|e]; [|reflexivity].
  cbn [Atlas.run_stages Atlas.run_stage].
  replace (0 <? k) with true by (symmetry; apply Z.ltb_lt; exact Hk).
  eexists. reflexivity.
Qed.

(** C1, as amended. For every query that is neither empty nor whitespace
    only and every positive [k], [retrieve] hands exactly one pipeline to the
    collection, whose nearest-neighbour search asks for [max(k * 20, 100)]
    candidates; when the search answers, [retrieve] returns a result, and it
    holds at most [k] entries, as many as it has metadata entries; it raises
    only the exception the search raised. *)
Theorem retrieve_overfetch_at_most_k (index query : string) (k : Z)
  (equipment_id tenant_id : option string)
  (extra_filters : option (gmap string Bson.cond)) (w : world) :
  Py.blank query = false ->
  0 < k ->
  let run := Rag.retrieve index query k equipment_id tenant_id extra_filters w in
  exists vector f,
    aggregations (snd run)
    = aggregations w
      ++ [[ Atlas.Search index vector "embedding" (Z.max (k * 20) 100);
            Atlas.Match f;
            Atlas.Project Rag.projected_fields "score";
            Atlas.Limit k ]]
    /\ match Atlas.knn_beta index vector "embedding" (Z.max (k * 20) 100)
                            (document_chunks w) with
       | Py.Ok _ =>
         exists r,
           fst run = Py.Ok r
           /\ Z.of_nat (length (RetrievalResult.data r)) <= k
           /\ length (RetrievalMetadata.chunks (RetrievalResult.metadata r))
              = length (RetrievalResult.data r)
           /\ RetrievalMetadata.chunks_retrieved (RetrievalResult.metadata r)
              = Z.of_nat (length (RetrievalResult.data r))
       | Py.Raise e => fst run = Py.Raise e
       end.
Proof.
  intros Hblank Hk run.
  destruct (retrieve_cases index query k equipment_id tenant_id extra_filters w)
    as [(Hb & _) | [(_ & Hneg & _) | (_ & _ & seed & f & w0 & l0 & _ & _ & Hissued & Hout)]];
    [congruence | lia |].
  fold run in Hissued, Hout.
  exists (Embeddings.vector_of_seed seed), f. split; [exact Hissued|].
  pose proof (aggregate_positive_limit (document_chunks w) index "embedding"
                (Embeddings.vector_of_seed seed) (Z.max (k * 20) 100) k f
                Rag.projected_fields "score" Hk) as Hagg.
  destruct (Atlas.knn_beta index (Embeddings.vector_of_seed seed) "embedding"
              (Z.max (k * 20) 100) (document_chunks w)) as [cands|e].
  - destruct Hagg as (found & Hagg). rewrite Hagg in Hout. cbv zeta in Hout.
    eexists. split; [exact Hout|].
    cbn [RetrievalResult.data RetrievalResult.metadata RetrievalMetadata.chunks
         RetrievalMetadata.chunks_retrieved].
    rewrite !length_map. split; [|split; reflexivity].
    pose proof (firstn_le_length (Z.to_nat k) found) as Hle.
    rewrite length_firstn. lia.
  - rewrite Hagg in Hout. exact Hout.
Qed.

(** An entry of the filter holds on every document the filter matches. *)
Lemma matches_entry (f : gmap string Bson.cond) (d : Bson.document float64)
  (key : string) (c : Bson.cond) :
  Bson.matches f d = true -> f !! key = Some c -> Bson.holds c (d !! key) = true.
Proof.
  unfold Bson.matches. intros Hall Hkey.
  rewrite forallb_forall in Hall.
  apply (Hall (key, c)). apply list_elem_of_In, elem_of_map_to_list. exact Hkey.
Qed.

Lemma not_disabled_holds (field : option (Bson.value float64)) :
  Bson.holds (Bson.Ne (Bson.Bool true)) field = true ->
  field <> Some (Bson.Scalar (Bson.Bool true)).
Proof. intros Hholds ->. discriminate Hholds. Qed.

(** The entries of the assembled filter: the caller's entries as given, and
    the built-in exclusion unless the caller has an entry under its key. *)
Lemma build_match_filters_entries (equipment_id tenant_id : option string)
  (extra_filters : option (gmap string Bson.cond)) (w w' : world)
  (f : gmap string Bson.cond) :
  Rag.build_match_filters equipment_id tenant_id extra_filters w = (Py.Ok f, w') ->
  (forall x key c, extra_filters = Some x -> x !! key = Some c -> f !! key = Some c)
  /\ ((forall x, extra_filters = Some x -> x !! "is_disabled" = None) ->
      f !! "is_disabled" = Some (Bson.Ne (Bson.Bool true))).
Proof.
  unfold Rag.build_match_filters, Rag.add_equipment_filter, Rag.add_tenant_filter,
    Rag.add_extra_filters, Rag.not_disabled.
  destruct equipment_id as [id|]; [destruct (Py.truthy id); [destruct (Bson.ObjectId id)|]|];
    (destruct tenant_id as [t|]; [destruct (Py.truthy t)|]);
    (destruct extra_filters as [x|]; [destruct (bool_decide (x = ∅)) eqn:Hempty|]);
    run; intros [= <- _]; split;
    try (intros x' key c [= <-] Hx);
    try (intros x' key c [=]);
    try (apply bool_decide_eq_true in Hempty; subst x; rewrite lookup_empty in Hx;
         discriminate Hx);
    try (apply lookup_union_Some_l; exact Hx);
    try (intros Hfree; try rewrite lookup_union_r by (apply Hfree; reflexivity);
         simplify_map_eq; reflexivity).
Qed.

(** C2, as amended. For every call of [retrieve] whose [extra_filters] has no
    entry under ["is_disabled"], every pipeline the call hands to the
    collection has a [$match] filter that keeps the built-in exclusion, so
    that no document it matches has [is_disabled = true]; and the filter
    carries each entry of [extra_filters] as the caller gave it, in place of
    any entry [retrieve] had put under the same key. *)
Theorem retrieve_keeps_disabled_exclusion (index query : string) (k : Z)
  (equipment_id tenant_id : option string)
  (extra_filters : option (gmap string Bson.cond)) (w : world) :
  (forall x, extra_filters = Some x -> x !! "is_disabled" = None) ->
  let run := Rag.retrieve index query k equipment_id tenant_id extra_filters w in
  exists issued,
    aggregations (snd run) = aggregations w ++ issued
    /\ forall pipeline, In pipeline issued ->
       exists search f rest,
         pipeline = search :: Atlas.Match f :: rest
         /\ f !! "is_disabled" = Some (Bson.Ne (Bson.Bool true))
         /\ (forall d : Bson.document float64, Bson.matches f d = true ->
                       d !! "is_disabled" <> Some (Bson.Scalar (Bson.Bool true)))
         /\ (forall x key c, extra_filters = Some x -> x !! key = Some c ->
                            f !! key = Some c).
Proof.
  intros Hfree run.
  destruct (retrieve_cases index query k equipment_id tenant_id extra_filters w)
    as [(_ & _ & Hsame) | [(_ & _ & _ & Hsame)
        | (_ & _ & seed & f & w0 & l0 & _ & Hbuild & Hissued & _)]];
    fold run in Hsame || fold run in Hissued.
  - exists []. rewrite app_nil_r. split; [exact Hsame | intros p []].
  - exists []. rewrite app_nil_r. split; [exact Hsame | intros p []].
  - eexists. split; [exact Hissued|].
    intros p [<- | []].
    destruct (build_match_filters_entries _ _ _ _ _ _ Hbuild) as [Hextra Hkeep].
    eexists _, f, _. split; [reflexivity|]. split; [exact (Hkeep Hfree)|].
    split; [|exact Hextra].
    intros d Hd. apply not_disabled_holds.
    exact (matches_entry f d "is_disabled" _ Hd (Hkeep Hfree)).
Qed.

End Facts.
End RagFacts.



(** C1, counterexample. On the empty query and [k = 5], [retrieve] raises
    from the embedding step: no pipeline reaches the collection and no
    result is returned. *)
Lemma retrieve_empty_query_issues_no_search :
  let run := Rag.retrieve "vector_index" "" 5 None None None empty_world in
  fst run = Py.Raise (Py.ValueError "Cannot embed empty text")
  /\ Runtime.aggregations (snd run) = [].
Proof. split; reflexivity. Qed.

Lemma retrieve_overfetch_at_most_k_witness :
  Py.blank "pump pressure" = false
  /\ 0 < 5
  /\ let run := Rag.retrieve "vector_index" "pump pressure" 5 None None None empty_world in
     exists vector f,
       Runtime.aggregations (snd run)
       = Runtime.aggregations empty_world
         ++ [[ Atlas.Search "vector_index" vector "embedding" (Z.max (5 * 20) 100);
               Atlas.Match f;
               Atlas.Project Rag.projected_fields "score";
               Atlas.Limit 5 ]]
       /\ match Atlas.knn_beta "vector_index" vector "embedding" (Z.max (5 * 20) 100)
                               (Runtime.document_chunks empty_world) with
          | Py.Ok _ =>
            exists r,
              fst run = Py.Ok r
              /\ Z.of_nat (length (RetrievalResult.data r)) <= 5
              /\ length (RetrievalMetadata.chunks (RetrievalResult.metadata r))
                 = length (RetrievalResult.data r)
              /\ RetrievalMetadata.chunks_retrieved (RetrievalResult.metadata r)
                 = Z.of_nat (length (RetrievalResult.data r))
          | Py.Raise e => fst run = Py.Raise e
          end.
Proof.
  split; [reflexivity|]. split; [lia|].
  apply (RagFacts.retrieve_overfetch_at_most_k
           "vector_index" "pump pressure" 5 None None None empty_world);
    [reflexivity | lia].
Defined.

(** C2, counterexample. With [extra_filters = {"is_disabled": True}] the
    [$match] filter handed to the collection is that entry alone: the
    disabled chunk matches it, and [retrieve] returns its text. *)
Lemma extra_filter_replaces_disabled_exclusion :
  let extra : gmap string Bson.cond := {[ "is_disabled" := Bson.Eq (Bson.Bool true) ]} in
  let run := Rag.retrieve "vector_index" "relief valve" 5 None None (Some extra)
                          world_with_disabled_chunk in
  (exists search rest,
     Runtime.aggregations (snd run) = [search :: Atlas.Match extra :: rest])
  /\ Bson.matches extra disabled_chunk = true
  /\ disabled_chunk !! "is_disabled" = Some (Bson.Scalar (Bson.Bool true))
  /\ exists r,
       fst run = Py.Ok r
       /\ map ChunkContent.text (RetrievalResult.data r)
          = [Bson.Scalar (Bson.Str "withdrawn procedure")].
Proof.
  vm_compute.
  split; [eexists _, _; reflexivity|].
  split; [reflexivity|]. split; [reflexivity|].
  eexists. split; reflexivity.
Qed.

Lemma retrieve_keeps_disabled_exclusion_witness :
  let extra : gmap string Bson.cond := {[ "tenant_id" := Bson.Eq (Bson.Str "acme") ]} in
  (forall x, Some extra = Some x -> x !! "is_disabled" = None)
  /\ let run := Rag.retrieve "vector_index" "relief valve" 5 None (Some "mvp_tenant")
                             (Some extra) world_with_disabled_chunk in
     exists issued,
       Runtime.aggregations (snd run)
       = Runtime.aggregations world_with_disabled_chunk ++ issued
       /\ forall pipeline, In pipeline issued ->
          exists search f rest,
            pipeline = search :: Atlas.Match f :: rest
            /\ f !! "is_disabled" = Some (Bson.Ne (Bson.Bool true))
            /\ (forall d : Bson.document Z, Bson.matches f d = true ->
                          d !! "is_disabled" <> Some (Bson.Scalar (Bson.Bool true)))
            /\ (forall x key c, Some extra = Some x -> x !! key = Some c ->
                               f !! key = Some c).
Proof.
  intros extra.
  assert (Hfree : forall x, Some extra = Some x -> x !! "is_disabled" = None).
  { intros x [= <-]. reflexivity. }
  split; [exact Hfree|].
  exact (RagFacts.retrieve_keeps_disabled_exclusion
           "vector_index" "relief valve" 5 None (Some "mvp_tenant") (Some extra)
           world_with_disabled_chunk Hfree).
Defined.

(** ** The conversational tool *)

Module BotFacts.
Import Runtime.

Section Facts.
Context {float64 RandomState : Type} `{!Np.Numpy float64 RandomState}
        `{Embeddings.Text_splitter} `{!Atlas.Search_index float64}.
#[local] Abbreviation world := (Runtime.world float64 RandomState).

(** [retrieve] leaves the conversation and the collections as they are. *)
Lemma retrieve_frame (index query : string) (k : Z)
  (equipment_id tenant_id : option string)
  (extra_filters : option (gmap string Bson.cond)) (w : world) :
  let run := Rag.retrieve index query k equipment_id tenant_id extra_filters w in
  delivered (snd run) = delivered w
  /\ frames (snd run) = frames w
  /\ push_failure (snd run) = push_failure w
  /\ document_chunks (snd run) = document_chunks w
  /\ documents_metadata (snd run) = documents_metadata w
  /\ equipment (snd run) = equipment w
  /\ callback_failure (snd run) = callback_failure w.
Proof.
  intros run. subst run. unfold Rag.retrieve. run.
  destruct (Py.blank query) eqn:Hblank.
  - rewrite EmbeddingFacts.embed_text_blank by exact Hblank. run.
    repeat split; reflexivity.
  - match goal with
    | |- context [Embeddings.embed_text query ?w0] =>
      destruct (EmbeddingFacts.embed_text_ok query w0 Hblank) as (seed & _ & ->)
    end.
    run.
    match goal with
    | |- context [Rag.build_match_filters ?e ?t ?x ?w0] =>
      destruct (RagFacts.build_match_filters_run e t x w0) as (f & l0 & ->)
    end.
    run. unfold Rag.aggregate_to_list.
    destruct (k <? 0); run; [repeat split; reflexivity|].
    match goal with
    | |- context [Atlas.aggregate ?c ?p] => destruct (Atlas.aggregate c p) as [found|e]
    end; run; [|repeat split; reflexivity].
    match goal with
    | |- context [Rag.shape ?r ?cd ?cm ?w0] =>
      destruct (RagFacts.shape_run r cd cm w0) as (l & ->)
    end.
    run. repeat split; reflexivity.
Qed.


End Facts.
End BotFacts.


(** ** Collections *)

Module BsonFacts.

Section Facts.
Context {float64 : Type}.
#[local] Abbreviation document := (Bson.document float64).

Lemma matches_singleton (key : string) (c : Bson.cond) (d : document) :
  Bson.matches {[ key := c ]} d = Bson.holds c (d !! key).
Proof.
  unfold Bson.matches. rewrite map_to_list_singleton. cbn. apply andb_true_r.
Qed.

Lemma equals_true (s : Bson.scalar) (field : option (Bson.value float64)) :
  Bson.equals s field = true ->
  field = Some (Bson.Scalar s) \/ (field = None /\ s = Bson.Null).
Proof.
  destruct field as [[s'| | |]|]; cbn; intros Heq; try discriminate Heq.
  - apply bool_decide_eq_true in Heq. subst s'. left. reflexivity.
  - apply bool_decide_eq_true in Heq. right. split; [reflexivity | exact Heq].
Qed.

Lemma equals_same (s : Bson.scalar) :
  Bson.equals s (Some (@Bson.Scalar float64 s)) = true.
Proof. cbn. apply bool_decide_eq_true. reflexivity. Qed.

Lemma id_of_le_max (d : document) (coll : list document) :
  In d coll -> Bson.id_of d <= fold_right Z.max 0 (map Bson.id_of coll).
Proof.
  induction coll as [|x rest IH]; intros Hin; [destruct Hin|].
  cbn [map fold_right]. destruct Hin as [-> | Hin]; [apply Z.le_max_l|].
  etransitivity; [exact (IH Hin) | apply Z.le_max_r].
Qed.

(** No stored document carries the identifier the driver picks next. *)
Lemma fresh_id_unmatched (d : document) (coll : list document) :
  In d coll -> Bson.matches {[ "_id" := Bson.Eq (Bson.Oid (Bson.fresh_id coll)) ]} d = false.
Proof.
  intros Hin. rewrite matches_singleton. cbn [Bson.holds].
  destruct (Bson.equals _ _) eqn:Heq; [|reflexivity].
  apply equals_true in Heq. destruct Heq as [Hid | [_ Hnull]]; [|discriminate Hnull].
  pose proof (id_of_le_max d coll Hin) as Hle.
  assert (Hd : Bson.id_of d = Bson.fresh_id coll)
    by (unfold Bson.id_of; rewrite Hid; reflexivity).
  rewrite Hd in Hle. unfold Bson.fresh_id in Hle. lia.
Qed.

(** An update by the identifier of the document inserted last changes that
    document and no other. *)
Lemma update_one_inserted (changes : list (string * Bson.value float64))
  (d : document) (coll : list document) :
  Bson.update_one {[ "_id" := Bson.Eq (Bson.Oid (Bson.fresh_id coll)) ]} changes
                  (coll ++ [<["_id" := Bson.Scalar (Bson.Oid (Bson.fresh_id coll))]> d])
  = coll ++ [fold_left (fun acc kv => <[fst kv := snd kv]> acc) changes
                       (<["_id" := Bson.Scalar (Bson.Oid (Bson.fresh_id coll))]> d)].
Proof.
  assert (Hothers : forall x, In x coll ->
            Bson.matches {[ "_id" := Bson.Eq (Bson.Oid (Bson.fresh_id coll)) ]} x = false)
    by (intros x Hx; apply fresh_id_unmatched; exact Hx).
  revert Hothers. generalize (Bson.fresh_id coll) as id. intros id Hothers.
  induction coll as [|x rest IH]; cbn [app Bson.update_one].
  - rewrite matches_singleton, lookup_insert_eq. cbn [Bson.holds].
    rewrite equals_same. reflexivity.
  - rewrite Hothers by (left; reflexivity). f_equal.
    apply IH. intros y Hy. apply Hothers. right. exact Hy.
Qed.

(** [insert_many] appends the documents, each with an identifier added. *)
Lemma insert_many_app (docs coll : list document) :
  exists new,
    Bson.insert_many docs coll = coll ++ new
    /\ Forall2 (fun d d' => exists id, d' = <["_id" := Bson.Scalar (Bson.Oid id)]> d) docs new.
Proof.
  unfold Bson.insert_many. revert coll.
  induction docs as [|d rest IH]; intros coll; cbn [fold_left].
  - exists []. rewrite app_nil_r. split; [reflexivity | constructor].
  - destruct (IH (coll ++ [<["_id" := Bson.Scalar (Bson.Oid (Bson.fresh_id coll))]> d]))
      as (new & Hnew & Hall).
    exists (<["_id" := Bson.Scalar (Bson.Oid (Bson.fresh_id coll))]> d :: new).
    split; [|constructor; [eexists; reflexivity | exact Hall]].
    etransitivity; [exact Hnew|]. rewrite <- app_assoc. reflexivity.
Qed.

Lemma lookup_inserted_ids (key : string) (docs new : list document) :
  key <> "_id" ->
  Forall2 (fun d d' => exists id, d' = <["_id" := Bson.Scalar (Bson.Oid id)]> d) docs new ->
  map (fun d : document => d !! key) new = map (fun d : document => d !! key) docs.
Proof.
  intros Hkey Hall. induction Hall as [|d d' docs new (id & ->) _ IH]; [reflexivity|].
  cbn [map]. rewrite IH. f_equal. apply lookup_insert_ne. congruence.
Qed.

Lemma in_find (f : gmap string Bson.cond) (d : document) (coll : list document) :
  In d (Bson.find f coll) <-> In d coll /\ Bson.matches f d = true.
Proof. unfold Bson.find. apply filter_In. Qed.

Lemma in_insert_desc (field : string) (x d : document) (sorted : list document) :
  In x (Bson.insert_desc field d sorted) <-> x = d \/ In x sorted.
Proof.
  induction sorted as [|y rest IH]; cbn [Bson.insert_desc].
  - cbn. intuition.
  - destruct (Bson.sort_key field y <=? Bson.sort_key field d); cbn [In].
    + intuition.
    + rewrite IH. intuition.
Qed.

Lemma in_sort_desc (field : string) (x : document) (docs : list document) :
  In x (Bson.sort_desc field docs) <-> In x docs.
Proof.
  unfold Bson.sort_desc. induction docs as [|d rest IH]; cbn [fold_right]; [reflexivity|].
  rewrite in_insert_desc, IH. cbn. intuition.
Qed.

End Facts.
End BsonFacts.

(** ** Ingestion *)

Module EquipmentFacts.
Import Runtime.

Section Facts.
Context {float64 RandomState : Type} `{!Np.Numpy float64 RandomState}
        `{Embeddings.Text_splitter} `{Equipment.Text_extraction}.
#[local] Abbreviation world := (Runtime.world float64 RandomState).
#[local] Abbreviation document := (Bson.document float64).

Lemma new_chunk_doc_fields (document_id equipment_oid : Z) (tenant_id : Bson.value float64)
  (original_name chunk_id : string) (index : Z) (chunk_text : string)
  (v : list float64) :
  let d := Equipment.new_chunk_doc document_id equipment_oid tenant_id original_name
                                   chunk_id index chunk_text v in
  Equipment.index_and_text d
  = (Some (Bson.Scalar (Bson.Int index)), Some (Equipment.str chunk_text))
  /\ d !! "document_id" = Some (Bson.Scalar (Bson.Oid document_id)).
Proof. split; reflexivity. Qed.

(** The loop over the chunks keeps exactly the chunks of [surviving], under
    the indices [surviving] gives them, and touches no collection. *)
Lemma embed_chunks_run (document_id equipment_oid : Z) (tenant_id : Bson.value float64)
  (original_name : string) (total index : Z) (chunks : list string)
  (chunk_documents : list document) (w : world) :
  exists new st n l,
    Equipment.embed_chunks document_id equipment_oid tenant_id original_name total index
                           chunks chunk_documents w
    = (Py.Ok (chunk_documents ++ new),
       set_log l (set_np_random st (set_uuids_drawn n w)))
    /\ map Equipment.index_and_text new
       = map (fun it => (Some (Bson.Scalar (Bson.Int (fst it))), Some (Equipment.str (snd it))))
             (Equipment.surviving index chunks)
    /\ Forall (fun d : document => d !! "document_id" = Some (Bson.Scalar (Bson.Oid document_id)))
              new.
Proof.
  revert index chunk_documents w.
  induction chunks as [|chunk_text rest IH]; intros index chunk_documents w.
  - destruct w as [rng ? ? ? ? ? ? drawn lg ? ? ? ? ?].
    exists [], rng, drawn, lg. rewrite app_nil_r.
    split; [reflexivity|]. split; [reflexivity | constructor].
  - cbn [Equipment.embed_chunks Equipment.surviving]. run.
    destruct (Py.blank chunk_text) eqn:Hblank.
    + rewrite EmbeddingFacts.embed_text_blank by exact Hblank. run.
      match goal with
      | |- context [Equipment.embed_chunks _ _ _ _ _ _ rest ?acc ?w0] =>
        destruct (IH (index + 1) acc w0) as (new & st & n & l & Hrun & Hnew & Hdoc)
      end.
      exists new, st, n, l. split; [rewrite Hrun; reflexivity|].
      split; [exact Hnew | exact Hdoc].
    + destruct (EmbeddingFacts.embed_text_ok chunk_text w Hblank) as (seed & _ & ->).
      run.
      match goal with
      | |- context [Equipment.new_chunk_doc ?a ?b ?c ?d ?e ?f ?g ?h] =>
        set (chunk_doc := Equipment.new_chunk_doc a b c d e f g h)
      end.
      destruct (((index + 1) mod 10 =? 0) || (index =? total - 1)); run;
        match goal with
        | |- context [Equipment.embed_chunks _ _ _ _ _ _ rest ?acc ?w0] =>
          destruct (IH (index + 1) acc w0) as (new & st & n & l & Hrun & Hnew & Hdoc)
        end;
        (exists (chunk_doc :: new), st, n, l;
         split; [rewrite Hrun, <- app_assoc; reflexivity|];
         split; [cbn [map app]; rewrite Hnew; reflexivity
                | constructor; [reflexivity | exact Hdoc]]).
Qed.

Lemma index_and_text_inserted (docs new : list document) :
  Forall2 (fun d d' => exists id, d' = <["_id" := Bson.Scalar (Bson.Oid id)]> d) docs new ->
  map Equipment.index_and_text new = map Equipment.index_and_text docs.
Proof.
  intros Hall. induction Hall as [|d d' docs new (id & ->) _ IH]; [reflexivity|].
  cbn [map]. rewrite IH. f_equal. unfold Equipment.index_and_text.
  rewrite !lookup_insert_ne by discriminate. reflexivity.
Qed.

Lemma document_id_inserted (document_id : Z) (docs new : list document) :
  Forall2 (fun d d' => exists id, d' = <["_id" := Bson.Scalar (Bson.Oid id)]> d) docs new ->
  Forall (fun d : document => d !! "document_id" = Some (Bson.Scalar (Bson.Oid document_id)))
         docs ->
  Forall (fun d : document => d !! "document_id" = Some (Bson.Scalar (Bson.Oid document_id)))
         new.
Proof.
  intros Hall. induction Hall as [|d d' docs new (id & ->) _ IH]; intros Hdocs;
    [constructor|].
  inversion Hdocs as [|? ? Hd Hrest]; subst. constructor; [|exact (IH Hrest)].
  rewrite lookup_insert_ne by discriminate. exact Hd.
Qed.

Lemma surviving_nil_iff_new_nil (new : list document) (kept : list (Z * string)) :
  map Equipment.index_and_text new
  = map (fun it => (Some (Bson.Scalar (Bson.Int (fst it))), Some (Equipment.str (snd it)))) kept ->
  (new = [] <-> kept = []).
Proof.
  intros Hmap. apply (f_equal (@length _)) in Hmap. rewrite !length_map in Hmap.
  destruct new, kept; cbn in Hmap; try discriminate Hmap; split; congruence.
Qed.

(** What [process_file] does with a file that passes the checks made before
    the document is inserted: one document is inserted; when no chunk
    survives it is marked failed, nothing else is stored and the function
    raises; otherwise the surviving chunks are stored, the document is
    marked completed, and the descriptor returned is the dictionary as it
    was inserted, with its identifier and dates as strings. *)
Lemma process_file_run (equipment_id : string) (equipment_oid : Z)
  (tenant_id : Bson.value float64) (description : option string)
  (file : Equipment.UploadFile) (text : string) (w : world) :
  let original_name := Py.or_default (Equipment.filename file) "upload.bin" in
  let content_type :=
    Py.or_default (Equipment.content_type file) "application/octet-stream" in
  Equipment.is_supported content_type original_name = true ->
  Equipment.extract_text (Equipment.content file) original_name content_type = Py.Ok text ->
  Py.blank text = false ->
  Embeddings.split_text text <> [] ->
  let run := Equipment.process_file equipment_id equipment_oid tenant_id description file w in
  let id := Bson.fresh_id (documents_metadata w) in
  exists stored,
    documents_metadata (snd run) = documents_metadata w ++ [stored]
    /\ stored !! "_id" = Some (Bson.Scalar (Bson.Oid id))
    /\ equipment (snd run) = equipment w
    /\ match Equipment.surviving 0 (Embeddings.split_text text) with
       | [] =>
         fst run = Py.Raise (Py.Exception
                     "EMBEDDING_FAILED: Failed to generate embeddings for all chunks")
         /\ stored !! "embedding_status" = Some (Equipment.str "failed")
         /\ stored !! "embedding_error"
            = Some (Bson.Sub [("message",
                               Bson.Str "Failed to generate embeddings for all chunks")])
         /\ document_chunks (snd run) = document_chunks w
       | kept =>
         (exists descriptor,
            fst run = Py.Ok (Some descriptor)
            /\ descriptor !! "_id" = Some (Equipment.str (Bson.oid_str id))
            /\ descriptor !! "embedding_status" = Some (Equipment.str "processing"))
         /\ stored !! "embedding_status" = Some (Equipment.str "completed")
         /\ exists new,
              document_chunks (snd run) = document_chunks w ++ new
              /\ map Equipment.index_and_text new
                 = map (fun it => (Some (Bson.Scalar (Bson.Int (fst it))),
                                   Some (Equipment.str (snd it)))) kept
              /\ Forall (fun d : document =>
                           d !! "document_id" = Some (Bson.Scalar (Bson.Oid id))) new
       end.
Proof.
  intros original_name content_type Hsupported Hextract Hblank Hchunks run id.
  subst run. unfold Equipment.process_file.
  fold original_name content_type. rewrite Hsupported, Hextract, Hblank.
  destruct (Embeddings.split_text text) as [|c cs] eqn:Hsplit; [congruence|].
  cbn [negb Py.nonempty]. run. unfold Bson.insert_one. cbv beta iota zeta. run.
  match goal with
  | |- context [Equipment.embed_chunks ?a ?b ?t ?n ?tot ?i ?cks ?acc ?w0] =>
    destruct (embed_chunks_run a b t n tot i cks acc w0)
      as (new & st & n' & l & Hrun & Hnew & Hdoc)
  end.
  rewrite Hrun. cbn [app]. run.
  pose proof (surviving_nil_iff_new_nil new _ Hnew) as Hiff.
  destruct (Equipment.surviving 0 (c :: cs)) as [|k kept] eqn:Hkept.
  - assert (Hnil : new = []) by (apply Hiff; reflexivity). subst new.
    cbn [Py.nonempty negb]. run.
    unfold Equipment.by_id. rewrite BsonFacts.update_one_inserted.
    eexists. split; [reflexivity|].
    repeat split; reflexivity.
  - destruct new as [|d0 new0]; [destruct Hiff as [Hiff _]; discriminate (Hiff eq_refl)|].
    cbn [Py.nonempty negb]. run.
    unfold Equipment.by_id. rewrite BsonFacts.update_one_inserted.
    destruct (BsonFacts.insert_many_app (d0 :: new0) (document_chunks w))
      as (inserted & -> & Hids).
    eexists. split; [reflexivity|].
    split; [reflexivity|]. split; [reflexivity|].
    split; [eexists; split; [reflexivity|]; split; reflexivity|].
    split; [reflexivity|].
    exists inserted. split; [reflexivity|]. split.
    + rewrite (index_and_text_inserted _ _ Hids). exact Hnew.
    + exact (document_id_inserted _ _ _ Hids Hdoc).
Qed.

(** [embed_text] raises on the blank texts and on no other. *)
Lemma embed_text_fails_iff_blank (text : string) (w : world) :
  Py.is_ok (fst (Embeddings.embed_text text w)) = false <-> Py.blank text = true.
Proof.
  destruct (Py.blank text) eqn:Hblank.
  - rewrite EmbeddingFacts.embed_text_blank by exact Hblank. split; reflexivity.
  - destruct (EmbeddingFacts.embed_text_ok text w Hblank) as (seed & _ & ->).
    split; discriminate.
Qed.

Lemma surviving_none (index : Z) (chunks : list string) :
  (forall c, In c chunks -> Py.blank c = true) -> Equipment.surviving index chunks = [].
Proof.
  revert index. induction chunks as [|c rest IH]; intros index Hall; [reflexivity|].
  cbn [Equipment.surviving]. rewrite (Hall c) by (left; reflexivity).
  apply IH. intros c' Hc'. apply Hall. right. exact Hc'.
Qed.

(** The members of [surviving]: the chunks that are not blank, each with its
    position counted from [index]. *)
Lemma in_surviving (index : Z) (chunks : list string) (i : Z) (c : string) :
  In (i, c) (Equipment.surviving index chunks)
  <-> index <= i /\ chunks !! Z.to_nat (i - index) = Some c /\ Py.blank c = false.
Proof.
  revert index. induction chunks as [|c0 rest IH]; intros index.
  - cbn. split; [intros [] | intros (_ & Hnone & _); discriminate Hnone].
  - cbn [Equipment.surviving]. rewrite in_app_iff, IH. split.
    + intros [Hhead | (Hle & Hlookup & Hblank)].
      * destruct (Py.blank c0) eqn:Hb; [destruct Hhead|].
        destruct Hhead as [[= <- <-] | []].
        rewrite Z.sub_diag. split; [lia|]. split; [reflexivity | exact Hb].
      * split; [lia|]. split; [|exact Hblank].
        replace (Z.to_nat (i - index)) with (S (Z.to_nat (i - (index + 1)))) by lia.
        exact Hlookup.
    + intros (Hle & Hlookup & Hblank).
      destruct (Z.eq_dec i index) as [-> | Hne].
      * left. rewrite Z.sub_diag in Hlookup. cbn in Hlookup. injection Hlookup as ->.
        rewrite Hblank. left. reflexivity.
      * right. split; [lia|]. split; [|exact Hblank].
        replace (Z.to_nat (i - index)) with (S (Z.to_nat (i - (index + 1)))) in Hlookup
          by lia.
        exact Hlookup.
Qed.

(** The indices of [surviving] increase strictly. *)
Lemma surviving_increasing (index : Z) (chunks : list string) :
  StronglySorted Z.lt (map fst (Equipment.surviving index chunks))
  /\ Forall (fun i => index <= i) (map fst (Equipment.surviving index chunks)).
Proof.
  revert index. induction chunks as [|c rest IH]; intros index.
  - split; constructor.
  - cbn [Equipment.surviving]. destruct (IH (index + 1)) as [Hsorted Hlower].
    assert (Hlower' : Forall (fun i => index <= i)
                             (map fst (Equipment.surviving (index + 1) rest))).
    { eapply Forall_impl; [exact Hlower|]. cbn. intros i Hi. lia. }
    destruct (Py.blank c); cbn [app map fst]; [split; assumption|].
    split.
    + constructor; [exact Hsorted|].
      eapply Forall_impl; [exact Hlower|]. cbn. intros i Hi. lia.
    + constructor; [lia | exact Hlower'].
Qed.

(** When no chunk is blank the indices are those of all the chunks. *)
Lemma surviving_all (index : Z) (chunks : list string) :
  (forall c, In c chunks -> Py.blank c = false) ->
  map fst (Equipment.surviving index chunks)
  = map (fun n => index + Z.of_nat n) (seq 0 (length chunks)).
Proof.
  revert index. induction chunks as [|c rest IH]; intros index Hall; [reflexivity|].
  cbn [Equipment.surviving length seq map]. rewrite (Hall c) by (left; reflexivity).
  cbn [app map fst]. f_equal; [lia|].
  rewrite IH by (intros c' Hc'; apply Hall; right; exact Hc').
  rewrite <- seq_shift, map_map. apply map_ext. intros n. lia.
Qed.

Lemma surviving_some (chunks : list string) :
  (exists c, In c chunks /\ Py.blank c = false) -> Equipment.surviving 0 chunks <> [].
Proof.
  intros (c & Hin & Hblank) Hnil.
  apply list_elem_of_In, list_elem_of_lookup in Hin. destruct Hin as (n & Hn).
  assert (Hmember : In (Z.of_nat n, c) (Equipment.surviving 0 chunks)).
  { apply in_surviving. split; [lia|]. split; [|exact Hblank].
    rewrite Z.sub_0_r, Nat2Z.id. exact Hn. }
  rewrite Hnil in Hmember. destruct Hmember.
Qed.

(** C4, on the code. For every file that is ingested with at least one chunk
    embedded, the document entry the handler puts in its response is the
    dictionary as it was inserted: its embedding status reads ["processing"],
    while the document stored under the same identifier reads ["completed"]
    by the time the entry is returned. *)
Theorem upload_entry_status_is_stale (equipment_id : string) (equipment_oid : Z)
  (tenant_id : Bson.value float64) (description : option string)
  (file : Equipment.UploadFile) (text : string) (w : world) :
  let original_name := Py.or_default (Equipment.filename file) "upload.bin" in
  let content_type :=
    Py.or_default (Equipment.content_type file) "application/octet-stream" in
  Equipment.is_supported content_type original_name = true ->
  Equipment.extract_text (Equipment.content file) original_name content_type = Py.Ok text ->
  Py.blank text = false ->
  (exists c, In c (Embeddings.split_text text) /\ Py.blank c = false) ->
  let run := Equipment.process_file equipment_id equipment_oid tenant_id description file w in
  let id := Bson.fresh_id (documents_metadata w) in
  exists entry stored,
    fst run = Py.Ok (Some entry)
    /\ entry !! "_id" = Some (Equipment.str (Bson.oid_str id))
    /\ entry !! "embedding_status" = Some (Equipment.str "processing")
    /\ documents_metadata (snd run) = documents_metadata w ++ [stored]
    /\ stored !! "_id" = Some (Bson.Scalar (Bson.Oid id))
    /\ stored !! "embedding_status" = Some (Equipment.str "completed").
Proof.
  intros original_name content_type Hsupported Hextract Hblank Hsome run id.
  assert (Hchunks : Embeddings.split_text text <> []).
  { destruct Hsome as (c & Hin & _). intros Hnil. rewrite Hnil in Hin. destruct Hin. }
  destruct (process_file_run equipment_id equipment_oid tenant_id description file text w
              Hsupported Hextract Hblank Hchunks)
    as (stored & Hstored & Hid & _ & Hcases).
  fold run id in Hstored, Hid, Hcases.
  pose proof (surviving_some _ Hsome) as Hkept.
  destruct (Equipment.surviving 0 (Embeddings.split_text text)) as [|k kept];
    [congruence|].
  destruct Hcases as ((entry & Hrun & Hentry_id & Hentry_status) & Hcompleted & _).
  exists entry, stored. repeat split; assumption.
Qed.




(** C6. For every file that passes the checks made before insertion and
    whose chunks all fail to embed, the handler's loop goes on with the
    documents created so far unchanged; exactly one document record has been
    added, in status ["failed"] with an error detail; and the chunk
    collection is as it was. *)
Theorem all_chunks_failing_leaves_failed_document (equipment_id : string)
  (equipment_oid : Z) (tenant_id : Bson.value float64) (description : option string)
  (file : Equipment.UploadFile) (text : string) (created_docs : list document)
  (w : world) :
  let original_name := Py.or_default (Equipment.filename file) "upload.bin" in
  let content_type :=
    Py.or_default (Equipment.content_type file) "application/octet-stream" in
  Equipment.is_supported content_type original_name = true ->
  Equipment.extract_text (Equipment.content file) original_name content_type = Py.Ok text ->
  Py.blank text = false ->
  Embeddings.split_text text <> [] ->
  (forall c, In c (Embeddings.split_text text) ->
             Py.is_ok (fst (Embeddings.embed_text c w)) = false) ->
  let run := Equipment.process_files equipment_id equipment_oid tenant_id description
                                     [file] created_docs w in
  fst run = Py.Ok created_docs
  /\ (exists stored,
        documents_metadata (snd run) = documents_metadata w ++ [stored]
        /\ stored !! "embedding_status" = Some (Equipment.str "failed")
        /\ stored !! "embedding_error"
           = Some (Bson.Sub [("message",
                              Bson.Str "Failed to generate embeddings for all chunks")]))
  /\ document_chunks (snd run) = document_chunks w.
Proof.
  intros original_name content_type Hsupported Hextract Hblank Hchunks Hfail run.
  destruct (process_file_run equipment_id equipment_oid tenant_id description file text w
              Hsupported Hextract Hblank Hchunks)
    as (stored & Hstored & _ & _ & Hcases).
  rewrite surviving_none in Hcases
    by (intros c Hc; apply (embed_text_fails_iff_blank c w), Hfail, Hc).
  destruct Hcases as (Hraise & Hstatus & Herror & Hsame).
  subst run. cbn [Equipment.process_files]. run.
  destruct (Equipment.process_file equipment_id equipment_oid tenant_id description file w)
    as [outcome w1].
  cbn [fst snd] in Hraise, Hstored, Hsame. subst outcome. run.
  split; [reflexivity|]. split; [|exact Hsame].
  exists stored. split; [exact Hstored|]. split; assumption.
Qed.

End Facts.
End EquipmentFacts.

(** ** The HTTP boundary *)

Module HttpFacts.
Import Runtime.

Section Facts.
Context {float64 RandomState : Type} `{!Np.Numpy float64 RandomState}
        `{Embeddings.Text_splitter} `{Equipment.Text_extraction}.
#[local] Abbreviation world := (Runtime.world float64 RandomState).
#[local] Abbreviation document := (Bson.document float64).

Lemma ObjectId_raises (id : string) (e : Py.exn) :
  Bson.ObjectId id = Py.Raise e -> exists m, e = Py.InvalidId m.
Proof.
  unfold Bson.ObjectId.
  destruct (String.length id =? 24)%nat; [destruct (Py.fromhex id)|];
    intros [= <-]; eexists; reflexivity.
Qed.

(** Where the requests with an identifier go. A request for the documents of
    an equipment reaches the handler that was registered first. *)
Lemma routing (id : string) :
  Py.truthy id = true ->
  Http.resolve Http.routes Http.GET [id] = Some (Http.Get_one_equipment, id)
  /\ Http.resolve Http.routes Http.DELETE [id] = Some (Http.Delete_equipment, id)
  /\ Http.resolve Http.routes Http.GET [id; "documents"]
     = Some (Http.List_equipment_documents, id)
  /\ Http.resolve Http.routes Http.POST [id; "documents"]
     = Some (Http.Upload_equipment_documents, id).
Proof.
  intros Hid. unfold Http.routes.
  cbn [Http.resolve Http.match_path]. rewrite Hid.
  cbn [Http.resolve Http.match_path]. repeat split; reflexivity.
Qed.

Lemma find_one_some (f : gmap string Bson.cond) (e : document) (coll : list document) :
  In e coll -> Bson.matches f e = true -> exists e', Bson.find_one f coll = Some e'.
Proof.
  intros Hin Hmatch. unfold Bson.find_one.
  assert (Hfound : In e (Bson.find f coll)) by (apply BsonFacts.in_find; auto).
  destruct (Bson.find f coll) as [|e' rest]; [destruct Hfound | eexists; reflexivity].
Qed.

Lemma matches_field (key : string) (s : Bson.scalar) (d : document) :
  d !! key = Some (Bson.Scalar s) -> Bson.matches {[ key := Bson.Eq s ]} d = true.
Proof.
  intros Hkey. rewrite BsonFacts.matches_singleton, Hkey. apply BsonFacts.equals_same.
Qed.

Lemma oid_to_str_other (field key : string) (d : document) :
  field <> key -> Equipment.oid_to_str field d !! key = d !! key.
Proof.
  intros Hne. unfold Equipment.oid_to_str.
  destruct (d !! field) as [[[]| | |]|]; try reflexivity.
  apply lookup_insert_ne. exact Hne.
Qed.

Lemma date_to_iso_other (field key : string) (d : document) :
  field <> key -> Equipment.date_to_iso field d !! key = d !! key.
Proof.
  intros Hne. unfold Equipment.date_to_iso.
  destruct (d !! field) as [[[]| | |]|]; try reflexivity.
  apply lookup_insert_ne. exact Hne.
Qed.

(** The conversions of a listing leave the soft-delete flag as it is. *)
Lemma normalize_keeps_flag (d : document) :
  Equipment.normalize d !! "is_disabled" = d !! "is_disabled".
Proof.
  unfold Equipment.normalize.
  rewrite !date_to_iso_other, !oid_to_str_other by discriminate. reflexivity.
Qed.

(** C3, on the code. The route [GET /equipment/{id}/documents] is served by
    the handler registered first, which does not look at [is_disabled]:
    for an equipment that exists, a stored document of the equipment that is
    disabled is in the response, with its flag. *)
Theorem served_listing_includes_disabled (id : string) (oid : Z) (e d : document)
  (w : world) :
  Py.truthy id = true ->
  Bson.ObjectId id = Py.Ok oid ->
  In e (equipment w) ->
  e !! "_id" = Some (Bson.Scalar (Bson.Oid oid)) ->
  In d (documents_metadata w) ->
  d !! "equipment_id" = Some (Bson.Scalar (Bson.Oid oid)) ->
  d !! "is_disabled" = Some (Bson.Scalar (Bson.Bool true)) ->
  exists docs,
    fst (Http.serve (Http.Request Http.GET [id; "documents"] [] None) w)
    = Http.Response 200 (Equipment.Documents docs (Z.of_nat (length docs)))
    /\ In (Equipment.normalize d) docs
    /\ Equipment.normalize d !! "is_disabled" = Some (Bson.Scalar (Bson.Bool true)).
Proof.
  intros Hid Hoid He Heid Hd Hdeq Hflag.
  destruct (find_one_some (Equipment.by_id oid) e (equipment w) He
              (matches_field "_id" _ e Heid)) as (e' & Hfound).
  unfold Http.serve. cbn [Http.req_method Http.req_path Http.req_files Http.req_description].
  destruct (routing id Hid) as (_ & _ & -> & _).
  unfold Http.respond, Equipment.list_equipment_documents. run.
  rewrite Hoid. run. rewrite Hfound. run.
  eexists. split; [reflexivity|]. split.
  - apply in_map, BsonFacts.in_sort_desc, BsonFacts.in_find. split; [exact Hd|].
    apply matches_field. exact Hdeq.
  - rewrite normalize_keeps_flag. exact Hflag.
Qed.

(** C8, on the code. For an [equipment_id] that is not the hexadecimal form of
    an identifier, the deletion and the listing answer 400, but the upload
    and the fetch of one equipment call [ObjectId] unguarded and answer 500
    through the generic handler; retrieval logs a warning and leaves the
    equipment filter out. *)
Theorem malformed_equipment_id_responses (id : string) (e : Py.exn)
  (files : list Equipment.UploadFile) (description : option string)
  (f : gmap string Bson.cond) (w : world) :
  Py.truthy id = true ->
  Bson.ObjectId id = Py.Raise e ->
  fst (Http.serve (Http.Request Http.DELETE [id] [] None) w)
  = Http.Response 400 (Equipment.Detail "Invalid equipment_id format")
  /\ fst (Http.serve (Http.Request Http.GET [id; "documents"] [] None) w)
     = Http.Response 400 (Equipment.Detail "Invalid equipment_id format")
  /\ fst (Http.serve (Http.Request Http.POST [id; "documents"] files description) w)
     = Http.Response 500 Equipment.Internal_error
  /\ fst (Http.serve (Http.Request Http.GET [id] [] None) w)
     = Http.Response 500 Equipment.Internal_error
  /\ Rag.add_equipment_filter (Some id) f w
     = (Py.Ok f,
        set_log (log w ++ [(WARNING, "Invalid equipment_id '" +:+ id
                                     +:+ "'; skipping filter. Error: " +:+ Py.exn_str e)]) w).
Proof.
  intros Hid Hoid. destruct (ObjectId_raises id e Hoid) as (m & ->).
  destruct (routing id Hid) as (Hget & Hdelete & Hlist & Hupload).
  unfold Http.serve.
  cbn [Http.req_method Http.req_path Http.req_files Http.req_description].
  rewrite Hget, Hdelete, Hlist, Hupload.
  unfold Http.respond, Equipment.delete_equipment, Equipment.list_equipment_documents,
    Equipment.upload_equipment_documents, Equipment.get_one_equipment,
    Equipment.bad_request, Rag.add_equipment_filter.
  rewrite Hid. run. rewrite Hoid. run.
  repeat split; reflexivity.
Qed.

Lemma in_firstn {A} (x : A) (n : nat) (l : list A) : In x (firstn n l) -> In x l.
Proof.
  revert l. induction n as [|n IH]; intros [|y l]; cbn; try tauto.
  intros [-> | Hin]; [left; reflexivity | right; exact (IH l Hin)].
Qed.

(** The handler registered second, which the route never reaches, leaves
    the disabled documents out. *)
Lemma second_listing_excludes_disabled (id : string) (docs : list document) (n : Z)
  (w w' : world) :
  Equipment.list_equipment_documents' id w = (Py.Ok (Equipment.Documents docs n), w') ->
  Forall (fun d : document => d !! "is_disabled" <> Some (Bson.Scalar (Bson.Bool true))) docs.
Proof.
  unfold Equipment.list_equipment_documents'. run.
  destruct (Bson.ObjectId id) as [oid|e]; run; [|discriminate].
  destruct (Bson.find_one (Equipment.by_id oid) (equipment w)); run; [|discriminate].
  intros [= <- _ _]. apply Forall_forall. intros d Hd.
  apply list_elem_of_In, in_map_iff in Hd. destruct Hd as (d0 & <- & Hd0).
  rewrite normalize_keeps_flag.
  apply in_firstn, BsonFacts.in_find in Hd0. destruct Hd0 as [_ Hmatch].
  apply RagFacts.not_disabled_holds.
  apply (RagFacts.matches_entry _ d0 "is_disabled" _ Hmatch).
  apply lookup_insert_eq.
Qed.

End Facts.
End HttpFacts.

Import Reference.

Lemma served_listing_includes_disabled_witness :
  Py.truthy pump_id = true
  /\ Bson.ObjectId pump_id = Py.Ok pump_oid
  /\ In pump (Runtime.equipment plant)
  /\ In withdrawn (Runtime.documents_metadata plant)
  /\ withdrawn !! "is_disabled" = Some (Bson.Scalar (Bson.Bool true))
  /\ exists docs,
       fst (Http.serve (Http.Request Http.GET [pump_id; "documents"] [] None) plant)
       = Http.Response 200 (Equipment.Documents docs (Z.of_nat (length docs)))
       /\ In (Equipment.normalize withdrawn) docs
       /\ Equipment.normalize withdrawn !! "is_disabled"
          = Some (Bson.Scalar (Bson.Bool true)).
Proof.
  split; [reflexivity|]. split; [reflexivity|].
  split; [left; reflexivity|]. split; [right; left; reflexivity|].
  split; [reflexivity|].
  apply (HttpFacts.served_listing_includes_disabled pump_id pump_oid pump withdrawn plant);
    try reflexivity.
  - left. reflexivity.
  - right. left. reflexivity.
Defined.

Lemma malformed_equipment_id_responses_witness :
  Py.truthy "invalid-id" = true
  /\ Py.is_ok (Bson.ObjectId "invalid-id") = false
  /\ fst (Http.serve (Http.Request Http.POST ["invalid-id"; "documents"] [leaflet] None) plant)
     = Http.Response 500 Equipment.Internal_error
  /\ fst (Http.serve (Http.Request Http.GET ["invalid-id"] [] None) plant)
     = Http.Response 500 Equipment.Internal_error
  /\ fst (Http.serve (Http.Request Http.DELETE ["invalid-id"] [] None) plant)
     = Http.Response 400 (Equipment.Detail "Invalid equipment_id format").
Proof.
  split; [reflexivity|]. split; [reflexivity|].
  destruct (HttpFacts.malformed_equipment_id_responses
              "invalid-id" _ [leaflet] None Rag.not_disabled plant eq_refl eq_refl)
    as (Hdelete & _ & Hupload & Hget & _).
  split; [exact Hupload|]. split; [exact Hget | exact Hdelete].
Defined.

Lemma upload_entry_status_is_stale_witness :
  let run := Equipment.process_file pump_id pump_oid (Bson.Scalar (Bson.Str "acme")) None
                                    leaflet plant in
  Embeddings.split_text "pump manual" = ["pump manual"]
  /\ exists entry stored,
       fst run = Py.Ok (Some entry)
       /\ entry !! "_id" = Some (Equipment.str (Bson.oid_str 3))
       /\ entry !! "embedding_status" = Some (Equipment.str "processing")
       /\ Runtime.documents_metadata (snd run) = [manual; withdrawn; stored]
       /\ stored !! "_id" = Some (Bson.Scalar (Bson.Oid 3))
       /\ stored !! "embedding_status" = Some (Equipment.str "completed").
Proof.
  split; [reflexivity|].
  apply (EquipmentFacts.upload_entry_status_is_stale
           pump_id pump_oid (Bson.Scalar (Bson.Str "acme")) None leaflet "pump manual" plant);
    try reflexivity.
  exists "pump manual". split; [left; reflexivity | reflexivity].
Defined.

Section Dropping.
#[local] Existing Instance dropping_splitter | 0.


(** The records stored for ["alpha| |beta"] when the splitter drops the
    blank piece: two chunks, under the indices 0 and 1. *)
Example stored_indices_of_notes :
  map Equipment.index_and_text
      (Runtime.document_chunks
         (snd (Equipment.process_file pump_id pump_oid (Bson.Scalar (Bson.Str "acme")) None
                                      notes plant)))
  = [ (Some (Bson.Scalar (Bson.Int 0)), Some (Bson.Scalar (Bson.Str "alpha")));
      (Some (Bson.Scalar (Bson.Int 1)), Some (Bson.Scalar (Bson.Str "beta"))) ].
Proof. vm_compute. reflexivity. Qed.

End Dropping.

Lemma all_chunks_failing_leaves_failed_document_witness :
  let run := Equipment.process_files pump_id pump_oid (Bson.Scalar (Bson.Str "acme")) None
                                     [bars] [] plant in
  Embeddings.split_text "|" = [""; ""]
  /\ (forall c, In c (Embeddings.split_text "|") ->
                Py.is_ok (fst (Embeddings.embed_text c plant)) = false)
  /\ fst run = Py.Ok []
  /\ (exists stored,
        Runtime.documents_metadata (snd run) = Runtime.documents_metadata plant ++ [stored]
        /\ stored !! "embedding_status" = Some (Equipment.str "failed")
        /\ stored !! "embedding_error"
           = Some (Bson.Sub [("message",
                              Bson.Str "Failed to generate embeddings for all chunks")]))
  /\ Runtime.document_chunks (snd run) = Runtime.document_chunks plant.
Proof.
  intros run.
  assert (Hfail : forall c, In c (Embeddings.split_text "|") ->
                            Py.is_ok (fst (Embeddings.embed_text c plant)) = false).
  { intros c [<- | [<- | []]]; reflexivity. }
  split; [reflexivity|]. split; [exact Hfail|].
  apply (EquipmentFacts.all_chunks_failing_leaves_failed_document
           pump_id pump_oid (Bson.Scalar (Bson.Str "acme")) None bars "|" [] plant);
    try reflexivity; [discriminate | exact Hfail].
Defined.


(** ** The model on concrete inputs *)

(** An identifier goes through [ObjectId] and back unchanged. *)
Example object_id_round_trip :
  Bson.ObjectId pump_id = Py.Ok pump_oid /\ Bson.oid_str pump_oid = pump_id.
Proof. split; reflexivity. Qed.

(** Pool sizes: [k = 5] asks for 100 candidates, [k = 10] for 200. *)
Example pool_sizes :
  map (fun k =>
         match Runtime.aggregations
                 (snd (Rag.retrieve "vector_index" "relief valve" k None None None
                                    empty_world)) with
         | [Atlas.Search _ _ _ pool :: _] => Some pool
         | _ => None
         end) [5; 10]
  = [Some 100; Some 200].
Proof. vm_compute. reflexivity. Qed.

(** The served listing is newest first, with dates and identifiers as
    strings. *)
Example served_listing :
  match fst (Http.serve (Http.Request Http.GET [pump_id; "documents"] [] None) plant) with
  | Http.Response code (Equipment.Documents docs count) =>
    Some (code, count,
          map (fun d : Bson.document Z => (d !! "file_name", d !! "created_at", d !! "_id")) docs)
  | _ => None
  end
  = Some (200, 2,
          [ (Some (Bson.Scalar (Bson.Str "withdrawn.txt")),
             Some (Bson.Scalar (Bson.Str "2024-02-01T08:00:00")),
             Some (Bson.Scalar (Bson.Str "000000000000000000000002")));
            (Some (Bson.Scalar (Bson.Str "manual.txt")),
             Some (Bson.Scalar (Bson.Str "2024-01-15T09:30:00")),
             Some (Bson.Scalar (Bson.Str "000000000000000000000001"))) ]).
Proof. vm_compute. reflexivity. Qed.

(** A batch of three files: the one whose chunks all fail is left out of the
    response, and the batch goes on. *)
Example batch_upload :
  match fst (Http.serve (Http.Request Http.POST [pump_id; "documents"]
                                      [leaflet; bars; notes] None) plant) with
  | Http.Response code (Equipment.Documents docs count) =>
    Some (code, count, map (fun d : Bson.document Z => d !! "file_name") docs)
  | _ => None
  end
  = Some (201, 2, [ Some (Bson.Scalar (Bson.Str "leaflet.txt"));
                    Some (Bson.Scalar (Bson.Str "notes.txt")) ]).
Proof. vm_compute. reflexivity. Qed.

(** A tool call without a query: retrieval raises on the empty text and the
    conversation gets the empty result. *)
Example tool_call_without_query :
  let run := Bot.search_knowledge_base pump_id "acme" ∅ plant in
  fst run = Py.Ok tt /\ Runtime.delivered (snd run) = [Runtime.Results []].
Proof. vm_compute. split; reflexivity. Qed.

(** ** Cascading deletion *)

Module CascadeFacts.
Import Runtime.

Section Facts.
Context {float64 RandomState : Type}.
#[local] Abbreviation world := (Runtime.world float64 RandomState).
#[local] Abbreviation document := (Bson.document float64).

Lemma matches_of_equipment (oid : Z) (d : document) :
  Bson.matches (Equipment.of_equipment oid) d = true
  <-> d !! "equipment_id" = Some (Bson.Scalar (Bson.Oid oid)).
Proof.
  unfold Equipment.of_equipment. rewrite BsonFacts.matches_singleton. cbn [Bson.holds].
  split.
  - intros Heq. apply BsonFacts.equals_true in Heq.
    destruct Heq as [Hfield | [_ Hnull]]; [exact Hfield | discriminate Hnull].
  - intros ->. apply BsonFacts.equals_same.
Qed.

Lemma length_partition {A} (f : A -> bool) (l : list A) :
  (length l = length (List.filter f l) + length (List.filter (fun a => negb (f a)) l))%nat.
Proof.
  induction l as [|a l IH]; [reflexivity|].
  cbn [List.filter]. destruct (f a); cbn [negb length]; lia.
Qed.

Lemma delete_many_spec (oid : Z) (coll : list document) :
  let result := Bson.delete_many (Equipment.of_equipment oid) coll in
  (forall d, In d (fst result)
             <-> In d coll /\ d !! "equipment_id" <> Some (Bson.Scalar (Bson.Oid oid)))
  /\ Z.of_nat (length coll) = snd result + Z.of_nat (length (fst result)).
Proof.
  cbn [Bson.delete_many fst snd]. split.
  - intros d. rewrite filter_In. rewrite negb_true_iff, <- not_true_iff_false.
    rewrite matches_of_equipment. reflexivity.
  - unfold Bson.find.
    rewrite (length_partition (Bson.matches (Equipment.of_equipment oid)) coll). lia.
Qed.

Lemma delete_one_found (f : gmap string Bson.cond) (e : document) (coll : list document) :
  Bson.find_one f coll = Some e ->
  snd (Bson.delete_one f coll) = 1
  /\ length coll = S (length (fst (Bson.delete_one f coll))).
Proof.
  unfold Bson.find_one, Bson.find.
  induction coll as [|d rest IH]; cbn [List.filter Bson.delete_one]; [discriminate|].
  destruct (Bson.matches f d); [intros _; split; reflexivity|].
  intros Hfound. destruct (IH Hfound) as [Hcount Hlength].
  destruct (Bson.delete_one f rest) as [rest' n]. cbn [fst snd length] in *.
  split; [exact Hcount | lia].
Qed.

(** X1. Deleting an equipment that exists removes every chunk and every
    document record that references it and no other one, removes one
    equipment record, and reports as counts the numbers of records that
    went. *)
Theorem delete_equipment_cascades (equipment_id : string) (oid : Z) (e : document)
  (w : world) :
  Bson.ObjectId equipment_id = Py.Ok oid ->
  Bson.find_one (Equipment.by_id oid) (equipment w) = Some e ->
  exists documents_deleted chunks_deleted,
    let w' := snd (Equipment.delete_equipment equipment_id w) in
    fst (Equipment.delete_equipment equipment_id w)
    = Py.Ok (Equipment.Deleted "Equipment deleted successfully" equipment_id
               1 documents_deleted chunks_deleted)
    /\ (forall d, In d (document_chunks w')
          <-> In d (document_chunks w)
              /\ d !! "equipment_id" <> Some (Bson.Scalar (Bson.Oid oid)))
    /\ (forall d, In d (documents_metadata w')
          <-> In d (documents_metadata w)
              /\ d !! "equipment_id" <> Some (Bson.Scalar (Bson.Oid oid)))
    /\ Z.of_nat (length (document_chunks w))
       = chunks_deleted + Z.of_nat (length (document_chunks w'))
    /\ Z.of_nat (length (documents_metadata w))
       = documents_deleted + Z.of_nat (length (documents_metadata w'))
    /\ length (equipment w) = S (length (equipment w')).
Proof.
  intros Hid Hfound.
  destruct (delete_many_spec oid (document_chunks w)) as [Hchunks Hchunks_count].
  destruct (delete_many_spec oid (documents_metadata w)) as [Hdocs Hdocs_count].
  destruct (delete_one_found _ _ _ Hfound) as [Hone Hlength].
  exists (snd (Bson.delete_many (Equipment.of_equipment oid) (documents_metadata w))),
         (snd (Bson.delete_many (Equipment.of_equipment oid) (document_chunks w))).
  unfold Equipment.delete_equipment. rewrite Hid. run. rewrite Hfound. run.
  rewrite Hone.
  split; [reflexivity|]. split; [exact Hchunks|]. split; [exact Hdocs|].
  split; [exact Hchunks_count|]. split; [exact Hdocs_count | exact Hlength].
Qed.

(** X2. A deletion that names an identifier [ObjectId] refuses is answered
    400, one that names no stored equipment 404, and neither changes
    anything. *)
Theorem delete_equipment_rejections (equipment_id : string) (w : world) :
  (forall e, Bson.ObjectId equipment_id = Py.Raise e ->
     Equipment.delete_equipment equipment_id w
     = (Py.Raise (Py.HTTPException 400 "Invalid equipment_id format"), w))
  /\ (forall oid, Bson.ObjectId equipment_id = Py.Ok oid ->
        Bson.find_one (Equipment.by_id oid) (equipment w) = None ->
        Equipment.delete_equipment equipment_id w
        = (Py.Raise (Py.HTTPException 404 "Equipment not found"), w)).
Proof.
  split.
  - intros e Hid. unfold Equipment.delete_equipment. rewrite Hid. run. reflexivity.
  - intros oid Hid Hnone. unfold Equipment.delete_equipment. rewrite Hid. run.
    rewrite Hnone. run. reflexivity.
Qed.

End Facts.
End CascadeFacts.

Import Fixtures.

Lemma delete_equipment_cascades_witness :
  Bson.ObjectId pump_id = Py.Ok pump_oid
  /\ Bson.find_one (Equipment.by_id pump_oid) (Runtime.equipment yard) = Some pump
  /\ exists documents_deleted chunks_deleted,
       let w' := snd (Equipment.delete_equipment pump_id yard) in
       fst (Equipment.delete_equipment pump_id yard)
       = Py.Ok (Equipment.Deleted "Equipment deleted successfully" pump_id
                  1 documents_deleted chunks_deleted)
       /\ (forall d, In d (Runtime.document_chunks w')
             <-> In d (Runtime.document_chunks yard)
                 /\ d !! "equipment_id" <> Some (Bson.Scalar (Bson.Oid pump_oid)))
       /\ (forall d, In d (Runtime.documents_metadata w')
             <-> In d (Runtime.documents_metadata yard)
                 /\ d !! "equipment_id" <> Some (Bson.Scalar (Bson.Oid pump_oid)))
       /\ Z.of_nat (length (Runtime.document_chunks yard))
          = chunks_deleted + Z.of_nat (length (Runtime.document_chunks w'))
       /\ Z.of_nat (length (Runtime.documents_metadata yard))
          = documents_deleted + Z.of_nat (length (Runtime.documents_metadata w'))
       /\ length (Runtime.equipment yard) = S (length (Runtime.equipment w')).
Proof.
  split; [reflexivity|]. split; [vm_compute; reflexivity|].
  apply (CascadeFacts.delete_equipment_cascades pump_id pump_oid pump yard);
    vm_compute; reflexivity.
Defined.

(** Deleting the pump of the yard takes its two documents and two chunks and
    leaves the press with its own. *)
Example cascade_in_the_yard :
  let run := Equipment.delete_equipment pump_id yard in
  let ids := map (fun d : Bson.document Z => d !! "_id") in
  fst run = Py.Ok (Equipment.Deleted "Equipment deleted successfully" pump_id 1 2 2)
  /\ ids (Runtime.equipment (snd run)) = ids [press]
  /\ ids (Runtime.documents_metadata (snd run)) = ids [guide]
  /\ ids (Runtime.document_chunks (snd run)) = ids [platen].
Proof. vm_compute. repeat split; reflexivity. Qed.

(** ** Batches of texts and the size of a vector *)

Module EmbeddingBatchFacts.
Import Runtime.

Section Facts.
Context {float64 RandomState : Type} `{!Np.Numpy float64 RandomState} `{Embeddings.Text_splitter}.
#[local] Abbreviation world := (Runtime.world float64 RandomState).

(** The vector of a text does not depend on the state the call starts from. *)
Lemma embed_text_any_state (text : string) (w w' : world) :
  Py.blank text = false ->
  fst (Embeddings.embed_text text w) = fst (Embeddings.embed_text text w').
Proof.
  intros Hblank.
  destruct (EmbeddingFacts.embed_text_ok text w Hblank) as (seed & Hseed & ->).
  destruct (EmbeddingFacts.embed_text_ok text w' Hblank) as (seed' & Hseed' & ->).
  rewrite Hseed in Hseed'. injection Hseed' as <-. reflexivity.
Qed.

Lemma embed_each_run (texts : list string) (w0 w : world) :
  forallb (fun t => negb (Py.blank t)) texts = true ->
  exists vs,
    fst (Embeddings.embed_each texts w) = Py.Ok vs
    /\ Forall2 (fun t v => fst (Embeddings.embed_text t w0) = Py.Ok v) texts vs.
Proof.
  revert w. induction texts as [|t rest IH]; intros w Hvalid.
  - exists []. split; [reflexivity | constructor].
  - cbn [forallb] in Hvalid. apply andb_true_iff in Hvalid as [Ht Hrest].
    apply negb_true_iff in Ht.
    destruct (EmbeddingFacts.embed_text_ok t w Ht) as (seed & Hseed & Hrun).
    destruct (IH (set_np_random (Embeddings.state_after seed) w) Hrest) as (vs & Hvs & Hall).
    exists (Embeddings.vector_of_seed seed :: vs).
    cbn [Embeddings.embed_each]. run. rewrite Hrun. run.
    destruct (Embeddings.embed_each rest _) as [[vs'|e] w'] eqn:Heach;
      cbn [fst] in Hvs; [|discriminate Hvs].
    injection Hvs as ->. run. split; [reflexivity|].
    constructor; [|exact Hall].
    rewrite (embed_text_any_state t w0 w Ht), Hrun. reflexivity.
Qed.

Lemma valid_texts_valid (texts : list string) :
  forallb (fun t => negb (Py.blank t))
          (List.filter (fun t => negb (Py.blank t)) texts) = true.
Proof.
  induction texts as [|t rest IH]; [reflexivity|].
  cbn [List.filter]. destruct (Py.blank t) eqn:Ht; cbn [negb]; [exact IH|].
  cbn [forallb]. rewrite Ht, IH. reflexivity.
Qed.

(** X3. [embed_texts] never raises: it returns one vector for each text
    that is not blank, in the order of the texts, each the vector
    [embed_text] gives that text on its own; blank texts get no vector, so
    the result is not aligned with the argument. *)
Theorem embed_texts_skips_blank (texts : list string) (w : world) :
  exists vs,
    fst (Embeddings.embed_texts texts w) = Py.Ok vs
    /\ Forall2 (fun t v => fst (Embeddings.embed_text t w) = Py.Ok v)
               (List.filter (fun t => negb (Py.blank t)) texts) vs.
Proof.
  unfold Embeddings.embed_texts.
  destruct (Py.nonempty texts) eqn:Htexts; cbn [negb].
  - destruct (Py.nonempty (List.filter _ texts)) eqn:Hvalid; cbn [negb].
    + apply embed_each_run, valid_texts_valid.
    + destruct (List.filter _ texts); [|discriminate Hvalid].
      exists []. split; [reflexivity | constructor].
  - destruct texts; [|discriminate Htexts].
    exists []. split; [reflexivity | constructor].
Qed.

(** X4. With a generator that draws as many samples as it is asked for,
    [embed_text] returns 1536 components for every text that is not
    blank. *)
Theorem embed_text_dimension (text : string) (w : world) :
  (forall n st, length (fst (Np.normal n st)) = n) ->
  Py.blank text = false ->
  exists v,
    fst (Embeddings.embed_text text w) = Py.Ok v /\ length v = 1536%nat.
Proof.
  intros Hnormal Hblank.
  destruct (EmbeddingFacts.embed_text_ok text w Hblank) as (seed & _ & ->).
  exists (Embeddings.vector_of_seed seed). split; [reflexivity|].
  unfold Embeddings.vector_of_seed. rewrite length_map. apply Hnormal.
Qed.

End Facts.

Lemma lcg_draw_length (n : nat) (st : Z) : length (fst (Np.lcg_draw n st)) = n.
Proof.
  revert st. induction n as [|n IH]; intros st; [reflexivity|].
  cbn [Np.lcg_draw]. specialize (IH ((1103515245 * st + 12345) mod 2 ^ 31)).
  destruct (Np.lcg_draw n _) as [rest st']. cbn [fst length] in *. now rewrite IH.
Qed.

End EmbeddingBatchFacts.

Lemma embed_text_dimension_witness :
  (forall n st, length (fst (Np.lcg_draw n st)) = n)
  /\ Py.blank "relief valve" = false
  /\ exists v,
       fst (Embeddings.embed_text "relief valve" empty_world) = Py.Ok v
       /\ length v = 1536%nat.
Proof.
  split; [exact EmbeddingBatchFacts.lcg_draw_length|]. split; [reflexivity|].
  apply (EmbeddingBatchFacts.embed_text_dimension "relief valve" empty_world);
    [exact EmbeddingBatchFacts.lcg_draw_length | reflexivity].
Defined.

(** Of three texts the blank one in the middle gets no vector. *)
Example embed_texts_of_three :
  match fst (Embeddings.embed_texts ["alpha"; "  "; "beta"] empty_world) with
  | Py.Ok vs =>
    Some (map Some vs)
    = Some [ match fst (Embeddings.embed_text "alpha" empty_world) with
             | Py.Ok v => Some v | Py.Raise _ => None end;
             match fst (Embeddings.embed_text "beta" empty_world) with
             | Py.Ok v => Some v | Py.Raise _ => None end ]
  | Py.Raise _ => False
  end.
Proof. vm_compute. reflexivity. Qed.

(** ** What retrieval returns *)

Module ScopeFacts.
Import Runtime.

Section Facts.
Context {float64 RandomState : Type} `{!Np.Numpy float64 RandomState}
        `{Embeddings.Text_splitter} `{!Atlas.Search_index float64}.
#[local] Abbreviation world := (Runtime.world float64 RandomState).
#[local] Abbreviation document := (Bson.document float64).

Lemma filter_map_rows (f : gmap string Bson.cond) (cands : list (document * float64)) :
  List.filter (fun r : document * option float64 => Bson.matches f (fst r))
              (map (fun ds => (fst ds, Some (snd ds))) cands)
  = map (fun ds => (fst ds, Some (snd ds)))
        (List.filter (fun ds => Bson.matches f (fst ds)) cands).
Proof.
  induction cands as [|ds rest IH]; [reflexivity|].
  cbn [map List.filter fst]. destruct (Bson.matches f (fst ds)); cbn [map]; now rewrite IH.
Qed.

(** The four stages [retrieve] builds, run on a collection. *)
Lemma aggregate_pipeline (coll : list document) (index path : string)
  (vector : list float64) (pool k : Z) (f : gmap string Bson.cond) :
  Atlas.aggregate coll [Atlas.Search index vector path pool; Atlas.Match f;
                        Atlas.Project Rag.projected_fields "score"; Atlas.Limit k]
  = match Atlas.knn_beta index vector path pool coll with
    | Py.Ok cands =>
      if 0 <? k
      then Py.Ok (map Pool.row (firstn (Z.to_nat k)
                             (List.filter (fun ds => Bson.matches f (fst ds)) cands)))
      else Py.Raise (Py.OperationFailure "the limit must be positive")
    | Py.Raise e => Py.Raise e
    end.
Proof.
  unfold Atlas.aggregate.
  destruct (Atlas.knn_beta index vector path pool coll) as [cands|e]; [|reflexivity].
  cbn [Atlas.run_stages Atlas.run_stage].
  destruct (0 <? k); [|reflexivity].
  rewrite filter_map_rows, !firstn_map, !map_map. reflexivity.
Qed.

Lemma retrieve_rows (index query : string) (k : Z)
  (equipment_id tenant_id : option string)
  (extra_filters : option (gmap string Bson.cond)) (w : world) :
  Py.blank query = false ->
  0 < k ->
  let run := Rag.retrieve index query k equipment_id tenant_id extra_filters w in
  exists seed f (w0 : world) l0,
    Rag.build_match_filters equipment_id tenant_id extra_filters w0
    = (Py.Ok f, set_log l0 w0)
    /\ aggregations (snd run)
       = aggregations w
         ++ [[ Atlas.Search index (Embeddings.vector_of_seed seed) "embedding"
                            (Z.max (k * 20) 100);
               Atlas.Match f;
               Atlas.Project Rag.projected_fields "score";
               Atlas.Limit k ]]
    /\ match Atlas.knn_beta index (Embeddings.vector_of_seed seed) "embedding"
                            (Z.max (k * 20) 100) (document_chunks w) with
       | Py.Ok cands =>
         let rows :=
           map Pool.row
               (firstn (Z.to_nat k)
                       (List.filter (fun ds => Bson.matches f (fst ds)) cands)) in
         fst run
         = Py.Ok (RetrievalResult.Make
                    (map Rag.chunk_content rows)
                    (RetrievalMetadata.Make query k (Z.of_nat (length rows))
                       equipment_id tenant_id (map Rag.chunk_metadata rows)))
       | Py.Raise e => fst run = Py.Raise e
       end.
Proof.
  intros Hblank Hk run.
  destruct (RagFacts.retrieve_cases index query k equipment_id tenant_id extra_filters w)
    as [(Hb & _) | [(_ & Hneg & _) | (_ & _ & seed & f & w0 & l0 & _ & Hbuild & Hissued & Hout)]];
    [congruence | lia |].
  fold run in Hissued, Hout.
  exists seed, f, w0, l0. split; [exact Hbuild|]. split; [exact Hissued|].
  rewrite aggregate_pipeline in Hout.
  destruct (Atlas.knn_beta index (Embeddings.vector_of_seed seed) "embedding"
              (Z.max (k * 20) 100) (document_chunks w)) as [cands|e]; [|exact Hout].
  replace (0 <? k) with true in Hout by (symmetry; apply Z.ltb_lt; exact Hk).
  cbv zeta in Hout |- *.
  rewrite firstn_map, firstn_firstn, Nat.min_id in Hout. exact Hout.
Qed.

(** X5. For a query that is not blank and a positive [k], what [retrieve]
    returns is read off the pool the search answers with: the first [k]
    candidates of the pool that satisfy the filter of the pipeline, in the
    order of the pool, each as its projection. A chunk outside the pool is
    never returned, however many of the pool the filter rejects. *)
Theorem retrieve_returns_first_matches_of_pool (index query : string) (k : Z)
  (equipment_id tenant_id : option string)
  (extra_filters : option (gmap string Bson.cond)) (w : world) :
  Py.blank query = false ->
  0 < k ->
  let run := Rag.retrieve index query k equipment_id tenant_id extra_filters w in
  exists vector f,
    aggregations (snd run)
    = aggregations w
      ++ [[ Atlas.Search index vector "embedding" (Z.max (k * 20) 100);
            Atlas.Match f;
            Atlas.Project Rag.projected_fields "score";
            Atlas.Limit k ]]
    /\ match Atlas.knn_beta index vector "embedding" (Z.max (k * 20) 100)
                            (document_chunks w) with
       | Py.Ok cands =>
         let kept :=
           firstn (Z.to_nat k) (List.filter (fun ds => Bson.matches f (fst ds)) cands) in
         exists r,
           fst run = Py.Ok r
           /\ RetrievalResult.data r = map (fun ds => Rag.chunk_content (Pool.row ds)) kept
           /\ RetrievalMetadata.chunks (RetrievalResult.metadata r)
              = map (fun ds => Rag.chunk_metadata (Pool.row ds)) kept
       | Py.Raise e => fst run = Py.Raise e
       end.
Proof.
  intros Hblank Hk run.
  destruct (retrieve_rows index query k equipment_id tenant_id extra_filters w Hblank Hk)
    as (seed & f & w0 & l0 & _ & Hissued & Hout).
  fold run in Hissued, Hout.
  exists (Embeddings.vector_of_seed seed), f. split; [exact Hissued|].
  destruct (Atlas.knn_beta index (Embeddings.vector_of_seed seed) "embedding"
              (Z.max (k * 20) 100) (document_chunks w)) as [cands|e]; [|exact Hout].
  cbv zeta in Hout |- *. eexists. split; [exact Hout|].
  cbn [RetrievalResult.data RetrievalResult.metadata RetrievalMetadata.chunks].
  rewrite !map_map. split; reflexivity.
Qed.

Lemma ObjectId_truthy (id : string) (oid : Z) :
  Bson.ObjectId id = Py.Ok oid -> Py.truthy id = true.
Proof. destruct id; [discriminate | reflexivity]. Qed.

(** The scope entries of the filter when both identifiers are given and the
    caller adds no filter. *)
Lemma build_scope_entries (id t : string) (oid : Z) (w w' : world)
  (f : gmap string Bson.cond) :
  Bson.ObjectId id = Py.Ok oid ->
  Py.truthy t = true ->
  Rag.build_match_filters (Some id) (Some t) None w = (Py.Ok f, w') ->
  f !! "equipment_id" = Some (Bson.Eq (Bson.Oid oid))
  /\ f !! "tenant_id" = Some (Bson.Eq (Bson.Str t)).
Proof.
  intros Hid Ht.
  unfold Rag.build_match_filters, Rag.add_equipment_filter, Rag.add_tenant_filter,
    Rag.add_extra_filters, Rag.not_disabled.
  rewrite (ObjectId_truthy id oid Hid), Hid, Ht. run.
  intros [= <- _]. split; simplify_map_eq; reflexivity.
Qed.

(** The projection keeps the projected fields of a candidate. *)
Lemma row_lookup (ds : document * float64) (key : string) :
  In key Rag.projected_fields -> Pool.row ds !! key = fst ds !! key.
Proof.
  intros Hkey. unfold Pool.row, Atlas.project. cbn [fst snd].
  assert (Hscore : "score" <> key).
  { intros <-. cbn in Hkey. intuition discriminate. }
  rewrite lookup_insert_ne by exact Hscore.
  apply option_eq. intros v. rewrite map_lookup_filter_Some. cbn [fst].
  rewrite bool_decide_spec, list_elem_of_In. intuition.
Qed.

Lemma eq_entry_holds (s : Bson.scalar) (d : document) (key : string)
  (f : gmap string Bson.cond) :
  s <> Bson.Null ->
  f !! key = Some (Bson.Eq s) ->
  Bson.matches f d = true ->
  d !! key = Some (Bson.Scalar s).
Proof.
  intros Hs Hkey Hd.
  pose proof (RagFacts.matches_entry f d key _ Hd Hkey) as Hholds.
  cbn [Bson.holds] in Hholds. apply BsonFacts.equals_true in Hholds.
  destruct Hholds as [Hfield | [_ Hnull]]; [exact Hfield | contradiction].
Qed.

(** X6. When [retrieve] is given a well-formed equipment identifier and a
    tenant, and no filter of the caller's, every chunk it returns is a chunk
    of that equipment and of that tenant, whatever the search ranks
    first. *)
Theorem retrieve_stays_in_scope (index query id t : string) (k oid : Z) (w : world)
  (r : RetrievalResult.t float64) :
  Bson.ObjectId id = Py.Ok oid ->
  Py.truthy t = true ->
  fst (Rag.retrieve index query k (Some id) (Some t) None w) = Py.Ok r ->
  Forall (fun m => ChunkMetadata.equipment_id m = Bson.oid_str oid
                   /\ ChunkMetadata.tenant_id m = Some (Bson.Scalar (Bson.Str t)))
         (RetrievalMetadata.chunks (RetrievalResult.metadata r)).
Proof.
  intros Hid Ht Hrun.
  destruct (RagFacts.retrieve_cases index query k (Some id) (Some t) None w)
    as [(_ & Hraise & _) | [(_ & _ & Hraise & _)
        | (_ & _ & seed & f & w0 & l0 & _ & Hbuild & _ & Hout)]];
    [congruence | congruence |].
  destruct (build_scope_entries id t oid _ _ f Hid Ht Hbuild) as [Hequipment Htenant].
  rewrite aggregate_pipeline in Hout.
  destruct (Atlas.knn_beta index (Embeddings.vector_of_seed seed) "embedding"
              (Z.max (k * 20) 100) (document_chunks w)) as [cands|e]; [|congruence].
  destruct (0 <? k); [|congruence].
  cbv zeta in Hout. rewrite Hrun in Hout. injection Hout as ->.
  cbn [RetrievalResult.metadata RetrievalMetadata.chunks].
  apply Forall_forall. intros m Hm. apply list_elem_of_In in Hm.
  apply in_map_iff in Hm as (res & <- & Hres).
  apply HttpFacts.in_firstn, in_map_iff in Hres. destruct Hres as (ds & <- & Hds).
  apply HttpFacts.in_firstn, filter_In in Hds. destruct Hds as [_ Hmatch].
  unfold Rag.chunk_metadata. cbn [ChunkMetadata.equipment_id ChunkMetadata.tenant_id].
  unfold Rag.get.
  rewrite !row_lookup by (cbn; intuition).
  rewrite (eq_entry_holds (Bson.Oid oid) _ _ f ltac:(discriminate) Hequipment Hmatch).
  rewrite (eq_entry_holds (Bson.Str t) _ _ f ltac:(discriminate) Htenant Hmatch).
  split; reflexivity.
Qed.

(** The filter does not depend on the state, and a malformed equipment
    identifier leaves it as no identifier does. *)
Lemma build_match_filters_malformed (id : string) (e : Py.exn) (tenant_id : option string)
  (extra_filters : option (gmap string Bson.cond)) (w w' : world) :
  Bson.ObjectId id = Py.Raise e ->
  fst (Rag.build_match_filters (Some id) tenant_id extra_filters w)
  = fst (Rag.build_match_filters None tenant_id extra_filters w').
Proof.
  intros Hid.
  unfold Rag.build_match_filters, Rag.add_equipment_filter, Rag.add_tenant_filter,
    Rag.add_extra_filters.
  rewrite Hid.
  destruct (Py.truthy id);
    (destruct tenant_id as [t|]; [destruct (Py.truthy t)|]);
    (destruct extra_filters as [x|]; [destruct (bool_decide (x = ∅))|]);
    run; reflexivity.
Qed.

(** X7. An equipment identifier that [ObjectId] refuses does not narrow the
    search and does not fail the call: [retrieve] hands the collection the
    pipeline it hands it when no equipment is named, and returns the same
    chunks, or raises the same exception. *)
Theorem retrieve_malformed_equipment_id_is_unscoped (index query id : string) (e : Py.exn)
  (k : Z) (tenant_id : option string) (extra_filters : option (gmap string Bson.cond))
  (w : world) :
  Bson.ObjectId id = Py.Raise e ->
  let scoped := Rag.retrieve index query k (Some id) tenant_id extra_filters w in
  let unscoped := Rag.retrieve index query k None tenant_id extra_filters w in
  aggregations (snd scoped) = aggregations (snd unscoped)
  /\ match fst scoped, fst unscoped with
     | Py.Ok r, Py.Ok r' =>
       RetrievalResult.data r = RetrievalResult.data r'
       /\ RetrievalMetadata.chunks (RetrievalResult.metadata r)
          = RetrievalMetadata.chunks (RetrievalResult.metadata r')
     | Py.Raise e1, Py.Raise e2 => e1 = e2
     | _, _ => False
     end.
Proof.
  intros Hid scoped unscoped.
  destruct (RagFacts.retrieve_cases index query k (Some id) tenant_id extra_filters w)
    as [(Hb & Hraise & Hsame) | [(Hb & Hneg & Hraise & Hsame)
        | (Hb & Hk & seed & f & w0 & l0 & Hseed & Hbuild & Hissued & Hout)]];
    destruct (RagFacts.retrieve_cases index query k None tenant_id extra_filters w)
      as [(Hb' & Hraise' & Hsame') | [(Hb' & Hneg' & Hraise' & Hsame')
          | (Hb' & Hk' & seed' & f' & w0' & l0' & Hseed' & Hbuild' & Hissued' & Hout')]];
    try congruence; try lia;
    fold scoped in Hraise, Hsame || fold scoped in Hissued, Hout;
    fold unscoped in Hraise', Hsame' || fold unscoped in Hissued', Hout'.
  - rewrite Hraise, Hraise', Hsame, Hsame'. split; reflexivity.
  - rewrite Hraise, Hraise', Hsame, Hsame'. split; reflexivity.
  - assert (seed' = seed) as -> by congruence.
    assert (f' = f) as ->.
    { pose proof (build_match_filters_malformed id e tenant_id extra_filters w0 w0' Hid)
        as Hfilters.
      rewrite Hbuild, Hbuild' in Hfilters. cbn [fst] in Hfilters. congruence. }
    cbv zeta in Hissued, Hissued', Hout, Hout'.
    rewrite Hissued, Hissued'. split; [reflexivity|].
    destruct (Atlas.aggregate _ _) as [found|e0].
    + rewrite Hout, Hout'. split; reflexivity.
    + rewrite Hout, Hout'. reflexivity.
Qed.

End Facts.
End ScopeFacts.

Lemma retrieve_returns_first_matches_of_pool_witness :
  let run := Rag.retrieve "vector_index" "prime the pump" 1 (Some pump_id) (Some "acme")
                          None yard in
  Py.blank "prime the pump" = false
  /\ 0 < 1
  /\ exists vector f,
       Runtime.aggregations (snd run)
       = Runtime.aggregations yard
         ++ [[ Atlas.Search "vector_index" vector "embedding" (Z.max (1 * 20) 100);
               Atlas.Match f;
               Atlas.Project Rag.projected_fields "score";
               Atlas.Limit 1 ]]
       /\ match Atlas.knn_beta "vector_index" vector "embedding" (Z.max (1 * 20) 100)
                               (Runtime.document_chunks yard) with
          | Py.Ok cands =>
            let kept :=
              firstn (Z.to_nat 1)
                     (List.filter (fun ds => Bson.matches f (fst ds)) cands) in
            exists r,
              fst run = Py.Ok r
              /\ RetrievalResult.data r
                 = map (fun ds => Rag.chunk_content (Pool.row ds)) kept
              /\ RetrievalMetadata.chunks (RetrievalResult.metadata r)
                 = map (fun ds => Rag.chunk_metadata (Pool.row ds)) kept
          | Py.Raise e => fst run = Py.Raise e
          end.
Proof.
  intros run. split; [reflexivity|]. split; [lia|].
  apply (ScopeFacts.retrieve_returns_first_matches_of_pool
           "vector_index" "prime the pump" 1 (Some pump_id) (Some "acme") None yard);
    [reflexivity | lia].
Defined.

Lemma retrieve_stays_in_scope_witness :
  let run := Rag.retrieve "vector_index" "prime the pump" 5 (Some pump_id) (Some "acme")
                          None yard in
  Bson.ObjectId pump_id = Py.Ok pump_oid
  /\ Py.truthy "acme" = true
  /\ match fst run with
     | Py.Ok r =>
       Forall (fun m => ChunkMetadata.equipment_id m = Bson.oid_str pump_oid
                        /\ ChunkMetadata.tenant_id m = Some (Bson.Scalar (Bson.Str "acme")))
              (RetrievalMetadata.chunks (RetrievalResult.metadata r))
     | Py.Raise _ => False
     end.
Proof.
  intros run. subst run. split; [reflexivity|]. split; [reflexivity|].
  destruct (fst (Rag.retrieve "vector_index" "prime the pump" 5 (Some pump_id)
                              (Some "acme") None yard)) as [r|e] eqn:Hrun.
  - exact (ScopeFacts.retrieve_stays_in_scope "vector_index" "prime the pump" pump_id "acme"
             5 pump_oid yard r eq_refl eq_refl Hrun).
  - vm_compute in Hrun. discriminate Hrun.
Defined.

Lemma retrieve_malformed_equipment_id_is_unscoped_witness :
  let scoped := Rag.retrieve "vector_index" "prime the pump" 5 (Some "pump-7")
                             (Some "acme") None yard in
  let unscoped := Rag.retrieve "vector_index" "prime the pump" 5 None
                               (Some "acme") None yard in
  Py.is_ok (Bson.ObjectId "pump-7") = false
  /\ Runtime.aggregations (snd scoped) = Runtime.aggregations (snd unscoped)
  /\ match fst scoped, fst unscoped with
     | Py.Ok r, Py.Ok r' =>
       RetrievalResult.data r = RetrievalResult.data r'
       /\ RetrievalMetadata.chunks (RetrievalResult.metadata r)
          = RetrievalMetadata.chunks (RetrievalResult.metadata r')
     | Py.Raise e1, Py.Raise e2 => e1 = e2
     | _, _ => False
     end.
Proof.
  intros scoped unscoped. split; [reflexivity|].
  destruct (Bson.ObjectId "pump-7") as [oid|e] eqn:Hid; [discriminate Hid|].
  exact (ScopeFacts.retrieve_malformed_equipment_id_is_unscoped
           "vector_index" "prime the pump" "pump-7" e 5 (Some "acme") None yard Hid).
Defined.

(** In the yard the chunk of the press scores highest, and a search scoped to
    the pump returns the two chunks of the pump. *)
Example scoped_search_in_the_yard :
  let texts (k : Z) (e t : option string) :=
    match fst (Rag.retrieve "vector_index" "platen" k e t None yard) with
    | Py.Ok r => Some (map (@ChunkContent.text Z) (RetrievalResult.data r))
    | Py.Raise _ => None
    end in
  texts 1 None None = Some [Bson.Scalar (Bson.Str "level the platen")]
  /\ texts 1 (Some pump_id) (Some "acme") = Some [Bson.Scalar (Bson.Str "prime the pump")]
  /\ texts 5 (Some press_id) (Some "acme") = Some [].
Proof. vm_compute. repeat split; reflexivity. Qed.

(** ** Uploads: what is stored and what is not *)

Module UploadFacts.
Import Runtime.

Section Facts.
Context {float64 RandomState : Type} `{!Np.Numpy float64 RandomState}
        `{Embeddings.Text_splitter} `{Equipment.Text_extraction}.
#[local] Abbreviation world := (Runtime.world float64 RandomState).
#[local] Abbreviation document := (Bson.document float64).

(** A file the function gives up on before the insertion: nothing but the
    log changes, and the function returns [None] or raises. *)
Lemma process_file_rejected (equipment_id : string) (equipment_oid : Z)
  (tenant_id : Bson.value float64) (description : option string)
  (file : Equipment.UploadFile) (w : world) :
  let original_name := Py.or_default (Equipment.filename file) "upload.bin" in
  let content_type :=
    Py.or_default (Equipment.content_type file) "application/octet-stream" in
  Equipment.is_supported content_type original_name = false
  \/ match Equipment.extract_text (Equipment.content file) original_name content_type with
     | Py.Raise _ => True
     | Py.Ok text => Py.blank text = true \/ Embeddings.split_text text = []
     end ->
  exists outcome l,
    Equipment.process_file equipment_id equipment_oid tenant_id description file w
    = (outcome, set_log l w)
    /\ (outcome = Py.Ok None \/ exists e, outcome = Py.Raise e).
Proof.
  intros original_name content_type Hrejected.
  unfold Equipment.process_file. fold original_name content_type.
  destruct w.
  destruct (Equipment.is_supported content_type original_name) eqn:Hsupported.
  - destruct Hrejected as [Hno | Hrejected]; [congruence|]. cbn [negb].
    destruct (Equipment.extract_text (Equipment.content file) original_name content_type)
      as [text|e] eqn:Hextract.
    + destruct (Py.blank text) eqn:Hblank.
      * run. eexists _, _. split; [reflexivity | left; reflexivity].
      * destruct Hrejected as [Hyes | ->]; [discriminate Hyes|]. run.
        eexists _, _. split; [reflexivity | right; eexists; reflexivity].
    + destruct e; run; eexists _, _; (split; [reflexivity | left; reflexivity]).
  - cbn [negb]. run. eexists _, _. split; [reflexivity | left; reflexivity].
Qed.

(** X8. A file whose type is not supported, whose text cannot be extracted,
    whose text is blank or gives no chunk leaves no trace in the database:
    the batch goes on with the entries it had, no document record and no
    chunk record is written, and no identifier or timestamp is drawn. *)
Theorem rejected_file_stores_nothing (equipment_id : string) (equipment_oid : Z)
  (tenant_id : Bson.value float64) (description : option string)
  (file : Equipment.UploadFile) (created_docs : list document) (w : world) :
  let original_name := Py.or_default (Equipment.filename file) "upload.bin" in
  let content_type :=
    Py.or_default (Equipment.content_type file) "application/octet-stream" in
  Equipment.is_supported content_type original_name = false
  \/ match Equipment.extract_text (Equipment.content file) original_name content_type with
     | Py.Raise _ => True
     | Py.Ok text => Py.blank text = true \/ Embeddings.split_text text = []
     end ->
  let run := Equipment.process_files equipment_id equipment_oid tenant_id description
                                     [file] created_docs w in
  fst run = Py.Ok created_docs
  /\ documents_metadata (snd run) = documents_metadata w
  /\ document_chunks (snd run) = document_chunks w
  /\ equipment (snd run) = equipment w
  /\ uuids_drawn (snd run) = uuids_drawn w
  /\ clock_reads (snd run) = clock_reads w.
Proof.
  intros original_name content_type Hrejected run. subst run.
  destruct (process_file_rejected equipment_id equipment_oid tenant_id description file w
              Hrejected) as (outcome & l & Hrun & Houtcome).
  cbn [Equipment.process_files]. run. rewrite Hrun.
  destruct Houtcome as [-> | (e & ->)]; run; repeat split; reflexivity.
Qed.

(** Whatever the file, [process_file] only appends: at most one document
    record, exactly one when it returns a descriptor. *)
Lemma process_file_appends (equipment_id : string) (equipment_oid : Z)
  (tenant_id : Bson.value float64) (description : option string)
  (file : Equipment.UploadFile) (w : world) :
  let run := Equipment.process_file equipment_id equipment_oid tenant_id description file w in
  exists docs chunks,
    equipment (snd run) = equipment w
    /\ documents_metadata (snd run) = documents_metadata w ++ docs
    /\ document_chunks (snd run) = document_chunks w ++ chunks
    /\ (length docs <= 1)%nat
    /\ (forall d, fst run = Py.Ok (Some d) -> length docs = 1%nat).
Proof.
  intros run.
  set (original_name := Py.or_default (Equipment.filename file) "upload.bin").
  set (content_type :=
         Py.or_default (Equipment.content_type file) "application/octet-stream").
  assert (Hcases :
    (Equipment.is_supported content_type original_name = false
     \/ match Equipment.extract_text (Equipment.content file) original_name content_type with
        | Py.Raise _ => True
        | Py.Ok text => Py.blank text = true \/ Embeddings.split_text text = []
        end)
    \/ exists text,
         Equipment.is_supported content_type original_name = true
         /\ Equipment.extract_text (Equipment.content file) original_name content_type
            = Py.Ok text
         /\ Py.blank text = false
         /\ Embeddings.split_text text <> []).
  { destruct (Equipment.is_supported content_type original_name) eqn:Hsupported;
      [|left; left; reflexivity].
    destruct (Equipment.extract_text (Equipment.content file) original_name content_type)
      as [text|e] eqn:Hextract; [|left; right; exact I].
    destruct (Py.blank text) eqn:Hblank; [left; right; left; reflexivity|].
    destruct (Embeddings.split_text text) as [|c cs] eqn:Hsplit;
      [left; right; right; reflexivity|].
    right. exists text. rewrite Hsplit.
    split; [reflexivity|]. split; [reflexivity|]. split; [exact Hblank | discriminate]. }
  destruct Hcases as [Hrejected | (text & Hsupported & Hextract & Hblank & Hchunks)].
  - destruct (process_file_rejected equipment_id equipment_oid tenant_id description file w
                Hrejected) as (outcome & l & Hrun & Houtcome).
    exists [], []. subst run. rewrite Hrun, !app_nil_r. fields.
    split; [reflexivity|]. split; [reflexivity|]. split; [reflexivity|].
    split; [cbn; lia|].
    intros d Hd. cbn [fst] in Hd. destruct Houtcome as [-> | (e & ->)]; discriminate Hd.
  - destruct (EquipmentFacts.process_file_run equipment_id equipment_oid tenant_id
                description file text w Hsupported Hextract Hblank Hchunks)
      as (stored & Hstored & _ & Hequipment & Hkept).
    fold run in Hstored, Hequipment, Hkept.
    destruct (Equipment.surviving 0 (Embeddings.split_text text)) as [|k kept].
    + destruct Hkept as (_ & _ & _ & Hsame).
      exists [stored], []. rewrite app_nil_r.
      repeat split; try assumption; cbn; lia.
    + destruct Hkept as (_ & _ & new & Hnew & _).
      exists [stored], new. repeat split; try assumption; cbn; lia.
Qed.

Lemma process_files_appends (equipment_id : string) (equipment_oid : Z)
  (tenant_id : Bson.value float64) (description : option string)
  (files : list Equipment.UploadFile) (created_docs : list document) (w : world) :
  let run := Equipment.process_files equipment_id equipment_oid tenant_id description
                                     files created_docs w in
  exists entries docs chunks,
    fst run = Py.Ok (created_docs ++ entries)
    /\ equipment (snd run) = equipment w
    /\ documents_metadata (snd run) = documents_metadata w ++ docs
    /\ document_chunks (snd run) = document_chunks w ++ chunks
    /\ (length entries <= length docs <= length files)%nat.
Proof.
  revert created_docs w.
  induction files as [|file rest IH]; intros created_docs w run; subst run.
  - exists [], [], []. rewrite !app_nil_r. cbn. repeat split; lia.
  - destruct (process_file_appends equipment_id equipment_oid tenant_id description file w)
      as (docs & chunks & Hequipment & Hdocs & Hchunks & Hone & Hentry).
    cbn [Equipment.process_files]. run.
    destruct (Equipment.process_file equipment_id equipment_oid tenant_id description file w)
      as [[[entry|]|e] w1]; cbn [fst snd] in *; run.
    + destruct (IH (created_docs ++ [entry]) w1)
        as (entries & docs' & chunks' & Hrun & Hequipment' & Hdocs' & Hchunks' & Hcount).
      exists (entry :: entries), (docs ++ docs'), (chunks ++ chunks').
      rewrite Hrun, Hequipment', Hdocs', Hchunks', Hequipment, Hdocs, Hchunks.
      rewrite <- !app_assoc. repeat split; try reflexivity;
        rewrite ?length_app; cbn [length]; pose proof (Hentry entry eq_refl); lia.
    + destruct (IH created_docs w1)
        as (entries & docs' & chunks' & Hrun & Hequipment' & Hdocs' & Hchunks' & Hcount).
      exists entries, (docs ++ docs'), (chunks ++ chunks').
      rewrite Hrun, Hequipment', Hdocs', Hchunks', Hequipment, Hdocs, Hchunks.
      rewrite <- !app_assoc. repeat split; try reflexivity;
        rewrite ?length_app; cbn [length]; lia.
    + match goal with
      | |- context [Equipment.process_files _ _ _ _ rest created_docs ?w2] =>
        destruct (IH created_docs w2)
          as (entries & docs' & chunks' & Hrun & Hequipment' & Hdocs' & Hchunks' & Hcount)
      end.
      revert Hequipment' Hdocs' Hchunks'. fields. intros Hequipment' Hdocs' Hchunks'.
      exists entries, (docs ++ docs'), (chunks ++ chunks').
      rewrite Hrun, Hequipment', Hdocs', Hchunks', Hequipment, Hdocs, Hchunks.
      rewrite <- !app_assoc. repeat split; try reflexivity;
        rewrite ?length_app; cbn [length]; lia.
Qed.

(** X9. An upload to an equipment that exists is answered with a list of
    entries and their number whatever the files are: no file makes the
    request fail. The handler only appends to the two collections: the
    records that were there stay as they were, no equipment changes, and the
    documents added are at least as many as the entries returned and at most
    as many as the files. *)
Theorem upload_only_appends (equipment_id : string) (oid : Z) (e : document)
  (files : list Equipment.UploadFile) (description : option string) (w : world) :
  Bson.ObjectId equipment_id = Py.Ok oid ->
  Bson.find_one (Equipment.by_id oid) (equipment w) = Some e ->
  let run := Equipment.upload_equipment_documents equipment_id files description w in
  exists entries docs chunks,
    fst run = Py.Ok (Equipment.Documents entries (Z.of_nat (length entries)))
    /\ equipment (snd run) = equipment w
    /\ documents_metadata (snd run) = documents_metadata w ++ docs
    /\ document_chunks (snd run) = document_chunks w ++ chunks
    /\ (length entries <= length docs <= length files)%nat.
Proof.
  intros Hid Hfound run. subst run.
  unfold Equipment.upload_equipment_documents. rewrite Hid. run. rewrite Hfound.
  cbv zeta. run.
  match goal with
  | |- context [Equipment.process_files ?a ?b ?t ?d files [] w] =>
    destruct (process_files_appends a b t d files [] w)
      as (entries & docs & chunks & Hrun & Hequipment & Hdocs & Hchunks & Hcount);
    destruct (Equipment.process_files a b t d files [] w) as [outcome w1]
  end.
  cbn [fst snd app] in *. subst outcome. run.
  exists entries, docs, chunks. repeat split; try assumption; lia.
Qed.

(** X10. An upload that names no stored equipment is answered 404 before
    any file is looked at, and changes nothing. *)
Theorem upload_to_unknown_equipment (equipment_id : string) (oid : Z)
  (files : list Equipment.UploadFile) (description : option string) (w : world) :
  Bson.ObjectId equipment_id = Py.Ok oid ->
  Bson.find_one (Equipment.by_id oid) (equipment w) = None ->
  Equipment.upload_equipment_documents equipment_id files description w
  = (Py.Raise (Py.HTTPException 404 "Equipment not found"), w).
Proof.
  intros Hid Hnone. unfold Equipment.upload_equipment_documents. rewrite Hid. run.
  rewrite Hnone. run. reflexivity.
Qed.

End Facts.
End UploadFacts.

Lemma rejected_file_stores_nothing_witness :
  let run := Equipment.process_files pump_id pump_oid (Bson.Scalar (Bson.Str "acme")) None
                                     [scan] [] yard in
  Equipment.is_supported "image/png" "scan.png" = false
  /\ fst run = Py.Ok []
  /\ Runtime.documents_metadata (snd run) = Runtime.documents_metadata yard
  /\ Runtime.document_chunks (snd run) = Runtime.document_chunks yard
  /\ Runtime.equipment (snd run) = Runtime.equipment yard
  /\ Runtime.uuids_drawn (snd run) = Runtime.uuids_drawn yard
  /\ Runtime.clock_reads (snd run) = Runtime.clock_reads yard.
Proof.
  intros run. split; [reflexivity|].
  apply (UploadFacts.rejected_file_stores_nothing pump_id pump_oid
           (Bson.Scalar (Bson.Str "acme")) None scan [] yard).
  left. reflexivity.
Defined.

Lemma upload_only_appends_witness :
  Bson.ObjectId pump_id = Py.Ok pump_oid
  /\ Bson.find_one (Equipment.by_id pump_oid) (Runtime.equipment yard) = Some pump
  /\ let run := Equipment.upload_equipment_documents pump_id [leaflet; scan; bars; notes]
                                                     None yard in
     exists entries docs chunks,
       fst run = Py.Ok (Equipment.Documents entries (Z.of_nat (length entries)))
       /\ Runtime.equipment (snd run) = Runtime.equipment yard
       /\ Runtime.documents_metadata (snd run) = Runtime.documents_metadata yard ++ docs
       /\ Runtime.document_chunks (snd run) = Runtime.document_chunks yard ++ chunks
       /\ (length entries <= length docs <= length [leaflet; scan; bars; notes])%nat.
Proof.
  split; [reflexivity|]. split; [vm_compute; reflexivity|].
  refine (UploadFacts.upload_only_appends pump_id pump_oid pump
            [leaflet; scan; bars; notes] None yard _ _);
    vm_compute; reflexivity.
Defined.

Lemma upload_to_unknown_equipment_witness :
  Bson.ObjectId lathe_id = Py.Ok lathe_oid
  /\ Bson.find_one (Equipment.by_id lathe_oid) (Runtime.equipment yard) = None
  /\ Equipment.upload_equipment_documents lathe_id [leaflet] None yard
     = (Py.Raise (Py.HTTPException 404 "Equipment not found"), yard).
Proof.
  split; [reflexivity|]. split; [vm_compute; reflexivity|].
  apply (UploadFacts.upload_to_unknown_equipment lathe_id lathe_oid [leaflet] None yard);
    vm_compute; reflexivity.
Defined.

(** Of four files sent to the pump, two come back as entries, three leave a
    document record, and the chunks added are those of the two. *)
Example upload_in_the_yard :
  let run := Equipment.upload_equipment_documents pump_id [leaflet; scan; bars; notes]
                                                  None yard in
  match fst run with
  | Py.Ok (Equipment.Documents entries count) => Some (length entries, count)
  | _ => None
  end = Some (2%nat, 2)
  /\ map (fun d : Bson.document Z => (d !! "file_name", d !! "embedding_status"))
         (skipn 3 (Runtime.documents_metadata (snd run)))
     = [ (Some (Equipment.str "leaflet.txt"), Some (Equipment.str "completed"));
         (Some (Equipment.str "bars.txt"), Some (Equipment.str "failed"));
         (Some (Equipment.str "notes.txt"), Some (Equipment.str "completed")) ]
  /\ map (fun d : Bson.document Z => (d !! "file_name", d !! "chunk_index"))
         (skipn 3 (Runtime.document_chunks (snd run)))
     = [ (Some (Equipment.str "leaflet.txt"), Some (Bson.Scalar (Bson.Int 0)));
         (Some (Equipment.str "notes.txt"), Some (Bson.Scalar (Bson.Int 0)));
         (Some (Equipment.str "notes.txt"), Some (Bson.Scalar (Bson.Int 2))) ].
Proof. vm_compute. repeat split; reflexivity. Qed.

(** ** Listings *)

Module ListingFacts.
Import Runtime.

Section Facts.
Context {float64 RandomState : Type}.
#[local] Abbreviation world := (Runtime.world float64 RandomState).
#[local] Abbreviation document := (Bson.document float64).

Lemma insert_desc_permutation (field : string) (d : document) (sorted : list document) :
  Permutation (Bson.insert_desc field d sorted) (d :: sorted).
Proof.
  induction sorted as [|x rest IH]; cbn [Bson.insert_desc]; [reflexivity|].
  destruct (Bson.sort_key field x <=? Bson.sort_key field d); [reflexivity|].
  rewrite IH. apply perm_swap.
Qed.

Lemma sort_desc_permutation (field : string) (docs : list document) :
  Permutation (Bson.sort_desc field docs) docs.
Proof.
  unfold Bson.sort_desc. induction docs as [|d rest IH]; cbn [fold_right]; [reflexivity|].
  rewrite insert_desc_permutation, IH. reflexivity.
Qed.

Lemma insert_desc_sorted (field : string) (d : document) (sorted : list document) :
  StronglySorted (fun a b => Bson.sort_key field b <= Bson.sort_key field a) sorted ->
  StronglySorted (fun a b => Bson.sort_key field b <= Bson.sort_key field a)
                 (Bson.insert_desc field d sorted).
Proof.
  induction sorted as [|x rest IH]; intros Hsorted; cbn [Bson.insert_desc].
  - constructor; constructor.
  - apply StronglySorted_inv in Hsorted as [Hrest Hx].
    destruct (Bson.sort_key field x <=? Bson.sort_key field d) eqn:Hle.
    + apply Z.leb_le in Hle. constructor.
      * constructor; assumption.
      * constructor; [exact Hle|].
        eapply Forall_impl; [exact Hx|]. cbn. intros y Hy. lia.
    + apply Z.leb_gt in Hle. constructor; [exact (IH Hrest)|].
      apply Forall_forall. intros y Hy.
      apply list_elem_of_In, BsonFacts.in_insert_desc in Hy.
      destruct Hy as [-> | Hy]; [lia|].
      rewrite Forall_forall in Hx. apply Hx, list_elem_of_In, Hy.
Qed.

Lemma sort_desc_sorted (field : string) (docs : list document) :
  StronglySorted (fun a b => Bson.sort_key field b <= Bson.sort_key field a)
                 (Bson.sort_desc field docs).
Proof.
  unfold Bson.sort_desc. induction docs as [|d rest IH]; cbn [fold_right]; [constructor|].
  apply insert_desc_sorted, IH.
Qed.

(** X11. The listing that is served returns, for an equipment that exists,
    every document record of that equipment once and no other record, the
    later [created_at] first and a record without a date after all the dated
    ones, each with identifiers and dates as strings; the count is their
    number, and the request changes nothing. *)
Theorem listing_is_complete_and_newest_first (equipment_id : string) (oid : Z)
  (e : document) (w : world) :
  Bson.ObjectId equipment_id = Py.Ok oid ->
  Bson.find_one (Equipment.by_id oid) (equipment w) = Some e ->
  exists docs,
    Equipment.list_equipment_documents equipment_id w
    = (Py.Ok (Equipment.Documents (map Equipment.normalize docs) (Z.of_nat (length docs))), w)
    /\ Permutation docs (Bson.find (Equipment.of_equipment oid) (documents_metadata w))
    /\ (forall d, In d docs
                  <-> In d (documents_metadata w)
                      /\ d !! "equipment_id" = Some (Bson.Scalar (Bson.Oid oid)))
    /\ StronglySorted (fun a b => Bson.sort_key "created_at" b <= Bson.sort_key "created_at" a)
                      docs.
Proof.
  intros Hid Hfound.
  exists (Bson.sort_desc "created_at"
            (Bson.find (Equipment.of_equipment oid) (documents_metadata w))).
  split; [|split; [apply sort_desc_permutation | split; [|apply sort_desc_sorted]]].
  - unfold Equipment.list_equipment_documents. rewrite Hid. run. rewrite Hfound. run.
    rewrite length_map. reflexivity.
  - intros d. rewrite BsonFacts.in_sort_desc, BsonFacts.in_find,
      CascadeFacts.matches_of_equipment. reflexivity.
Qed.

Lemma second_filter_scope (oid : Z) :
  (<["is_disabled" := Bson.Ne (Bson.Bool true)]> (Equipment.of_equipment oid))
    !! "equipment_id"
  = Some (Bson.Eq (Bson.Oid oid)).
Proof.
  unfold Equipment.of_equipment. rewrite lookup_insert_ne by discriminate.
  apply lookup_singleton_eq.
Qed.

(** X12. The listing handler registered second returns at most 1000
    records, all of them records of the equipment asked for that are not
    disabled; when no more than 1000 records are stored it returns every
    such record. It changes nothing. *)
Theorem second_listing_is_capped (equipment_id : string) (oid : Z) (e : document)
  (w : world) :
  Bson.ObjectId equipment_id = Py.Ok oid ->
  Bson.find_one (Equipment.by_id oid) (equipment w) = Some e ->
  exists docs,
    Equipment.list_equipment_documents' equipment_id w
    = (Py.Ok (Equipment.Documents (map Equipment.normalize docs) (Z.of_nat (length docs))), w)
    /\ (length docs <= 1000)%nat
    /\ (forall d, In d docs ->
                  In d (documents_metadata w)
                  /\ d !! "equipment_id" = Some (Bson.Scalar (Bson.Oid oid))
                  /\ d !! "is_disabled" <> Some (Bson.Scalar (Bson.Bool true)))
    /\ ((length (documents_metadata w) <= 1000)%nat ->
        forall d, In d (documents_metadata w) ->
                  d !! "equipment_id" = Some (Bson.Scalar (Bson.Oid oid)) ->
                  d !! "is_disabled" <> Some (Bson.Scalar (Bson.Bool true)) ->
                  In d docs).
Proof.
  intros Hid Hfound. eexists. split; [|split; [|split]].
  - unfold Equipment.list_equipment_documents'. rewrite Hid. run. rewrite Hfound. run.
    rewrite length_map. reflexivity.
  - rewrite length_firstn. apply Nat.le_min_l.
  - intros d Hd. apply HttpFacts.in_firstn, BsonFacts.in_find in Hd.
    destruct Hd as [Hstored Hmatch]. split; [exact Hstored|]. split.
    + apply (ScopeFacts.eq_entry_holds (Bson.Oid oid) d "equipment_id" _
               ltac:(discriminate) (second_filter_scope oid) Hmatch).
    + assert (Hflag : Bson.holds (Bson.Ne (Bson.Bool true)) (d !! "is_disabled") = true).
      { apply (RagFacts.matches_entry _ d "is_disabled" _ Hmatch). apply lookup_insert_eq. }
      exact (RagFacts.not_disabled_holds _ Hflag).
  - intros Hsmall d Hstored Hequipment Henabled.
    rewrite firstn_all2.
    + apply BsonFacts.in_find. split; [exact Hstored|].
      unfold Bson.matches. apply forallb_forall. intros [key c] Hentry.
      apply list_elem_of_In, elem_of_map_to_list in Hentry. cbn [fst snd].
      unfold Equipment.of_equipment in Hentry.
      apply lookup_insert_Some in Hentry as [[<- <-] | [_ Hentry]].
      * cbn [Bson.holds]. apply negb_true_iff.
        destruct (Bson.equals _ _) eqn:Heq; [|reflexivity].
        apply BsonFacts.equals_true in Heq.
        destruct Heq as [Hflag | [_ Hnull]]; [contradiction | discriminate Hnull].
      * apply lookup_singleton_Some in Hentry as [<- <-].
        cbn [Bson.holds]. rewrite Hequipment. apply BsonFacts.equals_same.
    + unfold Bson.find. etransitivity; [apply filter_length_le | exact Hsmall].
Qed.

End Facts.
End ListingFacts.

Lemma listing_is_complete_and_newest_first_witness :
  Bson.ObjectId pump_id = Py.Ok pump_oid
  /\ Bson.find_one (Equipment.by_id pump_oid) (Runtime.equipment yard) = Some pump
  /\ exists docs,
       Equipment.list_equipment_documents pump_id yard
       = (Py.Ok (Equipment.Documents (map Equipment.normalize docs)
                                     (Z.of_nat (length docs))), yard)
       /\ Permutation docs (Bson.find (Equipment.of_equipment pump_oid)
                                      (Runtime.documents_metadata yard))
       /\ (forall d, In d docs
                     <-> In d (Runtime.documents_metadata yard)
                         /\ d !! "equipment_id" = Some (Bson.Scalar (Bson.Oid pump_oid)))
       /\ StronglySorted
            (fun a b => Bson.sort_key "created_at" b <= Bson.sort_key "created_at" a) docs.
Proof.
  split; [reflexivity|]. split; [vm_compute; reflexivity|].
  refine (ListingFacts.listing_is_complete_and_newest_first pump_id pump_oid pump yard _ _);
    vm_compute; reflexivity.
Defined.

Lemma second_listing_is_capped_witness :
  Bson.ObjectId pump_id = Py.Ok pump_oid
  /\ Bson.find_one (Equipment.by_id pump_oid) (Runtime.equipment yard) = Some pump
  /\ exists docs,
       Equipment.list_equipment_documents' pump_id yard
       = (Py.Ok (Equipment.Documents (map Equipment.normalize docs)
                                     (Z.of_nat (length docs))), yard)
       /\ (length docs <= 1000)%nat
       /\ (forall d, In d docs ->
                     In d (Runtime.documents_metadata yard)
                     /\ d !! "equipment_id" = Some (Bson.Scalar (Bson.Oid pump_oid))
                     /\ d !! "is_disabled" <> Some (Bson.Scalar (Bson.Bool true)))
       /\ ((length (Runtime.documents_metadata yard) <= 1000)%nat ->
           forall d, In d (Runtime.documents_metadata yard) ->
                     d !! "equipment_id" = Some (Bson.Scalar (Bson.Oid pump_oid)) ->
                     d !! "is_disabled" <> Some (Bson.Scalar (Bson.Bool true)) ->
                     In d docs).
Proof.
  split; [reflexivity|]. split; [vm_compute; reflexivity|].
  refine (ListingFacts.second_listing_is_capped pump_id pump_oid pump yard _ _);
    vm_compute; reflexivity.
Defined.

(** The two listings of the pump of the yard: the one that is served names
    the withdrawn document first, the other one leaves it out. *)
Example listings_in_the_yard :
  let names (run : Py.result (Equipment.body Z) * Runtime.world Z Z) :=
    match fst run with
    | Py.Ok (Equipment.Documents docs _) =>
      Some (map (fun d : Bson.document Z => d !! "file_name") docs)
    | _ => None
    end in
  names (Equipment.list_equipment_documents pump_id yard)
  = Some [Some (Equipment.str "withdrawn.txt"); Some (Equipment.str "manual.txt")]
  /\ names (Equipment.list_equipment_documents' pump_id yard)
     = Some [Some (Equipment.str "manual.txt")].
Proof. vm_compute. split; reflexivity. Qed.

(** ** Creating an equipment *)

Module CreationFacts.
Import Runtime.

Section Facts.
Context {float64 RandomState : Type}.
#[local] Abbreviation world := (Runtime.world float64 RandomState).
#[local] Abbreviation document := (Bson.document float64).

Lemma find_one_none (f : gmap string Bson.cond) (coll : list document) :
  Bson.find_one f coll = None <-> forall d, In d coll -> Bson.matches f d = false.
Proof.
  unfold Bson.find_one, Bson.find.
  induction coll as [|x rest IH]; cbn [List.filter].
  - split; [intros _ d [] | reflexivity].
  - destruct (Bson.matches f x) eqn:Hx; cbn [head].
    + split; [discriminate|]. intros Hall. rewrite (Hall x) in Hx by (left; reflexivity).
      discriminate Hx.
    + rewrite IH. split.
      * intros Hall d [<- | Hd]; [exact Hx | exact (Hall d Hd)].
      * intros Hall d Hd. apply Hall. right. exact Hd.
Qed.

Lemma find_one_found (f : gmap string Bson.cond) (e : document) (coll : list document) :
  Bson.find_one f coll = Some e -> In e coll /\ Bson.matches f e = true.
Proof.
  unfold Bson.find_one. intros Hhead. apply BsonFacts.in_find.
  destruct (Bson.find f coll) as [|x rest]; [discriminate Hhead|].
  injection Hhead as ->. left. reflexivity.
Qed.

(** The duplicate check matches the records with this name and tenant. *)
Lemma matches_same_name (e : EquipmentModel.t) (d : document) :
  Bson.matches (EquipmentRoot.same_name e) d = true
  <-> d !! "name" = Some (Equipment.str (EquipmentModel.name e))
      /\ d !! "tenant_id" = Some (Equipment.str (EquipmentModel.tenant_id e)).
Proof.
  unfold EquipmentRoot.same_name. split.
  - intros Hmatch. split.
    + apply (ScopeFacts.eq_entry_holds (Bson.Str (EquipmentModel.name e)) d "name" _
               ltac:(discriminate) (lookup_insert_eq _ _ _) Hmatch).
    + refine (ScopeFacts.eq_entry_holds (Bson.Str (EquipmentModel.tenant_id e)) d "tenant_id" _
                ltac:(discriminate) _ Hmatch).
      rewrite lookup_insert_ne by discriminate. apply lookup_singleton_eq.
  - intros [Hname Htenant].
    unfold Bson.matches. apply forallb_forall. intros [key c] Hentry.
    apply list_elem_of_In, elem_of_map_to_list in Hentry. cbn [fst snd].
    apply lookup_insert_Some in Hentry as [[<- <-] | [_ Hentry]].
    + cbn [Bson.holds]. rewrite Hname. apply BsonFacts.equals_same.
    + apply lookup_singleton_Some in Hentry as [<- <-].
      cbn [Bson.holds]. rewrite Htenant. apply BsonFacts.equals_same.
Qed.

Lemma model_dump_name (e : EquipmentModel.t) :
  EquipmentRoot.model_dump (float64 := float64) e !! "name"
  = Some (Equipment.str (EquipmentModel.name e))
  /\ EquipmentRoot.model_dump (float64 := float64) e !! "tenant_id"
     = Some (Equipment.str (EquipmentModel.tenant_id e)).
Proof.
  destruct e as [name [description|] tenant_id is_active [created_at|] [updated_at|]];
    split; reflexivity.
Qed.

(** What a creation that passes the duplicate check does. *)
Lemma create_equipment_run (e : EquipmentModel.t) (w : world) :
  Bson.find_one (EquipmentRoot.same_name e) (equipment w) = None ->
  exists stored,
    EquipmentRoot.create_equipment e w
    = (Py.Ok (<["_id" := Equipment.str (Bson.oid_str (Bson.fresh_id (equipment w)))]>
                (EquipmentRoot.model_dump e)),
       set_equipment (equipment w ++ [stored]) (set_clock_reads (S (clock_reads w)) w))
    /\ stored !! "_id" = Some (Bson.Scalar (Bson.Oid (Bson.fresh_id (equipment w))))
    /\ stored !! "name" = Some (Equipment.str (EquipmentModel.name e))
    /\ stored !! "tenant_id" = Some (Equipment.str (EquipmentModel.tenant_id e))
    /\ stored !! "created_at" = Some (Bson.Scalar (Bson.Date (clock w (clock_reads w))))
    /\ stored !! "updated_at" = stored !! "created_at".
Proof.
  intros Hnone. destruct (model_dump_name e) as [Hname Htenant].
  unfold EquipmentRoot.create_equipment. run. rewrite Hnone. run.
  unfold Bson.insert_one. cbv beta iota zeta. run.
  eexists. split; [reflexivity|].
  rewrite lookup_insert_eq.
  rewrite !(lookup_insert_ne _ "_id") by discriminate.
  rewrite !(lookup_insert_ne _ "updated_at" "name"),
          !(lookup_insert_ne _ "updated_at" "tenant_id"),
          !(lookup_insert_ne _ "updated_at" "created_at") by discriminate.
  rewrite !(lookup_insert_ne _ "created_at" "name"),
          !(lookup_insert_ne _ "created_at" "tenant_id") by discriminate.
  rewrite !lookup_insert_eq.
  repeat split; try assumption; reflexivity.
Qed.

(** X13. [create_equipment] answers 409 exactly when an equipment with the
    same name is stored for the same tenant, and then changes nothing; the
    same name under another tenant is no conflict. *)
Theorem create_equipment_conflict_iff (e : EquipmentModel.t) (w : world) :
  (exists d, In d (equipment w)
             /\ d !! "name" = Some (Equipment.str (EquipmentModel.name e))
             /\ d !! "tenant_id" = Some (Equipment.str (EquipmentModel.tenant_id e)))
  <-> EquipmentRoot.create_equipment e w
      = (Py.Raise (Py.HTTPException 409 "Equipment with this name already exists"), w).
Proof.
  destruct (Bson.find_one (EquipmentRoot.same_name e) (equipment w)) as [d|] eqn:Hfound.
  - split.
    + intros _. unfold EquipmentRoot.create_equipment. run. rewrite Hfound. run. reflexivity.
    + intros _. apply find_one_found in Hfound as [Hin Hmatch].
      exists d. split; [exact Hin|]. apply matches_same_name. exact Hmatch.
  - split.
    + intros (d & Hin & Hname & Htenant).
      rewrite find_one_none in Hfound. specialize (Hfound d Hin).
      rewrite (proj2 (matches_same_name e d) (conj Hname Htenant)) in Hfound.
      discriminate Hfound.
    + destruct (create_equipment_run e w Hfound) as (stored & -> & _).
      intros Hrun. discriminate Hrun.
Qed.

(** X14. [create_equipment] keeps the names of a tenant distinct: if no two
    stored equipments agree on name and tenant before the call, none do
    after it, whether the call succeeds or not. *)
Theorem create_equipment_keeps_names_unique (e : EquipmentModel.t) (w : world) :
  NoDup (map (fun d : document => (d !! "name", d !! "tenant_id")) (equipment w)) ->
  NoDup (map (fun d : document => (d !! "name", d !! "tenant_id"))
             (equipment (snd (EquipmentRoot.create_equipment e w)))).
Proof.
  intros Hunique.
  destruct (Bson.find_one (EquipmentRoot.same_name e) (equipment w)) as [d|] eqn:Hfound.
  - unfold EquipmentRoot.create_equipment. run. rewrite Hfound. run. exact Hunique.
  - destruct (create_equipment_run e w Hfound)
      as (stored & -> & _ & Hname & Htenant & _).
    fields. rewrite map_app. cbn [map]. rewrite Hname, Htenant.
    apply NoDup_app. split; [exact Hunique|]. split; [|apply NoDup_singleton].
    intros key Hkey Hnew. apply list_elem_of_In in Hkey.
    apply list_elem_of_singleton in Hnew. subst key.
    apply in_map_iff in Hkey as (d & [= Hdname Hdtenant] & Hin).
    rewrite find_one_none in Hfound. specialize (Hfound d Hin).
    rewrite (proj2 (matches_same_name e d) (conj Hdname Hdtenant)) in Hfound.
    discriminate Hfound.
Qed.

Lemma fresh_id_positive (coll : list document) : 0 < Bson.fresh_id coll.
Proof.
  unfold Bson.fresh_id.
  assert (0 <= fold_right Z.max 0 (map Bson.id_of coll)); [|lia].
  induction coll as [|d rest IH]; cbn [map fold_right]; lia.
Qed.

Lemma hex_digit_not_space (d : Z) :
  0 <= d < 16 -> Py.ascii_space (Py.hex_digit d) = false.
Proof.
  intros Hd.
  assert (Hcases : d = 0 \/ d = 1 \/ d = 2 \/ d = 3 \/ d = 4 \/ d = 5 \/ d = 6 \/ d = 7
                   \/ d = 8 \/ d = 9 \/ d = 10 \/ d = 11 \/ d = 12 \/ d = 13 \/ d = 14
                   \/ d = 15) by lia.
  repeat (destruct Hcases as [-> | Hcases]; [reflexivity|]). subst d. reflexivity.
Qed.

(** Two digits spell one byte. *)
Lemma fromhex_from_byte (b : Z) (rest : string) :
  0 <= b < 256 ->
  Py.fromhex_from None (String (Py.hex_digit (b / 16)) (String (Py.hex_digit (b mod 16)) rest))
  = cons b <$> Py.fromhex_from None rest.
Proof.
  intros Hb.
  assert (Htop : 0 <= b / 16 < 16) by (split; [apply Z.div_pos | apply Z.div_lt_upper_bound]; lia).
  assert (Hbot : 0 <= b mod 16 < 16) by (apply Z.mod_pos_bound; lia).
  cbn [Py.fromhex_from].
  rewrite (hex_digit_not_space _ Htop), (PyFacts.hex_value_digit _ Htop).
  rewrite (PyFacts.hex_value_digit _ Hbot).
  replace (b / 16 * 16 + b mod 16) with b by (rewrite (Z.div_mod b 16) at 1; lia).
  reflexivity.
Qed.

Lemma append_assoc (a b c : string) : (a +:+ b) +:+ c = a +:+ (b +:+ c).
Proof.
  induction a as [|x a IH]; [reflexivity|].
  change (String x ((a +:+ b) +:+ c) = String x (a +:+ (b +:+ c))). now rewrite IH.
Qed.

Lemma append_nil_r (a : string) : a +:+ "" = a.
Proof.
  induction a as [|x a IH]; [reflexivity|].
  change (String x (a +:+ "") = String x a). now rewrite IH.
Qed.

(** [fromhex] reads back the bytes [hex] wrote. *)
Lemma fromhex_hex (k : nat) (v : Z) :
  exists binary,
    length binary = k
    /\ (forall acc, fold_left (fun acc b => acc * 256 + b) binary acc
                    = acc * 256 ^ Z.of_nat k + v mod 256 ^ Z.of_nat k)
    /\ forall rest, Py.fromhex_from None (Py.hex (2 * k) v +:+ rest)
                    = app binary <$> Py.fromhex_from None rest.
Proof.
  revert v. induction k as [|k IH]; intros v.
  - exists []. split; [reflexivity|]. split.
    + intros acc. cbn [fold_left]. rewrite Z.mod_1_r. cbn. lia.
    + intros rest. change (Py.hex (2 * 0) v +:+ rest) with rest.
      destruct (Py.fromhex_from None rest); reflexivity.
  - destruct (IH (v / 256)) as (binary & Hlength & Hvalue & Hread).
    exists (binary ++ [v mod 256]). split; [rewrite length_app, Hlength; cbn; lia|]. split.
    + intros acc. rewrite fold_left_app. cbn [fold_left]. rewrite Hvalue.
      rewrite Nat2Z.inj_succ, Z.pow_succ_r by lia.
      rewrite (Z.rem_mul_r v 256 (256 ^ Z.of_nat k)) by lia. lia.
    + intros rest.
      replace (2 * S k)%nat with (S (S (2 * k))) by lia.
      cbn [Py.hex]. rewrite !append_assoc.
      replace (v / 16 / 16) with (v / 256) by (Z.to_euclidean_division_equations; lia).
      rewrite Hread.
      change (String (Py.hex_digit (v / 16 mod 16)) "" +:+ (String (Py.hex_digit (v mod 16)) "" +:+ rest))
        with (String (Py.hex_digit (v / 16 mod 16)) (String (Py.hex_digit (v mod 16)) rest)).
      replace (v / 16 mod 16) with (v mod 256 / 16)
        by (Z.to_euclidean_division_equations; lia).
      replace (v mod 16) with (v mod 256 mod 16)
        by (Z.to_euclidean_division_equations; lia).
      rewrite fromhex_from_byte by (apply Z.mod_pos_bound; lia).
      destruct (Py.fromhex_from None rest) as [bytes|]; cbn; [|reflexivity].
      rewrite <- app_assoc. reflexivity.
Qed.

Lemma ObjectId_oid_str (id : Z) :
  0 <= id < 16 ^ 24 -> Bson.ObjectId (Bson.oid_str id) = Py.Ok id.
Proof.
  intros Hid.
  assert (Hpow : 2 ^ 96 = 16 ^ 24) by reflexivity.
  assert (Hbytes : 256 ^ Z.of_nat 12 = 16 ^ 24) by reflexivity.
  unfold Bson.oid_str.
  replace (2 ^ 96 <=? id) with false by (symmetry; apply Z.leb_gt; lia).
  cbn [andb]. unfold Bson.ObjectId. rewrite PyFacts.length_hex. cbn [Nat.eqb].
  destruct (fromhex_hex 12 id) as (binary & Hlength & Hvalue & Hread).
  specialize (Hread ""). cbn [Py.fromhex_from fmap option_fmap option_map] in Hread.
  unfold Py.fromhex.
  replace (Py.hex 24 id) with (Py.hex (2 * 12) id +:+ "") by apply append_nil_r.
  rewrite Hread, app_nil_r. unfold Bson.of_binary.
  rewrite Hlength, Hvalue, Hbytes, Z.mod_small by exact Hid.
  f_equal; lia.
Qed.

Lemma find_one_inserted (d : document) (coll : list document) :
  Bson.find_one (Equipment.by_id (Bson.fresh_id coll)) (coll ++ [d]) = Some d <->
  d !! "_id" = Some (Bson.Scalar (Bson.Oid (Bson.fresh_id coll))).
Proof.
  assert (Hothers : forall x, In x coll ->
            Bson.matches (Equipment.by_id (Bson.fresh_id coll)) x = false)
    by (intros x Hx; apply BsonFacts.fresh_id_unmatched; exact Hx).
  revert Hothers. generalize (Bson.fresh_id coll) as id. intros id Hothers.
  unfold Bson.find_one, Bson.find. rewrite List.filter_app.
  replace (List.filter (Bson.matches (Equipment.by_id id)) coll) with (@nil document).
  - cbn [app List.filter]. unfold Equipment.by_id at 1.
    rewrite BsonFacts.matches_singleton. cbn [Bson.holds]. split.
    + destruct (Bson.equals _ _) eqn:Heq; [|discriminate]. intros _.
      apply BsonFacts.equals_true in Heq.
      destruct Heq as [Hfield | [_ Hnull]]; [exact Hfield | discriminate Hnull].
    + intros ->. rewrite BsonFacts.equals_same. reflexivity.
  - symmetry. induction coll as [|x rest IH]; [reflexivity|].
    cbn [List.filter]. rewrite Hothers by (left; reflexivity).
    apply IH. intros y Hy. apply Hothers. right. exact Hy.
Qed.

(** X15. An equipment that was created can be fetched under the identifier
    the creation returned, as long as the collection's identifiers fit 24
    hexadecimal digits: the fetch finds it, with that identifier as a string
    and the name and tenant it was created with. *)
Theorem created_equipment_can_be_fetched (e : EquipmentModel.t) (w : world) :
  Bson.find_one (EquipmentRoot.same_name e) (equipment w) = None ->
  Bson.fresh_id (equipment w) < 16 ^ 24 ->
  exists id response fetched,
    fst (EquipmentRoot.create_equipment e w) = Py.Ok response
    /\ response !! "_id" = Some (Equipment.str id)
    /\ fst (Equipment.get_one_equipment id (snd (EquipmentRoot.create_equipment e w)))
       = Py.Ok (Equipment.One_equipment fetched)
    /\ fetched !! "_id" = Some (Equipment.str id)
    /\ fetched !! "name" = Some (Equipment.str (EquipmentModel.name e))
    /\ fetched !! "tenant_id" = Some (Equipment.str (EquipmentModel.tenant_id e)).
Proof.
  intros Hnone Hrange.
  destruct (create_equipment_run e w Hnone)
    as (stored & -> & Hid & Hname & Htenant & _).
  pose proof (fresh_id_positive (equipment w)) as Hpositive.
  exists (Bson.oid_str (Bson.fresh_id (equipment w))).
  eexists _, _. cbn [fst snd]. split; [reflexivity|].
  split; [apply lookup_insert_eq|].
  unfold Equipment.get_one_equipment.
  rewrite ObjectId_oid_str by lia. run.
  rewrite (proj2 (find_one_inserted stored (equipment w)) Hid). run.
  split; [reflexivity|].
  unfold Equipment.oid_to_str. rewrite Hid.
  rewrite lookup_insert_eq, !lookup_insert_ne by discriminate.
  repeat split; assumption.
Qed.

End Facts.
End CreationFacts.

Lemma create_equipment_keeps_names_unique_witness :
  NoDup (map (fun d : Bson.document Z => (d !! "name", d !! "tenant_id"))
             (Runtime.equipment yard))
  /\ NoDup (map (fun d : Bson.document Z => (d !! "name", d !! "tenant_id"))
                (Runtime.equipment (snd (EquipmentRoot.create_equipment valve yard)))).
Proof.
  assert (Hunique : NoDup (map (fun d : Bson.document Z => (d !! "name", d !! "tenant_id"))
                               (Runtime.equipment yard))).
  { vm_compute. constructor; [|constructor; [intros Hin; inversion Hin | constructor]].
    intros Hin. apply list_elem_of_singleton in Hin. discriminate Hin. }
  split; [exact Hunique|].
  exact (CreationFacts.create_equipment_keeps_names_unique valve yard Hunique).
Defined.

Lemma created_equipment_can_be_fetched_witness :
  Bson.find_one (EquipmentRoot.same_name valve) (Runtime.equipment yard) = None
  /\ Bson.fresh_id (Runtime.equipment yard) < 16 ^ 24
  /\ exists id response fetched,
       fst (EquipmentRoot.create_equipment valve yard) = Py.Ok response
       /\ response !! "_id" = Some (Equipment.str id)
       /\ fst (Equipment.get_one_equipment id (snd (EquipmentRoot.create_equipment valve yard)))
          = Py.Ok (Equipment.One_equipment fetched)
       /\ fetched !! "_id" = Some (Equipment.str id)
       /\ fetched !! "name" = Some (Equipment.str (EquipmentModel.name valve))
       /\ fetched !! "tenant_id" = Some (Equipment.str (EquipmentModel.tenant_id valve)).
Proof.
  split; [vm_compute; reflexivity|]. split; [vm_compute; reflexivity|].
  refine (CreationFacts.created_equipment_can_be_fetched valve yard _ _);
    vm_compute; reflexivity.
Defined.

(** In the yard a second pump of the same tenant is refused, and one of a
    third tenant is stored under a new identifier. *)
Example creation_in_the_yard :
  fst (EquipmentRoot.create_equipment second_pump yard)
  = Py.Raise (Py.HTTPException 409 "Equipment with this name already exists")
  /\ match EquipmentRoot.create_equipment initech_pump yard with
     | (Py.Ok response, w) =>
       Some (response !! "_id",
             map (fun d : Bson.document Z => d !! "tenant_id") (Runtime.equipment w))
     | _ => None
     end
     = Some (Some (Equipment.str "65a1b2c3d4e5f60718293a4d"),
             [ Some (Equipment.str "acme"); Some (Equipment.str "globex");
               Some (Equipment.str "initech") ]).
Proof. vm_compute. split; reflexivity. Qed.

(** ** The session: its tenant, its tool, its client key *)

Module SessionFacts.
Import Runtime.

Section Facts.
Context {float64 RandomState : Type} `{!Np.Numpy float64 RandomState}
        `{Embeddings.Text_splitter} `{!Atlas.Search_index float64}.
#[local] Abbreviation world := (Runtime.world float64 RandomState).
#[local] Abbreviation document := (Bson.document float64).

(** X17. Settling the tenant of a session never raises and writes to the log
    only. A tenant named in the request is taken as it is, without a look
    at the equipment, so it is not checked against the tenant the equipment
    belongs to. Without one, an equipment identifier that is malformed
    gives the configured tenant, and one that names a stored equipment with
    a tenant gives that tenant. *)
Theorem infer_tenant_never_raises (body : gmap string string) (w : world) :
  exists v l,
    Session.infer_tenant body w = (Py.Ok v, set_log l w)
    /\ (forall t, body !! "tenant_id" = Some t -> v = Equipment.str t /\ l = log w)
    /\ (body !! "tenant_id" = None ->
        (forall e, Bson.ObjectId (default "" (body !! "equipment_id")) = Py.Raise e ->
                   v = Equipment.str Settings.TENANT_ID)
        /\ (forall oid e t,
              Bson.ObjectId (default "" (body !! "equipment_id")) = Py.Ok oid ->
              Bson.find_one (Equipment.by_id oid) (equipment w) = Some e ->
              e !! "tenant_id" = Some t ->
              Bson.truthy t = true ->
              v = t)).
Proof.
  destruct w as [rng eq ? ? ? ? ? ? lg ? ? ? ? ?].
  unfold Session.infer_tenant.
  destruct (body !! "tenant_id") as [t|] eqn:Htenant.
  - rewrite bool_decide_eq_true_2 by (eexists; reflexivity).
    rewrite andb_false_r. run. eexists _, _. split; [reflexivity|].
    split; [intros t' [= <-]; split; reflexivity | discriminate].
  - rewrite bool_decide_eq_false_2 by (intros [t Ht]; discriminate Ht).
    cbn [negb]. rewrite andb_true_r. cbn [default].
    destruct (Py.truthy (default "" (body !! "equipment_id"))) eqn:Hid.
    + destruct (Bson.ObjectId (default "" (body !! "equipment_id"))) as [oid|e] eqn:Hoid; run.
      * destruct (Bson.find_one (Equipment.by_id oid) eq) as [e|] eqn:Hfound; run.
        -- destruct (e !! "tenant_id") as [t|] eqn:Ht; run;
             (eexists _, _; split; [reflexivity|]; split; [discriminate|]; intros _;
              split; [discriminate|]; intros oid' e' t' Hoid' Hfound' Ht' Htruthy;
              injection Hoid' as <-; rewrite Hfound in Hfound'; injection Hfound' as <-;
              rewrite Ht in Ht'; try discriminate Ht').
           injection Ht' as <-. rewrite Htruthy. reflexivity.
        -- eexists _, _. split; [reflexivity|]. split; [discriminate|]. intros _.
           split; [discriminate|]. intros oid' e' t' Hoid' Hfound'.
           injection Hoid' as <-. rewrite Hfound in Hfound'. discriminate Hfound'.
      * eexists _, _. split; [reflexivity|]. split; [discriminate|]. intros _.
        split; [reflexivity | discriminate].
    + run. eexists _, _. split; [reflexivity|]. split; [discriminate|]. intros _.
      split; [reflexivity|].
      intros oid e t Hoid. apply ScopeFacts.ObjectId_truthy in Hoid. congruence.
Qed.

(** X18. A call of the tool writes to no collection. What it hands to the
    conversation has at most five entries per result. It pushes at most one
    frame to the client, and when it pushes one, the frame lists the chunks
    of the one result handed over, identifier for identifier and text for
    text. *)
Theorem search_knowledge_base_frame_matches_answer (equipment_id tenant_id : string)
  (arguments : gmap string string) (w : world) :
  let run := Bot.search_knowledge_base equipment_id tenant_id arguments w in
  document_chunks (snd run) = document_chunks w
  /\ documents_metadata (snd run) = documents_metadata w
  /\ equipment (snd run) = equipment w
  /\ exists answers,
       delivered (snd run) = delivered w ++ answers
       /\ Forall (fun a => match a with
                           | Results entries => (length entries <= 5)%nat
                           end) answers
       /\ (frames (snd run) = frames w
           \/ exists chunks,
                frames (snd run)
                = frames w ++ [Server_message "search_knowledge_base" chunks]
                /\ answers = [Results (map (fun c => (fst (fst c), snd (fst c))) chunks)]).
Proof.
  intros run. subst run.
  set (query := default "" (arguments !! "query")).
  pose proof (BotFacts.retrieve_frame Settings.VECTOR_INDEX_NAME query 5 (Some equipment_id)
                (Some tenant_id) None w)
    as (Hdelivered & Hframes & Hpush & Hchunks & Hdocs & Hequipment & Hcallback).
  pose proof (RagFacts.retrieve_cases Settings.VECTOR_INDEX_NAME query 5 (Some equipment_id)
                (Some tenant_id) None w) as Hcases.
  unfold Bot.search_knowledge_base. fold query.
  cbv beta iota zeta delta [try_except bind].
  destruct (Rag.retrieve Settings.VECTOR_INDEX_NAME query 5 (Some equipment_id)
              (Some tenant_id) None w) as [[r|e] w1].
  - cbn [fst snd] in *.
    assert (Hfive : (length (RetrievalResult.data r) <= 5)%nat).
    { destruct Hcases as [(_ & Hraise & _) | [(_ & _ & Hraise & _)
          | (_ & _ & seed & f & w0 & l0 & _ & _ & _ & Hout)]];
        [discriminate Hraise | discriminate Hraise |].
      destruct (Atlas.aggregate _ _) as [found|e]; [|discriminate Hout].
      cbv zeta in Hout. injection Hout as ->.
      cbn [RetrievalResult.data]. rewrite length_map, length_firstn.
      change (Z.to_nat 5) with 5%nat. apply Nat.le_min_l. }
    cbv beta iota zeta delta [Bot.result_callback Bot.push_frame modify logger fst snd].
    destruct (callback_failure w) as [e|]; repeat (fields; rewrite Hcallback); fields.
    + split; [exact Hchunks|]. split; [exact Hdocs|]. split; [exact Hequipment|].
      exists []. rewrite app_nil_r. split; [exact Hdelivered|].
      split; [constructor | left; exact Hframes].
    + rewrite Hpush. destruct (push_failure w) as [e|];
        repeat (fields; rewrite Hcallback); fields.
      * split; [exact Hchunks|]. split; [exact Hdocs|]. split; [exact Hequipment|].
        eexists. rewrite Hdelivered, <- app_assoc. split; [reflexivity|]. split.
        -- constructor; [|constructor; [cbn; lia | constructor]].
           rewrite length_map, length_combine. lia.
        -- left. exact Hframes.
      * split; [exact Hchunks|]. split; [exact Hdocs|]. split; [exact Hequipment|].
        eexists. rewrite Hdelivered. split; [reflexivity|]. split.
        -- constructor; [|constructor]. rewrite length_map, length_combine. lia.
        -- right. eexists. rewrite Hframes. split; [reflexivity|].
           rewrite map_map. reflexivity.
  - cbn [fst snd] in *.
    cbv beta iota zeta delta [Bot.result_callback modify logger fst snd].
    destruct (callback_failure w) as [e0|]; repeat (fields; rewrite Hcallback); fields.
    + split; [exact Hchunks|]. split; [exact Hdocs|]. split; [exact Hequipment|].
      exists []. rewrite app_nil_r. split; [exact Hdelivered|].
      split; [constructor | left; exact Hframes].
    + split; [exact Hchunks|]. split; [exact Hdocs|]. split; [exact Hequipment|].
      exists [Results []]. rewrite Hdelivered. split; [reflexivity|]. split.
      * constructor; [cbn; lia | constructor].
      * left. exact Hframes.
Qed.

End Facts.

Lemma first_field_spec (header : string) :
  (forall c, In c (list_ascii_of_string (RateLimit.first_field header)) -> c <> ","%char)
  /\ (header = RateLimit.first_field header
      \/ exists rest, header = RateLimit.first_field header +:+ "," +:+ rest).
Proof.
  induction header as [|c rest [IHfree IHshape]]; cbn [RateLimit.first_field].
  - split; [intros c [] | left; reflexivity].
  - destruct (Ascii.eqb c ",") eqn:Hc.
    + apply Ascii.eqb_eq in Hc. subst c. split; [intros c [] |].
      right. exists rest. reflexivity.
    + apply Ascii.eqb_neq in Hc. split.
      * cbn [list_ascii_of_string]. intros c' [<- | Hin]; [exact Hc | exact (IHfree c' Hin)].
      * destruct IHshape as [Hsame | (rest' & Hrest)].
        -- left. f_equal. exact Hsame.
        -- right. exists rest'.
           change (String c rest
                   = String c (RateLimit.first_field rest +:+ "," +:+ rest')).
           f_equal. exact Hrest.
Qed.

(** X19. For a request that carries a non-empty [X-Forwarded-For] header,
    the key of the rate limit is the part of the header before its first
    comma, the whole header when it has none: it holds no comma, and is
    taken from the header alone, whatever address the request comes from. *)
Theorem client_identifier_is_first_forwarded (header remote_address : string) :
  Py.truthy header = true ->
  let key := RateLimit.get_client_identifier (Some header) remote_address in
  (forall c, In c (list_ascii_of_string key) -> c <> ","%char)
  /\ (header = key \/ exists rest, header = key +:+ "," +:+ rest).
Proof.
  intros Hheader key. subst key. unfold RateLimit.get_client_identifier. rewrite Hheader.
  apply first_field_spec.
Qed.

End SessionFacts.

Lemma client_identifier_is_first_forwarded_witness :
  Py.truthy "203.0.113.7, 10.0.0.1" = true
  /\ let key := RateLimit.get_client_identifier (Some "203.0.113.7, 10.0.0.1") "10.0.0.1" in
     (forall c, In c (list_ascii_of_string key) -> c <> ","%char)
     /\ ("203.0.113.7, 10.0.0.1" = key
         \/ exists rest, "203.0.113.7, 10.0.0.1" = key +:+ "," +:+ rest).
Proof.
  split; [reflexivity|].
  exact (SessionFacts.client_identifier_is_first_forwarded
           "203.0.113.7, 10.0.0.1" "10.0.0.1" eq_refl).
Defined.

(** Two requests from different addresses behind one proxy header share a
    key; a request without the header is keyed by its address. *)
Example client_keys :
  RateLimit.get_client_identifier (Some "203.0.113.7, 10.0.0.1") "10.0.0.1" = "203.0.113.7"
  /\ RateLimit.get_client_identifier (Some "203.0.113.7") "10.0.0.2" = "203.0.113.7"
  /\ RateLimit.get_client_identifier None "10.0.0.2" = "10.0.0.2"
  /\ RateLimit.get_client_identifier (Some "") "10.0.0.2" = "10.0.0.2".
Proof. repeat split; reflexivity. Qed.

(** Sessions in the yard: the tenant of the pump is inferred; a tenant named
    in the request stands, though the pump is of another tenant; an
    identifier that is no ObjectId gives the configured tenant and a
    warning. *)
Example tenants_in_the_yard :
  let tenant (body : list (string * string)) :=
    let run := Session.infer_tenant (list_to_map body) yard in
    (fst run, length (Runtime.log (snd run))) in
  tenant [("equipment_id", pump_id)] = (Py.Ok (Equipment.str "acme"), 0%nat)
  /\ tenant [("equipment_id", pump_id); ("tenant_id", "globex")]
     = (Py.Ok (Equipment.str "globex"), 0%nat)
  /\ tenant [("equipment_id", "pump-7")] = (Py.Ok (Equipment.str Settings.TENANT_ID), 1%nat)
  /\ tenant [] = (Py.Ok (Equipment.str Settings.TENANT_ID), 0%nat).
Proof. vm_compute. repeat split; reflexivity. Qed.

(** ** From ingestion to retrieval *)

Module PipelineFacts.
Import Runtime.

Section Facts.
Context {float64 RandomState : Type} `{!Np.Numpy float64 RandomState}
        `{Embeddings.Text_splitter} `{Equipment.Text_extraction}
        `{!Atlas.Search_index float64}.
#[local] Abbreviation world := (Runtime.world float64 RandomState).
#[local] Abbreviation document := (Bson.document float64).

(** X20. [embed_text] leaves numpy's process-wide generator in a state that
    the text alone determines, whatever the state was before, and changes
    nothing else. *)
Theorem embed_text_reseeds_generator (text : string) (w1 w2 : world) :
  Py.blank text = false ->
  np_random (snd (Embeddings.embed_text text w1))
  = np_random (snd (Embeddings.embed_text text w2))
  /\ snd (Embeddings.embed_text text w1)
     = set_np_random (np_random (snd (Embeddings.embed_text text w1))) w1.
Proof.
  intros Hblank.
  destruct (EmbeddingFacts.embed_text_ok text w1 Hblank) as (seed & Hseed & ->).
  destruct (EmbeddingFacts.embed_text_ok text w2 Hblank) as (seed' & Hseed' & ->).
  rewrite Hseed in Hseed'. injection Hseed' as <-. split; reflexivity.
Qed.

(** The records the loop over the chunks builds name the document, the
    equipment, the tenant and the file they are built for, and are enabled. *)
Lemma embed_chunks_scope (document_id equipment_oid : Z) (tenant_id : Bson.value float64)
  (original_name : string) (total index : Z) (chunks : list string)
  (chunk_documents : list document) (w : world) :
  exists new w',
    Equipment.embed_chunks document_id equipment_oid tenant_id original_name total index
                           chunks chunk_documents w
    = (Py.Ok (chunk_documents ++ new), w')
    /\ Forall (fun d : document =>
                 d !! "equipment_id" = Some (Bson.Scalar (Bson.Oid equipment_oid))
                 /\ d !! "tenant_id" = Some tenant_id
                 /\ d !! "file_name" = Some (Equipment.str original_name)
                 /\ d !! "is_disabled" = Some (Bson.Scalar (Bson.Bool false))) new.
Proof.
  revert index chunk_documents w.
  induction chunks as [|chunk_text rest IH]; intros index chunk_documents w.
  - exists [], w. rewrite app_nil_r. split; [reflexivity | constructor].
  - cbn [Equipment.embed_chunks]. run.
    destruct (Py.blank chunk_text) eqn:Hblank.
    + rewrite EmbeddingFacts.embed_text_blank by exact Hblank. run.
      match goal with
      | |- context [Equipment.embed_chunks _ _ _ _ _ _ rest ?acc ?w0] =>
        destruct (IH (index + 1) acc w0) as (new & w' & Hrun & Hnew)
      end.
      exists new, w'. split; [exact Hrun | exact Hnew].
    + destruct (EmbeddingFacts.embed_text_ok chunk_text w Hblank) as (seed & _ & ->).
      run.
      match goal with
      | |- context [Equipment.new_chunk_doc ?a ?b ?c ?d ?e ?f ?g ?h] =>
        set (chunk_doc := Equipment.new_chunk_doc a b c d e f g h)
      end.
      destruct (((index + 1) mod 10 =? 0) || (index =? total - 1)); run;
        match goal with
        | |- context [Equipment.embed_chunks _ _ _ _ _ _ rest ?acc ?w0] =>
          destruct (IH (index + 1) acc w0) as (new & w' & Hrun & Hnew)
        end;
        (exists (chunk_doc :: new), w';
         split; [rewrite Hrun, <- app_assoc; reflexivity|];
         constructor; [repeat split; reflexivity | exact Hnew]).
Qed.

(** The filter of a retrieval scoped to an equipment and a tenant. *)
Lemma scoped_filter (id t : string) (oid : Z) (w w' : world) (f : gmap string Bson.cond) :
  Bson.ObjectId id = Py.Ok oid ->
  Py.truthy t = true ->
  Rag.build_match_filters (Some id) (Some t) None w = (Py.Ok f, w') ->
  f = <["tenant_id" := Bson.Eq (Bson.Str t)]>
        (<["equipment_id" := Bson.Eq (Bson.Oid oid)]> Rag.not_disabled).
Proof.
  intros Hid Ht.
  unfold Rag.build_match_filters, Rag.add_equipment_filter, Rag.add_tenant_filter,
    Rag.add_extra_filters.
  rewrite (ScopeFacts.ObjectId_truthy id oid Hid), Hid, Ht. run.
  intros [= <- _]. reflexivity.
Qed.

Lemma scoped_record_matches (t : string) (oid : Z) (d : document) :
  d !! "equipment_id" = Some (Bson.Scalar (Bson.Oid oid)) ->
  d !! "tenant_id" = Some (Equipment.str t) ->
  d !! "is_disabled" = Some (Bson.Scalar (Bson.Bool false)) ->
  Bson.matches (<["tenant_id" := Bson.Eq (Bson.Str t)]>
                  (<["equipment_id" := Bson.Eq (Bson.Oid oid)]> Rag.not_disabled)) d
  = true.
Proof.
  intros Hequipment Htenant Henabled.
  unfold Bson.matches. apply forallb_forall. intros [key c] Hentry.
  apply list_elem_of_In, elem_of_map_to_list in Hentry. cbn [fst snd].
  apply lookup_insert_Some in Hentry as [[<- <-] | [_ Hentry]].
  - cbn [Bson.holds]. rewrite Htenant. apply BsonFacts.equals_same.
  - apply lookup_insert_Some in Hentry as [[<- <-] | [_ Hentry]].
    + cbn [Bson.holds]. rewrite Hequipment. apply BsonFacts.equals_same.
    + unfold Rag.not_disabled in Hentry.
      apply lookup_singleton_Some in Hentry as [<- <-].
      cbn [Bson.holds]. rewrite Henabled. reflexivity.
Qed.

(** X21. Every chunk record an upload stores for a file names the equipment
    and the tenant of the upload and the file, and is enabled; so each of
    them satisfies the filter a retrieval builds for that equipment and
    that tenant. *)
Theorem stored_chunks_are_in_scope (equipment_id t : string) (equipment_oid : Z)
  (description : option string) (file : Equipment.UploadFile) (text : string) (w : world) :
  let original_name := Py.or_default (Equipment.filename file) "upload.bin" in
  let content_type :=
    Py.or_default (Equipment.content_type file) "application/octet-stream" in
  Bson.ObjectId equipment_id = Py.Ok equipment_oid ->
  Py.truthy t = true ->
  Equipment.is_supported content_type original_name = true ->
  Equipment.extract_text (Equipment.content file) original_name content_type = Py.Ok text ->
  Py.blank text = false ->
  Embeddings.split_text text <> [] ->
  let run := Equipment.process_file equipment_id equipment_oid (Equipment.str t)
                                    description file w in
  exists new,
    document_chunks (snd run) = document_chunks w ++ new
    /\ Forall (fun d : document =>
                 d !! "equipment_id" = Some (Bson.Scalar (Bson.Oid equipment_oid))
                 /\ d !! "tenant_id" = Some (Equipment.str t)
                 /\ d !! "file_name" = Some (Equipment.str original_name)
                 /\ d !! "is_disabled" = Some (Bson.Scalar (Bson.Bool false))
                 /\ forall (w0 w1 : world) f,
                      Rag.build_match_filters (Some equipment_id) (Some t) None w0
                      = (Py.Ok f, w1) ->
                      Bson.matches f d = true) new.
Proof.
  intros original_name content_type Hid Ht Hsupported Hextract Hblank Hchunks run.
  subst run. unfold Equipment.process_file.
  fold original_name content_type. rewrite Hsupported, Hextract, Hblank.
  destruct (Embeddings.split_text text) as [|c cs] eqn:Hsplit; [congruence|].
  cbn [negb Py.nonempty]. run. unfold Bson.insert_one. cbv beta iota zeta. run.
  match goal with
  | |- context [Equipment.embed_chunks ?a ?b ?tn ?n ?tot ?i ?cks ?acc ?w0] =>
    destruct (embed_chunks_scope a b tn n tot i cks acc w0) as (new & w' & Hrun & Hnew)
  end.
  rewrite Hrun. cbn [app]. run.
  destruct new as [|d0 new0]; cbn [Py.nonempty negb]; run.
  - exists []. rewrite app_nil_r.
    assert (Hsame : document_chunks w' = document_chunks w).
    { pose proof (f_equal snd Hrun) as Hstate. cbn [snd] in Hstate.
      match type of Hrun with
      | Equipment.embed_chunks ?a ?b ?tn ?n ?tot ?i ?cks ?acc ?w0 = _ =>
        destruct (EquipmentFacts.embed_chunks_run a b tn n tot i cks acc w0)
          as (new1 & st & n1 & l & Hrun1 & _)
      end.
      rewrite Hrun1 in Hstate. cbn [snd] in Hstate. subst w'. reflexivity. }
    split; [exact Hsame | constructor].
  - assert (Hsame : document_chunks w' = document_chunks w).
    { pose proof (f_equal snd Hrun) as Hstate. cbn [snd] in Hstate.
      match type of Hrun with
      | Equipment.embed_chunks ?a ?b ?tn ?n ?tot ?i ?cks ?acc ?w0 = _ =>
        destruct (EquipmentFacts.embed_chunks_run a b tn n tot i cks acc w0)
          as (new1 & st & n1 & l & Hrun1 & _)
      end.
      rewrite Hrun1 in Hstate. cbn [snd] in Hstate. subst w'. reflexivity. }
    rewrite Hsame.
    destruct (BsonFacts.insert_many_app (d0 :: new0) (document_chunks w))
      as (inserted & -> & Hids).
    exists inserted. split; [reflexivity|].
    revert Hnew Hids. generalize (d0 :: new0). intros docs Hnew Hids. revert Hnew.
    induction Hids as [|d d' docs' new' (id & ->) _ IH]; intros Hnew; [constructor|].
    apply Forall_cons in Hnew as [(Hequipment & Htenant & Hname & Henabled) Hrest].
    constructor; [|exact (IH Hrest)].
    rewrite !lookup_insert_ne by discriminate.
    split; [exact Hequipment|]. split; [exact Htenant|]. split; [exact Hname|].
    split; [exact Henabled|].
    intros w0 w1 f Hbuild.
    rewrite (scoped_filter equipment_id t equipment_oid w0 w1 f Hid Ht Hbuild).
    apply scoped_record_matches; rewrite lookup_insert_ne by discriminate; assumption.
Qed.

End Facts.
End PipelineFacts.

Lemma embed_text_reseeds_generator_witness :
  Py.blank "relief valve" = false
  /\ Runtime.np_random (snd (Embeddings.embed_text "relief valve" empty_world))
     = Runtime.np_random (snd (Embeddings.embed_text "relief valve" yard))
  /\ snd (Embeddings.embed_text "relief valve" empty_world)
     = Runtime.set_np_random
         (Runtime.np_random (snd (Embeddings.embed_text "relief valve" empty_world)))
         empty_world.
Proof.
  split; [reflexivity|].
  exact (PipelineFacts.embed_text_reseeds_generator "relief valve" empty_world yard eq_refl).
Defined.

Lemma stored_chunks_are_in_scope_witness :
  Bson.ObjectId pump_id = Py.Ok pump_oid
  /\ Py.truthy "acme" = true
  /\ Equipment.is_supported "text/plain" "notes.txt" = true
  /\ Equipment.extract_text (Equipment.content notes) "notes.txt" "text/plain"
     = Py.Ok "alpha| |beta"
  /\ Py.blank "alpha| |beta" = false
  /\ Embeddings.split_text "alpha| |beta" <> []
  /\ let run := Equipment.process_file pump_id pump_oid (Equipment.str "acme") None notes
                                       yard in
     exists new,
       Runtime.document_chunks (snd run) = Runtime.document_chunks yard ++ new
       /\ Forall (fun d : Bson.document Z =>
                    d !! "equipment_id" = Some (Bson.Scalar (Bson.Oid pump_oid))
                    /\ d !! "tenant_id" = Some (Equipment.str "acme")
                    /\ d !! "file_name" = Some (Equipment.str "notes.txt")
                    /\ d !! "is_disabled" = Some (Bson.Scalar (Bson.Bool false))
                    /\ forall (w0 w1 : Runtime.world Z Z) f,
                         Rag.build_match_filters (Some pump_id) (Some "acme") None w0
                         = (Py.Ok f, w1) ->
                         Bson.matches f d = true) new.
Proof.
  assert (Hchunks : Embeddings.split_text "alpha| |beta" <> [])
    by (vm_compute; discriminate).
  split; [reflexivity|]. split; [reflexivity|]. split; [vm_compute; reflexivity|].
  split; [vm_compute; reflexivity|]. split; [vm_compute; reflexivity|].
  split; [exact Hchunks|].
  refine (PipelineFacts.stored_chunks_are_in_scope pump_id "acme" pump_oid None notes
            "alpha| |beta" yard _ _ _ _ _ Hchunks);
    vm_compute; reflexivity.
Defined.

(** What is uploaded to the pump is found by a search scoped to the pump,
    and not by one scoped to the press. *)
Example upload_then_search :
  let stocked := snd (Equipment.upload_equipment_documents pump_id [leaflet] None yard) in
  let texts (e t : string) :=
    match fst (Rag.retrieve "vector_index" "pump manual" 5 (Some e) (Some t) None stocked) with
    | Py.Ok r => Some (map (@ChunkContent.text Z) (RetrievalResult.data r))
    | Py.Raise _ => None
    end in
  head <$> texts pump_id "acme" = Some (Some (Bson.Scalar (Bson.Str "pump manual")))
  /\ length <$> texts pump_id "acme" = Some 3%nat
  /\ length <$> texts press_id "globex" = Some 1%nat.
Proof. vm_compute. repeat split; reflexivity. Qed.

(** [ObjectId] reads its string with [bytes.fromhex], which skips
    whitespace before a byte: 24 characters that spell eight bytes with
    blanks between them are accepted, as an identifier of eight bytes that
    no stored equipment has. A deletion under it is answered 404, not 400,
    and a retrieval under it is scoped to it and finds nothing. *)
Example identifier_with_blanks :
  let id := "65 a1 b2 c3 d4 e5 f6 07 " in
  (Bson.oid_str <$> match Bson.ObjectId id with Py.Ok oid => Some oid | Py.Raise _ => None end)
  = Some "65a1b2c3d4e5f607"
  /\ Py.is_ok (Bson.ObjectId "6 5a1b2c3d4e5f60718293a4") = false
  /\ fst (Equipment.delete_equipment id yard)
     = Py.Raise (Py.HTTPException 404 "Equipment not found")
  /\ fst (Equipment.delete_equipment "pump-7" yard)
     = Py.Raise (Py.HTTPException 400 "Invalid equipment_id format")
  /\ match Rag.retrieve "vector_index" "platen" 5 (Some id) None None yard with
     | (Py.Ok r, w) =>
       Some (length (RetrievalResult.data r),
             match Runtime.aggregations w with
             | [[_; Atlas.Match f; _; _]] =>
               match f !! "equipment_id" with
               | Some (Bson.Eq (Bson.Oid _)) => true
               | _ => false
               end
             | _ => false
             end)
     | _ => None
     end = Some (0%nat, true).
Proof. vm_compute. repeat split; reflexivity. Qed.
